(** * SCTE-35 splice information table generator (upipe_ts_scte35_generator.c)

    A shallow embedding of the generator pipe: the byte-level section
    synthesizers, the reassembly list of input urefs, the list of pending
    messages and the emission scheduler driven by the mux.

    - A mapped ubuf block is a list of bytes; the accessors of the
      bitstream headers become functions on it that store at offsets, and a
      store outside the block is [None].
    - The pipe is a record with the fields of [struct upipe_ts_scte35g] that
      the generator itself reads and writes; the two ulists are lists,
      ulist_add appending at the end and ulist_pop taking the head.
    - Every function of the pipe maps a [world] to a [world]: the pipe, the
      outcomes of the allocations still to come, and the trace of what the
      pipe logged, threw, published and sent. *)

From Stdlib Require Import String ZArith List Bool Lia.
From coqutil Require Import Z.bitblast.
Import ListNotations.
Open Scope Z_scope.

(** ** Constants *)

Definition UINT64_MAX : Z := 18446744073709551615.
Definition UINT64_MOD : Z := 18446744073709551616.
Definition UINT16_MOD : Z := 65536.
Definition UINT32_MOD : Z := 4294967296.

(** T-STD TB octet rate for PSI tables *)
Definition TB_RATE_PSI : Z := 125000.
(** 2^33 (max resolution of PCR, PTS and DTS) *)
Definition POW2_33 : Z := 8589934592.
(** Modelled from the spec: UCLOCK_FREQ is declared in uclock.h, outside the
    sources at hand; the clock contract gives 27 MHz. *)
Definition UCLOCK_FREQ : Z := 27000000.
(** ratio between Upipe freq and MPEG freq *)
Definition CLOCK_SCALE : Z := UCLOCK_FREQ / 90000.

(** Modelled from the spec: the PSI and TS sizes come from the bitstream
    headers; the resource policy gives PSI_MAX_SIZE + PSI_HEADER_SIZE =
    1021 + 3 and the interval effect gives TS_SIZE - TS_HEADER_SIZE - 1 = 183. *)
Definition PSI_HEADER_SIZE : nat := 3.
Definition PSI_MAX_SIZE : nat := 1021.
Definition PSI_CRC_SIZE : nat := 4.
Definition DESC_HEADER_SIZE : nat := 2.
Definition TS_SIZE : Z := 188.
Definition TS_HEADER_SIZE : Z := 4.

(** Modelled from the spec: the SCTE-35 constants come from the bitstream
    header scte/35.h; section 6 gives the table id and the fourteen bytes
    before the command body, section 3 the command types, and section 4.2
    the fields that make up the sizes of splice_insert(), splice_time() and
    break_duration(). *)
Definition SCTE35_TABLE_ID : Z := 252.
Definition SCTE35_HEADER_SIZE : nat := 14.
Definition SCTE35_HEADER2_SIZE : nat := 2.
Definition SCTE35_NULL_COMMAND : Z := 0.
Definition SCTE35_INSERT_COMMAND : Z := 5.
Definition SCTE35_TIME_SIGNAL_COMMAND : Z := 6.
Definition SCTE35_INSERT_HEADER_SIZE : Z := 5.
Definition SCTE35_INSERT_HEADER2_SIZE : Z := 1.
Definition SCTE35_INSERT_FOOTER_SIZE : Z := 4.
Definition SCTE35_SPLICE_TIME_HEADER_SIZE : Z := 1.
Definition SCTE35_SPLICE_TIME_TIME_SIZE : Z := 4.
Definition SCTE35_BREAK_DURATION_HEADER_SIZE : Z := 5.

(** ** Byte blocks

    A mapped ubuf block is a list of bytes (each a [Z] below 256).  Every
    store below is of a constant below 256 or of a value its accessor has
    masked to eight bits, so a store keeps the value as it is.  A store
    outside the block has no defined behaviour in C and is [None] here. *)

Definition block := list Z.

Definition u8 (v : Z) : Z := v mod 256.

Fixpoint set8 (p : block) (i : nat) (v : Z) : option block :=
  match p, i with
  | [], _ => None
  | _ :: t, O => Some (v :: t)
  | x :: t, S j =>
      match set8 t j v with
      | Some t' => Some (x :: t')
      | None => None
      end
  end.

Definition get8 (p : block) (i : nat) : Z := nth i p 0.

Definition obind {A B : Type} (o : option A) (f : A -> option B) : option B :=
  match o with
  | Some a => f a
  | None => None
  end.

Notation "x <- c ;; k" := (obind c (fun x => k))
  (at level 61, c at next level, right associativity).

(** Stores a run of bytes from offset [i] on. *)
Fixpoint write_bytes (p : block) (i : nat) (bs : list Z) : option block :=
  match bs with
  | [] => Some p
  | b :: bs' => p' <- set8 p i b ;; write_bytes p' (S i) bs'
  end.

(** ** CRC-32/MPEG-2 *)

(** Modelled from the spec: psi_set_crc comes from the bitstream headers; the
    spec gives polynomial 0x04C11DB7, initial value 0xFFFFFFFF, no reflection
    and no final xor, over every byte before the four CRC bytes. *)

Definition crc32_shift (crc : Z) : Z :=
  if Z.testbit crc 31
  then Z.land (Z.lxor (Z.shiftl crc 1) 79764919) 4294967295
  else Z.land (Z.shiftl crc 1) 4294967295.

Definition crc32_byte (crc b : Z) : Z :=
  Nat.iter 8 crc32_shift (Z.lxor crc (Z.shiftl b 24)).

Definition crc32_mpeg (bs : list Z) : Z := fold_left crc32_byte bs 4294967295.

(** [(v >> k) & 0xff] and [(v >> k) & 1]. *)
Definition byte_of (v k : Z) : Z := Z.land (Z.shiftr v k) 255.
Definition bit_of (v k : Z) : Z := Z.land (Z.shiftr v k) 1.

(** The four bytes of a 32-bit value, most significant first. *)
Definition be32 (v : Z) : list Z :=
  [byte_of v 24; byte_of v 16; byte_of v 8; byte_of v 0].

(** ** PSI section header *)

(** Modelled from the spec: the psi_* accessors come from the bitstream
    headers; section 6 gives the layout (table_id, two flag bits, two reserved
    bits set, a 12-bit section_length counting everything after itself). *)

Definition psi_set_length (p : block) (len : Z) : option block :=
  p1 <- set8 p 1 (Z.lor (Z.land (get8 p 1) 240) (Z.land (Z.shiftr len 8) 15)) ;;
  set8 p1 2 (Z.land len 255).

Definition psi_get_length (p : block) : Z :=
  Z.lor (Z.shiftl (Z.land (get8 p 1) 15) 8) (get8 p 2).

Definition psi_set_crc (p : block) : option block :=
  let n := (Z.to_nat (psi_get_length p) + PSI_HEADER_SIZE - PSI_CRC_SIZE)%nat in
  write_bytes p n (be32 (crc32_mpeg (firstn n p))).

(** ** Splice information section *)

(** Modelled from the spec: the scte35_* accessors, here and in the three
    subsections on the commands, come from the bitstream headers; section 6
    gives the layout of the section and section 4.2 the fields of the three
    commands (SCTE 35 section 9.7).  Reserved bits are set. *)

Definition scte35_init (p : block) : option block :=
  p <- set8 p 0 SCTE35_TABLE_ID ;;
  p <- set8 p 1 48 ;;
  p <- set8 p 3 0 ;;
  p <- set8 p 4 0 ;;
  p <- set8 p 9 0 ;;
  p <- set8 p 10 255 ;;
  set8 p 11 240.

Definition scte35_set_pts_adjustment (p : block) (adj : Z) : option block :=
  p <- set8 p 4 (Z.lor (Z.land (get8 p 4) 254) (Z.land (Z.shiftr adj 32) 1)) ;;
  p <- set8 p 5 (Z.land (Z.shiftr adj 24) 255) ;;
  p <- set8 p 6 (Z.land (Z.shiftr adj 16) 255) ;;
  p <- set8 p 7 (Z.land (Z.shiftr adj 8) 255) ;;
  set8 p 8 (Z.land adj 255).

Definition scte35_set_command_length (p : block) (len : Z) : option block :=
  p1 <- set8 p 11 (Z.lor (Z.land (get8 p 11) 240) (Z.land (Z.shiftr len 8) 15)) ;;
  set8 p1 12 (Z.land len 255).

Definition scte35_get_command_length (p : block) : Z :=
  Z.lor (Z.shiftl (Z.land (get8 p 11) 15) 8) (get8 p 12).

Definition scte35_set_command_type (p : block) (t : Z) : option block :=
  set8 p 13 t.

Definition scte35_get_command_type (p : block) : Z := get8 p 13.

(** Offset of the command body. *)
Definition scte35_get_command (p : block) : nat := SCTE35_HEADER_SIZE.

(** Offset of descriptor_loop_length. *)
Definition scte35_desclength_off (p : block) : nat :=
  (SCTE35_HEADER_SIZE + Z.to_nat (scte35_get_command_length p))%nat.

Definition scte35_set_desclength (p : block) (len : Z) : option block :=
  let o := scte35_desclength_off p in
  p1 <- set8 p o (Z.land (Z.shiftr len 8) 255) ;;
  set8 p1 (S o) (Z.land len 255).


(** Offset of the descriptor loop. *)
Definition scte35_get_descl (p : block) : nat :=
  (scte35_desclength_off p + SCTE35_HEADER2_SIZE)%nat.

Definition scte35_null_init (p : block) : option block :=
  p <- scte35_set_command_type p SCTE35_NULL_COMMAND ;;
  scte35_set_command_length p 0.

(** The closing steps every synthesizer shares: length fix-up with the
    value the caller computed, CRC, and the trim to
    [psi_get_length + PSI_HEADER_SIZE] done by ubuf_block_resize. *)
Definition psi_finish (p : block) (len : Z) : option block :=
  p <- psi_set_length p len ;;
  p <- psi_set_crc p ;;
  Some (firstn (Z.to_nat (psi_get_length p) + PSI_HEADER_SIZE) p).

(** The section written by upipe_ts_scte35g_build_null into a fresh block. *)
Definition build_null_section (raw : block) : option block :=
  p <- scte35_init raw ;;
  p <- psi_set_length p (Z.of_nat PSI_MAX_SIZE) ;;
  p <- scte35_set_pts_adjustment p 0 ;;
  p <- scte35_null_init p ;;
  p <- scte35_set_desclength p 0 ;;
  psi_finish p
    (Z.of_nat (scte35_get_descl p + PSI_CRC_SIZE - PSI_HEADER_SIZE)).

(** *** splice_time() and break_duration() *)

(** Modelled from the spec: accessors of the bitstream headers; [t] is the
    offset of the structure in the block.  Both structures are a flag in
    the top bit, six reserved bits, and a 33-bit time. *)

Definition scte35_splice_time_init (p : block) (t : nat) : option block :=
  set8 p t 127.

Definition scte35_splice_time_set_time_specified (p : block) (t : nat)
    (b : bool) : option block :=
  set8 p t (if b then Z.lor (get8 p t) 128 else Z.land (get8 p t) 127).

Definition scte35_splice_time_has_time_specified (p : block) (t : nat) : bool :=
  Z.testbit (get8 p t) 7.

(** Stores a 33-bit value: its top bit in the low bit of the first byte,
    the other 32 bits in the next four bytes. *)
Definition set_33bits (p : block) (t : nat) (v : Z) : option block :=
  p <- set8 p t (Z.lor (Z.land (get8 p t) 254) (bit_of v 32)) ;;
  p <- set8 p (t + 1) (byte_of v 24) ;;
  p <- set8 p (t + 2) (byte_of v 16) ;;
  p <- set8 p (t + 3) (byte_of v 8) ;;
  set8 p (t + 4) (byte_of v 0).

Definition get_33bits (p : block) (t : nat) : Z :=
  Z.lor (Z.shiftl (Z.land (get8 p t) 1) 32)
    (Z.lor (Z.shiftl (get8 p (t + 1)) 24)
       (Z.lor (Z.shiftl (get8 p (t + 2)) 16)
          (Z.lor (Z.shiftl (get8 p (t + 3)) 8) (get8 p (t + 4))))).

Definition scte35_splice_time_set_pts_time := set_33bits.
Definition scte35_splice_time_get_pts_time := get_33bits.

Definition scte35_splice_time_size (p : block) (t : nat) : nat :=
  (Z.to_nat SCTE35_SPLICE_TIME_HEADER_SIZE +
   (if scte35_splice_time_has_time_specified p t
    then Z.to_nat SCTE35_SPLICE_TIME_TIME_SIZE else 0))%nat.

Definition scte35_break_duration_init (p : block) (t : nat) : option block :=
  set8 p t 255.

Definition scte35_break_duration_set_auto_return (p : block) (t : nat)
    (b : bool) : option block :=
  set8 p t (if b then Z.lor (get8 p t) 128 else Z.land (get8 p t) 127).

Definition scte35_break_duration_has_auto_return (p : block) (t : nat) : bool :=
  Z.testbit (get8 p t) 7.

Definition scte35_break_duration_set_duration := set_33bits.
Definition scte35_break_duration_get_duration := get_33bits.

(** *** splice_insert() *)

(** Modelled from the spec: accessors of the bitstream headers.  The
    command body starts at offset 14: four bytes of splice_event_id, the
    cancel indicator with seven reserved bits, then (when not cancelled) the
    flag byte, splice_time(), break_duration() and the four bytes of
    unique_program_id, avail_num and avails_expected. *)

Definition scte35_insert_init (p : block) (len : Z) : option block :=
  p <- scte35_set_command_type p SCTE35_INSERT_COMMAND ;;
  scte35_set_command_length p (SCTE35_INSERT_HEADER_SIZE + len).

Definition scte35_insert_set_cancel (p : block) (b : bool) : option block :=
  set8 p 18 (if b then 255 else 127).

Definition scte35_insert_has_cancel (p : block) : bool :=
  Z.testbit (get8 p 18) 7.

Definition scte35_insert_set_event_id (p : block) (id : Z) : option block :=
  write_bytes p 14 (be32 id).

Definition scte35_insert_get_event_id (p : block) : Z :=
  Z.lor (Z.shiftl (get8 p 14) 24)
    (Z.lor (Z.shiftl (get8 p 15) 16)
       (Z.lor (Z.shiftl (get8 p 16) 8) (get8 p 17))).

(** The first flag written also sets the four reserved bits of the byte. *)
Definition scte35_insert_set_out_of_network (p : block) (b : bool)
    : option block :=
  set8 p 19 (if b then 143 else 15).

Definition set_flag (p : block) (i : nat) (mask : Z) (b : bool) : option block :=
  set8 p i (if b then Z.lor (get8 p i) mask
            else Z.land (get8 p i) (255 - mask)).

Definition scte35_insert_set_program_splice (p : block) (b : bool) :=
  set_flag p 19 64 b.
Definition scte35_insert_set_duration (p : block) (b : bool) :=
  set_flag p 19 32 b.
Definition scte35_insert_set_splice_immediate (p : block) (b : bool) :=
  set_flag p 19 16 b.

Definition scte35_insert_has_out_of_network (p : block) : bool :=
  Z.testbit (get8 p 19) 7.
Definition scte35_insert_has_program_splice (p : block) : bool :=
  Z.testbit (get8 p 19) 6.
Definition scte35_insert_has_duration (p : block) : bool :=
  Z.testbit (get8 p 19) 5.
Definition scte35_insert_is_splice_immediate (p : block) : bool :=
  Z.testbit (get8 p 19) 4.

(** Offset of splice_time(), or [None] (a NULL pointer) when the flags say
    there is none.  The component mode is never written by this pipe. *)
Definition scte35_insert_get_splice_time (p : block) : option nat :=
  if scte35_insert_has_program_splice p
     && negb (scte35_insert_is_splice_immediate p)
  then Some 20%nat else None.

Definition scte35_insert_after_splice_time (p : block) : option nat :=
  if scte35_insert_has_program_splice p
  then Some (if scte35_insert_is_splice_immediate p then 20
             else 20 + scte35_splice_time_size p 20)%nat
  else None.

Definition scte35_insert_get_break_duration (p : block) : option nat :=
  if scte35_insert_has_duration p
  then scte35_insert_after_splice_time p else None.

(** Offset of unique_program_id, past the optional structures. *)
Definition scte35_insert_get_footer (p : block) : option nat :=
  o <- scte35_insert_after_splice_time p ;;
  Some (if scte35_insert_has_duration p
        then o + Z.to_nat SCTE35_BREAK_DURATION_HEADER_SIZE else o)%nat.

Definition scte35_insert_set_unique_program_id (p : block) (id : Z)
    : option block :=
  o <- scte35_insert_get_footer p ;;
  p <- set8 p o (byte_of id 8) ;;
  set8 p (o + 1) (byte_of id 0).

Definition scte35_insert_get_unique_program_id (p : block) : option Z :=
  o <- scte35_insert_get_footer p ;;
  Some (Z.lor (Z.shiftl (get8 p o) 8) (get8 p (o + 1))).

Definition scte35_insert_set_avail_num (p : block) (n : Z) : option block :=
  o <- scte35_insert_get_footer p ;;
  set8 p (o + 2) n.

Definition scte35_insert_set_avails_expected (p : block) (n : Z)
    : option block :=
  o <- scte35_insert_get_footer p ;;
  set8 p (o + 3) n.

(** *** time_signal() *)

(** Modelled from the spec: accessors of the bitstream headers; the command
    body is one splice_time(). *)

Definition scte35_time_signal_init (p : block) (len : Z) : option block :=
  p <- scte35_set_command_type p SCTE35_TIME_SIGNAL_COMMAND ;;
  scte35_set_command_length p (SCTE35_SPLICE_TIME_HEADER_SIZE + len).

Definition scte35_time_signal_get_splice_time (p : block) : nat :=
  scte35_get_command p.

(** *** Descriptor loop *)

(** Modelled from the spec: descl_get_desc and scte35_splice_desc_get_length
    come from the bitstream headers; a descriptor is a tag byte, a length
    byte and that many bytes.  [descl_get_desc p descl len n] is the offset
    of the [n]-th descriptor of the loop at [descl], or [None] (NULL) when it
    lies beyond [len] bytes. *)

Definition scte35_splice_desc_get_length (p : block) (desc : nat) : Z :=
  get8 p (desc + 1).

Fixpoint descl_walk (p : block) (descl : nat) (len : Z) (rel : nat) (n : nat)
    : option nat :=
  match n with
  | O => if Z.of_nat rel <? len then Some (descl + rel)%nat else None
  | S n' =>
      if len <? Z.of_nat (rel + DESC_HEADER_SIZE) then None
      else descl_walk p descl len
             (rel + DESC_HEADER_SIZE
              + Z.to_nat (scte35_splice_desc_get_length p (descl + rel)))%nat
             n'
  end.

Definition descl_get_desc (p : block) (descl : nat) (len : Z) (n : nat)
    : option nat :=
  descl_walk p descl len 0 n.

(** ** Input urefs *)

(** Modelled from the spec: struct uref and its attribute getters are
    declared in uref.h, uref_clock.h, uref_block.h and uref_ts_scte35.h,
    outside the sources at hand; section 6 lists the attributes of an input
    record.  A uref carries its dates and the block start and end flags
    itself and the SCTE-35 attributes in its dictionary;
    [uref_udict = None] is a uref whose udict pointer is NULL.  A
    continuation uref carries a descriptor. *)

Record splice_desc := mk_splice_desc {
  desc_tag : Z;
  desc_data : list Z
}.

Record udict := mk_udict {
  scte35_command_type : option Z;
  scte35_event_id : option Z;
  scte35_cancel : bool;
  scte35_out_of_network : bool;
  scte35_auto_return : bool;
  scte35_unique_program_id : option Z;
  scte35_desc : option splice_desc
}.

Record uref := mk_uref {
  uref_udict : option udict;
  block_start : bool;
  block_end : bool;
  pts_prog : option Z;
  duration : option Z;
  pts_sys : option Z
}.

Definition udict_get {A : Type} (f : udict -> option A) (u : uref) : option A :=
  d <- uref_udict u ;; f d.

Definition udict_flag (f : udict -> bool) (u : uref) : bool :=
  match uref_udict u with
  | Some d => f d
  | None => false
  end.

Definition uref_ts_scte35_get_command_type := udict_get scte35_command_type.

(** A getter leaves its out-parameter alone when the attribute is absent, so
    the local keeps the value it was initialised with. *)
Definition get_or {A : Type} (init : A) (o : option A) : A :=
  match o with
  | Some v => v
  | None => init
  end.

(** Modelled from the spec: upipe_ts_scte_export_desc is defined in
    upipe_ts_scte_common.c, outside the sources at hand.  It exports the
    descriptor of a uref as a byte run that starts with splice_descriptor_tag
    and descriptor_length, and fails (the descriptor is then skipped) when the
    uref holds none or its data does not fit the one-byte length. *)
Definition exported_desc (u : uref) : option (list Z) :=
  d <- udict_get scte35_desc u ;;
  if (length (desc_data d) <=? 255)%nat
  then Some (map u8 (desc_tag d :: Z.of_nat (length (desc_data d))
                       :: desc_data d))
  else None.

(** [None] is a store through a NULL or overrunning pointer; otherwise the
    block and whether the export succeeded. *)
Definition upipe_ts_scte_export_desc (u : uref) (p : block) (desc : option nat)
    : option (block * bool) :=
  match exported_desc u with
  | None => Some (p, false)
  | Some run => d <- desc ;; p' <- write_bytes p d run ;; Some (p', true)
  end.

(** ** The section synthesizers

    Each is the body of the for loop of its function: everything between
    the mapping of the fresh block [raw] and its trim. *)

Definition insert_size (cancel : bool) (pts_prog duration : Z) : Z :=
  if cancel then 0
  else SCTE35_INSERT_HEADER2_SIZE + SCTE35_INSERT_FOOTER_SIZE
       + (if pts_prog =? UINT64_MAX then 0
          else SCTE35_SPLICE_TIME_HEADER_SIZE + SCTE35_SPLICE_TIME_TIME_SIZE)
       + (if duration =? UINT64_MAX then 0
          else SCTE35_BREAK_DURATION_HEADER_SIZE).

Definition insert_section (raw : block) (event_id : Z)
    (cancel out_of_network auto_return : bool) (program_id duration pts_prog : Z)
    : option block :=
  p <- scte35_init raw ;;
  p <- psi_set_length p (Z.of_nat PSI_MAX_SIZE) ;;
  p <- scte35_set_pts_adjustment p 0 ;;
  p <- scte35_insert_init p (insert_size cancel pts_prog duration) ;;
  p <- scte35_insert_set_cancel p cancel ;;
  p <- scte35_insert_set_event_id p (event_id mod UINT32_MOD) ;;
  p <- (if cancel then Some p else
        p <- scte35_insert_set_out_of_network p out_of_network ;;
        p <- scte35_insert_set_program_splice p true ;;
        p <- scte35_insert_set_duration p (negb (duration =? UINT64_MAX)) ;;
        p <- scte35_insert_set_splice_immediate p (pts_prog =? UINT64_MAX) ;;
        p <- (if pts_prog =? UINT64_MAX then Some p else
              t <- scte35_insert_get_splice_time p ;;
              p <- scte35_splice_time_init p t ;;
              p <- scte35_splice_time_set_time_specified p t true ;;
              scte35_splice_time_set_pts_time p t
                ((pts_prog / CLOCK_SCALE) mod POW2_33)) ;;
        p <- (if duration =? UINT64_MAX then Some p else
              b <- scte35_insert_get_break_duration p ;;
              p <- scte35_break_duration_init p b ;;
              p <- scte35_break_duration_set_auto_return p b auto_return ;;
              scte35_break_duration_set_duration p b
                ((duration / CLOCK_SCALE) mod POW2_33)) ;;
        p <- scte35_insert_set_unique_program_id p (program_id mod UINT16_MOD) ;;
        p <- scte35_insert_set_avail_num p 0 ;;
        scte35_insert_set_avails_expected p 0) ;;
  p <- scte35_set_desclength p 0 ;;
  psi_finish p
    (Z.of_nat (scte35_get_descl p + PSI_CRC_SIZE - PSI_HEADER_SIZE)).

(** The ulist_foreach over the remaining urefs: [descl_length] and [i] are
    the two counters of the loop. *)
Fixpoint export_descs (p : block) (descl : nat) (descl_length : Z) (i : nat)
    (us : list uref) : option (block * Z) :=
  match us with
  | [] => Some (p, descl_length)
  | u :: us' =>
      let desc :=
        descl_get_desc p descl
          ((descl_length + Z.of_nat DESC_HEADER_SIZE) mod UINT16_MOD) i in
      r <- upipe_ts_scte_export_desc u p desc ;;
      let (p', ok) := (r : block * bool) in
      if ok then
        d <- desc ;;
        export_descs p' descl
          ((descl_length + Z.of_nat DESC_HEADER_SIZE
            + scte35_splice_desc_get_length p' d) mod UINT16_MOD)
          (S i) us'
      else export_descs p' descl descl_length i us'
  end.

(** The part of a pass of upipe_ts_scte35g_time_signal before its
    descriptor loop. *)
Definition time_signal_command (raw : block) (pts_orig : Z) : option block :=
  p <- scte35_init raw ;;
  p <- psi_set_length p (Z.of_nat PSI_MAX_SIZE) ;;
  p <- scte35_set_pts_adjustment p 0 ;;
  let i_size :=
    if pts_orig =? UINT64_MAX then 0 else SCTE35_SPLICE_TIME_TIME_SIZE in
  p <- scte35_time_signal_init p i_size ;;
  let t := scte35_time_signal_get_splice_time p in
  p <- scte35_splice_time_init p t ;;
  p <- scte35_splice_time_set_time_specified p t
         (negb (pts_orig =? UINT64_MAX)) ;;
  if pts_orig =? UINT64_MAX then Some p
  else scte35_splice_time_set_pts_time p t pts_orig.

Definition time_signal_section (raw : block) (pts_orig : Z) (us : list uref)
    : option block :=
  p <- time_signal_command raw pts_orig ;;
  r <- export_descs p (scte35_get_descl p) 0 0 us ;;
  let (p, descl_length) := (r : block * Z) in
  p <- scte35_set_desclength p descl_length ;;
  psi_finish p
    (Z.of_nat (scte35_get_descl p + PSI_CRC_SIZE - PSI_HEADER_SIZE)
     + descl_length).

Definition fresh_block : block := repeat 0 (PSI_MAX_SIZE + PSI_HEADER_SIZE).

(** ** The pipe

    [flow] is an input flow definition, known here by its definition
    string; [out_flow] holds the attributes of the output flow definition. *)

Record flow := mk_flow { flow_def_string : string }.

Record out_flow := mk_out_flow {
  psi_section_interval : Z;
  octetrate : Z;
  tb_rate : Z
}.

(** SCTE-35 message in the list of pending sections. *)
Record scte35_message := mk_msg {
  ubuf : option block;
  immediate : option block;
  cr_sys : Z
}.

(** Private context of a ts scte35g pipe. *)
Record upipe_ts_scte35g := mk_pipe {
  flow_def : option flow;
  output_flow_def : option out_flow;
  urefs : list uref;
  scte35_interval : Z;
  scte35_cr_sys : Z;
  scte35_null_section : option block;
  scte35_sections : list scte35_message
}.

Inductive log_level := VERBOSE | DBG | NOTICE | WARN.

(** What the pipe does to its surroundings. [Undefined] marks a run that
    left defined behaviour (a store outside a block). *)
Inductive event :=
| Log (l : log_level) (msg : string)
| Fatal
| Output (section : block) (cr : Z)
| FlowDef (f : out_flow)
| Undefined.

(** The pipe in its surroundings: [allocs] gives the outcome of the
    fallible allocations to come, in order ([true] once it is exhausted);
    [trace] collects the events, oldest first. *)
Record world := mk_world {
  pipe : upipe_ts_scte35g;
  allocs : list bool;
  trace : list event
}.

Inductive ubase_err :=
| UBASE_ERR_NONE | UBASE_ERR_INVALID | UBASE_ERR_ALLOC.

Definition with_pipe (f : upipe_ts_scte35g -> upipe_ts_scte35g) (w : world)
    : world :=
  mk_world (f (pipe w)) (allocs w) (trace w).

Definition emit (e : event) (w : world) : world :=
  mk_world (pipe w) (allocs w) (trace w ++ [e]).

Definition upipe_log (l : log_level) (msg : string) : world -> world :=
  emit (Log l msg).

Definition upipe_throw_fatal : world -> world := emit Fatal.

(** One fallible allocation. *)
Definition draw (w : world) : bool * world :=
  match allocs w with
  | [] => (true, w)
  | b :: rest => (b, mk_world (pipe w) rest (trace w))
  end.

Definition set_flow_def (v : option flow) (s : upipe_ts_scte35g) :=
  mk_pipe v (output_flow_def s) (urefs s) (scte35_interval s)
    (scte35_cr_sys s) (scte35_null_section s) (scte35_sections s).
Definition set_output_flow_def (v : option out_flow) (s : upipe_ts_scte35g) :=
  mk_pipe (flow_def s) v (urefs s) (scte35_interval s)
    (scte35_cr_sys s) (scte35_null_section s) (scte35_sections s).
Definition set_urefs (v : list uref) (s : upipe_ts_scte35g) :=
  mk_pipe (flow_def s) (output_flow_def s) v (scte35_interval s)
    (scte35_cr_sys s) (scte35_null_section s) (scte35_sections s).
Definition set_scte35_interval (v : Z) (s : upipe_ts_scte35g) :=
  mk_pipe (flow_def s) (output_flow_def s) (urefs s) v
    (scte35_cr_sys s) (scte35_null_section s) (scte35_sections s).
Definition set_scte35_cr_sys (v : Z) (s : upipe_ts_scte35g) :=
  mk_pipe (flow_def s) (output_flow_def s) (urefs s) (scte35_interval s)
    v (scte35_null_section s) (scte35_sections s).
Definition set_scte35_null_section (v : option block) (s : upipe_ts_scte35g) :=
  mk_pipe (flow_def s) (output_flow_def s) (urefs s) (scte35_interval s)
    (scte35_cr_sys s) v (scte35_sections s).
Definition set_scte35_sections (v : list scte35_message)
    (s : upipe_ts_scte35g) :=
  mk_pipe (flow_def s) (output_flow_def s) (urefs s) (scte35_interval s)
    (scte35_cr_sys s) (scte35_null_section s) v.

Definition scte35_message_new (cr : Z) : scte35_message :=
  mk_msg None None cr.

Definition scte35_message_set_ubuf (msg : scte35_message) (b : option block) :=
  mk_msg b (immediate msg) (cr_sys msg).

Definition scte35_message_set_immediate (msg : scte35_message)
    (b : option block) :=
  mk_msg (ubuf msg) b (cr_sys msg).

(** upipe_ts_scte35g_alloc *)
Definition upipe_ts_scte35g_alloc : upipe_ts_scte35g :=
  mk_pipe None None [] 0 0 None [].

(** One pass of a synthesis loop: ubuf_block_alloc, ubuf_block_write, then
    the section written into the fresh block.  [None] when the pass threw
    a fatal error (or left defined behaviour) and synthesis stops. *)
Definition alloc_section (build : block -> option block) (w : world)
    : option block * world :=
  let (ok, w) := draw w in
  if negb ok then (None, upipe_throw_fatal w) else
  let (ok, w) := draw w in
  if negb ok then (None, upipe_throw_fatal w) else
  match build fresh_block with
  | Some s => (Some s, w)
  | None => (None, emit Undefined w)
  end.

(** The for loop shared by upipe_ts_scte35g_input_insert and
    upipe_ts_scte35g_time_signal: a pass with the event's [pts_prog], and,
    unless that was already UINT64_MAX, a second pass after
    [pts_prog = UINT64_MAX].  [pass] logs what a pass logs and builds its
    section from the current value of [pts_prog].  [None] when the message
    was deleted on a failure. *)
Definition synth_loop (pass : Z -> world -> option block * world)
    (msg : scte35_message) (pts_prog : Z) (w : world)
    : option scte35_message * world :=
  match pass pts_prog w with
  | (None, w) => (None, w)
  | (Some s, w) =>
      if pts_prog =? UINT64_MAX
      then (Some (scte35_message_set_immediate msg (Some s)), w)
      else
        let msg := scte35_message_set_ubuf msg (Some s) in
        match pass UINT64_MAX w with
        | (None, w) => (None, w)
        | (Some s', w) =>
            (Some (scte35_message_set_immediate msg (Some s')), w)
        end
  end.

(** The tail both synthesizers share: ulist_add of the message, the reset
    of scte35_cr_sys, the notice. *)
Definition add_message (notice : string) (r : option scte35_message * world)
    : world :=
  match r with
  | (None, w) => w
  | (Some msg, w) =>
      upipe_log NOTICE notice
        (with_pipe (fun s =>
           set_scte35_cr_sys 0
             (set_scte35_sections (scte35_sections s ++ [msg]) s)) w)
  end.

(** upipe_ts_scte35g_input_insert; flush calls it on a list that is not
    empty. *)
Definition upipe_ts_scte35g_input_insert (w : world) : world :=
  match urefs (pipe w) with
  | [] => w
  | u :: rest =>
      let w := with_pipe (set_urefs rest) w in
      let pts := get_or UINT64_MAX (pts_prog u) in
      let dur := get_or UINT64_MAX (duration u) in
      let cr := get_or 0 (pts_sys u) in
      let event_id := get_or 0 (udict_get scte35_event_id u) in
      let cancel := udict_flag scte35_cancel u in
      let out_of_network := udict_flag scte35_out_of_network u in
      let auto_return := udict_flag scte35_auto_return u in
      let program_id := get_or 0 (udict_get scte35_unique_program_id u) in
      let (ok, w) := draw w in
      if negb ok then upipe_throw_fatal w else
      add_message "now using splice_insert command for event"
        (synth_loop
           (fun pts_prog =>
              alloc_section (fun raw =>
                insert_section raw event_id cancel out_of_network auto_return
                  program_id dur pts_prog))
           (scte35_message_new cr) pts w)
  end.

(** The local [pts_orig] of upipe_ts_scte35g_time_signal. *)
Definition time_signal_pts_orig (pts_prog : Z) : Z :=
  if pts_prog =? UINT64_MAX then UINT64_MAX
  else (pts_prog / CLOCK_SCALE) mod POW2_33.

(** The warnings of one pass of the descriptor loop. *)
Definition export_warnings (us : list uref) (w : world) : world :=
  fold_left (fun w u =>
               match exported_desc u with
               | Some _ => w
               | None => upipe_log WARN "fail to export descriptor" w
               end) us w.

(** upipe_ts_scte35g_time_signal; [pts_orig] is set before the loop and
    every pass serializes it. *)
Definition upipe_ts_scte35g_time_signal (w : world) : world :=
  match urefs (pipe w) with
  | [] => w
  | u :: rest =>
      let w := with_pipe (set_urefs rest) w in
      let pts := get_or UINT64_MAX (pts_prog u) in
      let cr := get_or 0 (pts_sys u) in
      let pts_orig := time_signal_pts_orig pts in
      let (ok, w) := draw w in
      if negb ok then upipe_throw_fatal w else
      add_message "now using time signal command"
        (synth_loop
           (fun _ w =>
              let (r, w) :=
                alloc_section (fun raw =>
                  time_signal_section raw pts_orig rest) w in
              (r, match r with
                  | Some _ => export_warnings rest w
                  | None => w
                  end))
           (scte35_message_new cr) pts w)
  end.

(** upipe_ts_scte35g_build_null *)
Definition upipe_ts_scte35g_build_null (w : world) : world :=
  match flow_def (pipe w) with
  | None => w
  | Some _ =>
      match alloc_section build_null_section w with
      | (Some s, w) => with_pipe (set_scte35_null_section (Some s)) w
      | (None, w) => w
      end
  end.

(** upipe_ts_scte35g_flush *)
Definition upipe_ts_scte35g_flush (w : world) : world :=
  let drain := with_pipe (set_urefs []) in
  match urefs (pipe w) with
  | [] => w
  | u :: _ =>
      match uref_ts_scte35_get_command_type u with
      | None => drain (upipe_log WARN "no command type found" w)
      | Some command_type =>
          if command_type =? SCTE35_INSERT_COMMAND
          then drain (upipe_ts_scte35g_input_insert w)
          else if command_type =? SCTE35_NULL_COMMAND
          then drain (upipe_ts_scte35g_build_null w)
          else if command_type =? SCTE35_TIME_SIGNAL_COMMAND
          then drain (upipe_ts_scte35g_time_signal w)
          else upipe_log WARN "unimplemented command type" w
      end
  end.

(** upipe_ts_scte35g_input.  An empty event walks the list [urefs] and
    stores NULL through the scte35_message view of each of its links;
    [msg_view] is what that store does to a uref, which depends on the
    layout of struct uref (declared in uref.h, outside the sources at
    hand). *)
Definition upipe_ts_scte35g_input (msg_view : uref -> uref) (w : world)
    (input : option uref) : world :=
  match input with
  | Some (mk_uref (Some d) _ _ _ _ _ as u) =>
      match scte35_command_type d with
      | None => upipe_log WARN "no command type in packet" w
      | Some _ =>
          let start := block_start u in
          let end_ := block_end u in
          let was_empty :=
            match urefs (pipe w) with [] => true | _ => false end in
          let (w, was_empty) :=
            if start && negb was_empty
            then (upipe_ts_scte35g_flush
                    (upipe_log WARN "force last event flush" w), true)
            else (w, was_empty) in
          let w := with_pipe (fun s => set_urefs (urefs s ++ [u]) s) w in
          if (negb was_empty || start) && negb end_
          then upipe_log VERBOSE "wait for next descriptor" w
          else upipe_ts_scte35g_flush w
      end
  | _ =>
      with_pipe (fun s => set_urefs (map msg_view (urefs s)) s)
        (upipe_log NOTICE
           "now using splice_null command due to empty event" w)
  end.

(** upipe_ts_scte35g_build_flow_def: uref_alloc_control and the four
    attribute stores are tried in turn until one fails. *)
Fixpoint draw_all (n : nat) (w : world) : bool * world :=
  match n with
  | O => (true, w)
  | S n' => let (ok, w) := draw w in
            if ok then draw_all n' w else (false, w)
  end.

Definition upipe_ts_scte35g_build_flow_def (w : world) : world :=
  let interval := scte35_interval (pipe w) in
  if interval =? 0 then w else
  let (ok, w) := draw_all 5 w in
  if negb ok then upipe_throw_fatal w else
  let f := mk_out_flow interval
             (((TS_SIZE - TS_HEADER_SIZE - 1) * UCLOCK_FREQ) mod UINT64_MOD
              / interval)
             TB_RATE_PSI in
  emit (FlowDef f) (with_pipe (set_output_flow_def (Some f)) w).

(** upipe_ts_scte35g_send *)
Definition upipe_ts_scte35g_send (section : block) (cr : Z) (w : world)
    : world :=
  let (ok1, w) := draw w in
  let (ok2, w) := draw w in
  if negb (ok1 && ok2) then upipe_throw_fatal w else
  with_pipe (set_scte35_cr_sys cr) (emit (Output section cr) w).

(** Modelled from the spec: uref_flow_match_def is declared in uref_flow.h,
    outside the sources at hand; a flow definition matches a format tag
    when its definition string starts with it. *)
Definition uref_flow_match_def (f : flow) (tag : string) : bool :=
  String.prefix tag (flow_def_string f).

(** upipe_ts_scte35g_set_flow_def *)
Definition upipe_ts_scte35g_set_flow_def (w : world) (f : option flow)
    : ubase_err * world :=
  match f with
  | None => (UBASE_ERR_INVALID, w)
  | Some fd =>
      if negb (uref_flow_match_def fd "void.scte35.")
      then (UBASE_ERR_INVALID, w) else
      let (ok, w) := draw w in
      if negb ok then (UBASE_ERR_ALLOC, upipe_throw_fatal w) else
      let scte35_change :=
        match flow_def (pipe w) with None => true | Some _ => false end in
      let w := with_pipe (set_flow_def (Some fd)) w in
      (UBASE_ERR_NONE,
       if scte35_change
       then upipe_ts_scte35g_build_flow_def (upipe_ts_scte35g_build_null w)
       else w)
  end.

Definition upipe_ts_scte35g_get_scte35_interval (w : world) : Z :=
  scte35_interval (pipe w).

Definition upipe_ts_scte35g_set_scte35_interval (w : world) (interval : Z)
    : ubase_err * world :=
  (UBASE_ERR_NONE,
   upipe_ts_scte35g_build_flow_def (with_pipe (set_scte35_interval interval) w)).

(** The ulist_delete_foreach of upipe_ts_scte35g_prepare over the pending
    messages: the messages that stay, the world and [handled]. *)
Fixpoint prepare_loop (cr : Z) (msgs : list scte35_message) (w : world)
    (handled : bool) : list scte35_message * world * bool :=
  match msgs with
  | [] => ([], w, handled)
  | msg :: rest =>
      if cr_sys msg <? cr then
        match immediate msg with
        | Some s =>
            prepare_loop cr rest
              (upipe_ts_scte35g_send s cr
                 (upipe_log NOTICE "sending an immediate event" w))
              true
        | None =>
            prepare_loop cr rest (upipe_log NOTICE "event expired" w) handled
        end
      else
        let w := upipe_log DBG "sending an event" w in
        let msg' := scte35_message_set_immediate msg None in
        let (w, handled) :=
          match ubuf msg' with
          | Some s => (upipe_ts_scte35g_send s cr w, true)
          | None => (w, handled)
          end in
        let '(kept, w, handled) := prepare_loop cr rest w handled in
        (msg' :: kept, w, handled)
  end.

(** upipe_ts_scte35g_prepare *)
Definition upipe_ts_scte35g_prepare (w : world) (cr latency : Z)
    : ubase_err * world :=
  match flow_def (pipe w), scte35_null_section (pipe w) with
  | Some _, Some null_section =>
      if (scte35_interval (pipe w) =? 0)
         || ((scte35_cr_sys (pipe w) + scte35_interval (pipe w)) mod UINT64_MOD
             >? cr)
      then (UBASE_ERR_NONE, w)
      else
        let '(kept, w, handled) :=
          prepare_loop cr (scte35_sections (pipe w)) w false in
        let w := with_pipe (set_scte35_sections kept) w in
        (UBASE_ERR_NONE,
         if handled then w else upipe_ts_scte35g_send null_section cr w)
  | _, _ => (UBASE_ERR_NONE, w)
  end.

(** ** The wire format, as the specification lays it out

    These definitions follow the layout of section 6 and the command fields
    of section 4.2 of the specification, not the code; the theorems below
    compare what the synthesizers write with them. *)

(** The fourteen bytes up to splice_command_type, for the given
    section_length [sl], splice_command_length [cl] and command type. *)
Definition header14 (sl cl command_type : Z) : list Z :=
  [252; Z.lor 48 (Z.land (Z.shiftr sl 8) 15); Z.land sl 255;
   0; 0; 0; 0; 0; 0; 0; 255;
   Z.lor 240 (Z.land (Z.shiftr cl 8) 15); Z.land cl 255; command_type].

(** A whole section: header, command body, descriptor_loop_length,
    descriptors, CRC_32. *)
Definition section_bytes (command_type : Z) (body descs : list Z) : list Z :=
  let cl := Z.of_nat (length body) in
  let dl := Z.of_nat (length descs) in
  let pre :=
    header14 (11 + cl + 2 + dl + 4) cl command_type
    ++ body ++ [Z.land (Z.shiftr dl 8) 255; Z.land dl 255] ++ descs in
  pre ++ be32 (crc32_mpeg pre).

(** splice_time() with time_specified_flag = 1: the flag, six reserved bits
    and the 33 bits of pts_time. *)
Definition splice_time_bytes (pts_time : Z) : list Z :=
  [Z.lor 254 (bit_of pts_time 32); byte_of pts_time 24; byte_of pts_time 16;
   byte_of pts_time 8; byte_of pts_time 0].

(** break_duration(): auto_return, six reserved bits, 33 bits of duration. *)
Definition break_duration_bytes (auto_return : bool) (d : Z) : list Z :=
  [Z.lor (if auto_return then 254 else 126) (bit_of d 32);
   byte_of d 24; byte_of d 16; byte_of d 8; byte_of d 0].

Definition insert_flags (out_of_network has_duration immediate : bool) : Z :=
  (if out_of_network then 128 else 0) + 64 + (if has_duration then 32 else 0)
  + (if immediate then 16 else 0) + 15.

(** The body of splice_insert() for the locals of
    upipe_ts_scte35g_input_insert ([UINT64_MAX] standing for an absent
    [pts_prog] or [duration]). *)
Definition insert_body (event_id : Z) (cancel out_of_network auto_return : bool)
    (program_id duration pts_prog : Z) : list Z :=
  be32 (event_id mod UINT32_MOD) ++
  (if cancel then [255] else
   [127; insert_flags out_of_network (negb (duration =? UINT64_MAX))
           (pts_prog =? UINT64_MAX)]
   ++ (if pts_prog =? UINT64_MAX then []
       else splice_time_bytes ((pts_prog / CLOCK_SCALE) mod POW2_33))
   ++ (if duration =? UINT64_MAX then []
       else break_duration_bytes auto_return
              ((duration / CLOCK_SCALE) mod POW2_33))
   ++ [byte_of (program_id mod UINT16_MOD) 8;
       byte_of (program_id mod UINT16_MOD) 0; 0; 0]).

(** The body of time_signal(): a splice_time(), one byte when no time is
    specified. *)
Definition time_signal_body (pts_orig : Z) : list Z :=
  if pts_orig =? UINT64_MAX then [127] else splice_time_bytes pts_orig.

(** The descriptors of the continuation urefs, concatenated; a uref whose
    export fails contributes nothing. *)
Definition exported_descs (us : list uref) : list Z :=
  flat_map (fun u => match exported_desc u with
                     | Some run => run
                     | None => []
                     end) us.

(** A descriptor as it sits in a descriptor loop: tag, length, and as many
    bytes of data as the length says. *)
Definition run_ok (r : list Z) : Prop :=
  exists t d, r = t :: Z.of_nat (length d) :: d /\ (length d <= 255)%nat.


(** Decoders of the command bodies, from the flags a section carries. *)
Definition insert_pts_time (s : block) : option Z :=
  if scte35_insert_has_cancel s then None else
  t <- scte35_insert_get_splice_time s ;;
  if scte35_splice_time_has_time_specified s t
  then Some (scte35_splice_time_get_pts_time s t) else None.

Definition insert_break_duration (s : block) : option (bool * Z) :=
  if scte35_insert_has_cancel s then None else
  b <- scte35_insert_get_break_duration s ;;
  Some (scte35_break_duration_has_auto_return s b,
        scte35_break_duration_get_duration s b).

Definition time_signal_pts_time (s : block) : option Z :=
  let t := scte35_time_signal_get_splice_time s in
  if scte35_splice_time_has_time_specified s t
  then Some (scte35_splice_time_get_pts_time s t) else None.

(** The sections among the events of a trace, with their cr_sys. *)
Fixpoint outputs (tr : list event) : list (block * Z) :=
  match tr with
  | [] => []
  | Output s cr :: tr' => (s, cr) :: outputs tr'
  | _ :: tr' => outputs tr'
  end.

(** The output flow definitions published in a trace. *)
Fixpoint published (tr : list event) : list out_flow :=
  match tr with
  | [] => []
  | FlowDef f :: tr' => f :: published tr'
  | _ :: tr' => published tr'
  end.

(** No allocation to come fails. *)
Definition allocs_ok (w : world) : Prop :=
  Forall (fun b => b = true) (allocs w).

(** ** The decision of a tick, as the specification words it

    For a pending message and the date [cr] of the tick: the form the
    scheduler sends (the immediate one once the deadline has passed, the
    scheduled one before), and whether the message stays in the list. *)

Definition tick_form (cr : Z) (msg : scte35_message) : option block :=
  if cr_sys msg <? cr then immediate msg else ubuf msg.

Definition tick_sections (cr : Z) (msgs : list scte35_message) : list block :=
  flat_map (fun msg => match tick_form cr msg with
                       | Some s => [s]
                       | None => []
                       end) msgs.

Definition tick_kept (cr : Z) (msgs : list scte35_message)
    : list scte35_message :=
  map (fun msg => scte35_message_set_immediate msg None)
    (filter (fun msg => negb (cr_sys msg <? cr)) msgs).

(** The sections a qualifying tick sends: those of the pending messages in
    their order, or the null section when there is none. *)
Definition tick_sent (cr : Z) (null_section : block)
    (msgs : list scte35_message) : list block :=
  match tick_sections cr msgs with
  | [] => [null_section]
  | l => l
  end.

(** The tick invariant with "exactly one section": either too early and
    nothing sent, or one section sent and scte35_cr_sys moved to [cr]. *)
Definition tick_exactly_one (w : world) (cr latency : Z) : Prop :=
  let w' := snd (upipe_ts_scte35g_prepare w cr latency) in
  (cr - scte35_cr_sys (pipe w) < scte35_interval (pipe w)
   /\ outputs (trace w') = outputs (trace w))
  \/ (exists o, outputs (trace w') = outputs (trace w) ++ [o]
                /\ scte35_cr_sys (pipe w') = cr).

(** The message upipe_ts_scte35g_input_insert builds from the first uref
    of the list: an immediate form always, a scheduled form when pts_prog
    is present. *)
Definition insert_message (u : uref) : scte35_message :=
  let pts := get_or UINT64_MAX (pts_prog u) in
  let section p :=
    section_bytes SCTE35_INSERT_COMMAND
      (insert_body (get_or 0 (udict_get scte35_event_id u))
         (udict_flag scte35_cancel u) (udict_flag scte35_out_of_network u)
         (udict_flag scte35_auto_return u)
         (get_or 0 (udict_get scte35_unique_program_id u))
         (get_or UINT64_MAX (duration u)) p) [] in
  mk_msg (if pts =? UINT64_MAX then None else Some (section pts))
    (Some (section UINT64_MAX)) (get_or 0 (pts_sys u)).

(** The message upipe_ts_scte35g_time_signal builds from the first uref
    of the list and the descriptors of the others: every pass serializes
    the same [pts_orig], so both forms are the same section. *)
Definition time_signal_message (u : uref) (rest : list uref)
    : scte35_message :=
  let pts := get_or UINT64_MAX (pts_prog u) in
  let section :=
    section_bytes SCTE35_TIME_SIGNAL_COMMAND
      (time_signal_body (time_signal_pts_orig pts)) (exported_descs rest) in
  mk_msg (if pts =? UINT64_MAX then None else Some section)
    (Some section) (get_or 0 (pts_sys u)).

(** The claim that a fragment arriving with neither start nor end on an
    empty list is flushed at once and not kept. *)
Definition flushed_at_once (msg_view : uref -> uref) (w : world) (u : uref)
    : Prop :=
  urefs (pipe (upipe_ts_scte35g_input msg_view w (Some u))) = [].

(** The claim that a matching flow definition rebuilds the null section and
    republishes the output flow definition on every change. *)
Definition rebuilt_on_change (w : world) (f : flow) : Prop :=
  let w' := snd (upipe_ts_scte35g_set_flow_def w (Some f)) in
  scte35_null_section (pipe w') <> None
  /\ published (trace w') <> published (trace w).

(** ** Concrete runs

    A pipe that was given a flow definition and the interval of 50 ms, and
    the events of the end-to-end scenarios. *)

Definition scte35_flow : flow := mk_flow "void.scte35.".
Definition scte35_flow' : flow := mk_flow "void.scte35.other.".

Definition w_start : world := mk_world upipe_ts_scte35g_alloc [] [].

Definition w_ready : world :=
  Eval vm_compute in
  snd (upipe_ts_scte35g_set_scte35_interval
         (snd (upipe_ts_scte35g_set_flow_def w_start (Some scte35_flow)))
         1350000).

(** A whole event in one uref: start and end set. *)
Definition event_uref (command_type event_id : Z) (pts dur : option Z) : uref :=
  mk_uref
    (Some (mk_udict (Some command_type) (Some event_id) false true true
             (Some 66) None))
    true true pts dur (Some 5000000).

(** A fragment with neither start nor end. *)
Definition fragment_uref (command_type : Z) : uref :=
  mk_uref
    (Some (mk_udict (Some command_type) (Some 1) false true true
             (Some 66) None))
    false false None None (Some 5000000).

Definition same_uref (u : uref) : uref := u.

(** A continuation uref with a descriptor of twelve bytes. *)
Definition desc_uref : uref :=
  mk_uref
    (Some (mk_udict (Some SCTE35_TIME_SIGNAL_COMMAND) None false false false
             None (Some (mk_splice_desc 2 [67; 85; 69; 73; 0; 0; 0; 1; 127;
                                           191]))))
    false true None None None.

(** Two scheduled INSERT events pushed before any tick. *)
Definition w_two_events : world :=
  Eval vm_compute in
  upipe_ts_scte35g_input same_uref
    (upipe_ts_scte35g_input same_uref w_ready
       (Some (event_uref SCTE35_INSERT_COMMAND 1 (Some 9000000)
                (Some 2700000))))
    (Some (event_uref SCTE35_INSERT_COMMAND 2 (Some 9000000) None)).

(** A pipe whose first null section could not be allocated: uref_dup
    succeeded, ubuf_block_alloc failed. *)
Definition w_no_null : world :=
  Eval vm_compute in
  snd (upipe_ts_scte35g_set_scte35_interval
         (snd (upipe_ts_scte35g_set_flow_def
                 (mk_world upipe_ts_scte35g_alloc [true; false] [])
                 (Some scte35_flow)))
         1350000).

(** A whole event in one uref, with the given pts_sys. *)
Definition event_uref_at (command_type event_id : Z) (pts dur : option Z)
    (sys : Z) : uref :=
  mk_uref
    (Some (mk_udict (Some command_type) (Some event_id) false true true
             (Some 66) None))
    true true pts dur (Some sys).

(** Two scheduled INSERT events pushed before any tick, the first with the
    deadline 1000000, the second with the deadline 5000000. *)
Definition w_mixed : world :=
  Eval vm_compute in
  upipe_ts_scte35g_input same_uref
    (upipe_ts_scte35g_input same_uref w_ready
       (Some (event_uref_at SCTE35_INSERT_COMMAND 1 (Some 9000000)
                (Some 2700000) 1000000)))
    (Some (event_uref SCTE35_INSERT_COMMAND 2 (Some 9000000) None)).


(** The claim that the scheduled form of the message a flush appends for
    an event with the pts_prog [p] carries pts_time = (p / 300) mod 2^33,
    [pts_time] being the decoder of the event's command. *)
Definition scheduled_pts_time_law (pts_time : block -> option Z) (w : world)
    (p : Z) : Prop :=
  exists msg s,
    scte35_sections (pipe (upipe_ts_scte35g_flush w))
    = scte35_sections (pipe w) ++ [msg]
    /\ ubuf msg = Some s
    /\ pts_time s = Some ((p / 300) mod 2 ^ 33).

(** A continuation uref in the middle of an event, with a descriptor of
    twelve bytes. *)
Definition cont_uref : uref :=
  mk_uref
    (Some (mk_udict (Some SCTE35_TIME_SIGNAL_COMMAND) None false false false
             None (Some (mk_splice_desc 2 [67; 85; 69; 73; 0; 0; 0; 1; 127;
                                           191]))))
    false false None None None.

(** A cancelled splice_insert event with a pts_prog. *)
Definition cancelled_uref : uref :=
  mk_uref
    (Some (mk_udict (Some SCTE35_INSERT_COMMAND) (Some 1) true false false
             (Some 66) None))
    true true (Some 9000000) None (Some 5000000).

(** ** Sequences of inputs, and what a step leaves alone *)

(** Pushes a sequence of input urefs, in order. *)
Definition push_all (msg_view : uref -> uref) (w : world) (us : list uref)
    : world :=
  fold_left (fun w u => upipe_ts_scte35g_input msg_view w (Some u)) us w.

(** A uref in the middle of an event: a command type, neither start nor
    end. *)
Definition is_continuation (u : uref) : Prop :=
  uref_ts_scte35_get_command_type u <> None
  /\ block_start u = false /\ block_end u = false.

(** Every uref of the list of input urefs carries a command type. *)
Definition urefs_typed (w : world) : Prop :=
  Forall (fun u => uref_ts_scte35_get_command_type u <> None)
    (urefs (pipe w)).

(** The messages a flush appends for the first uref [u] of the list and
    the urefs [rest] behind it. *)
Definition flushed_messages (u : uref) (rest : list uref)
    : list scte35_message :=
  match uref_ts_scte35_get_command_type u with
  | Some ct =>
      if ct =? SCTE35_INSERT_COMMAND then [insert_message u]
      else if ct =? SCTE35_TIME_SIGNAL_COMMAND
           then [time_signal_message u rest]
           else []
  | None => []
  end.

(** [w'] differs from [w] by what an input may do: nothing is sent or
    published, the interval and the flow definitions stay, and the pending
    messages of [w] are still there, in front. *)
Definition input_frame (w w' : world) : Prop :=
  outputs (trace w') = outputs (trace w)
  /\ published (trace w') = published (trace w)
  /\ flow_def (pipe w') = flow_def (pipe w)
  /\ output_flow_def (pipe w') = output_flow_def (pipe w)
  /\ scte35_interval (pipe w') = scte35_interval (pipe w)
  /\ exists l, scte35_sections (pipe w')
               = scte35_sections (pipe w) ++ l.

(** [w'] differs from [w] by what the sends of a tick at [cr] may do:
    either nothing was sent and the pipe is as it was, or sections were
    sent, each stamped [cr], and scte35_cr_sys is [cr]. *)
Definition tick_frame (cr : Z) (w w' : world) : Prop :=
  published (trace w') = published (trace w)
  /\ ((pipe w' = pipe w /\ outputs (trace w') = outputs (trace w))
      \/ (pipe w' = set_scte35_cr_sys cr (pipe w)
          /\ exists sent, sent <> []
               /\ outputs (trace w')
                  = outputs (trace w) ++ map (fun s => (s, cr)) sent)).

(** [w'] differs from [w] by allocations drawn and by events that are
    neither a section sent nor a flow definition published. *)
Definition silent (w w' : world) : Prop :=
  pipe w' = pipe w
  /\ outputs (trace w') = outputs (trace w)
  /\ published (trace w') = published (trace w).

(** The trace of [w'] goes on from that of [w]. *)
Definition extends (w w' : world) : Prop :=
  exists tr, trace w' = trace w ++ tr.

(** The trace of [w'] goes on from that of [w] and ends with a fatal
    error thrown. *)
Definition thrown (w w' : world) : Prop :=
  exists tr, trace w' = trace w ++ tr ++ [Fatal].

(** The first uref of an event that goes on: start set, end not set. *)
Definition start_uref (command_type : Z) (pts : option Z) : uref :=
  mk_uref
    (Some (mk_udict (Some command_type) (Some 1) false true true
             (Some 66) None))
    true false pts None (Some 5000000).

(** A continuation uref in the middle of an event, with a descriptor of
    three bytes. *)
Definition mid_uref : uref :=
  mk_uref
    (Some (mk_udict (Some SCTE35_TIME_SIGNAL_COMMAND) None false false false
             None (Some (mk_splice_desc 1 [7]))))
    false false None None None.

(** An INSERT event without pts_prog, pushed before any tick. *)
Definition w_immediate_only : world :=
  Eval vm_compute in
  upipe_ts_scte35g_input same_uref w_ready
    (Some (event_uref SCTE35_INSERT_COMMAND 1 None None)).

(** ** uclock_std.c *)

(** What clock_gettime fills in. *)
Record timespec := mk_timespec {
  tv_sec : Z;
  tv_nsec : Z
}.

(** uclock_std_now (the clock_gettime branch): [ts] is the time read from
    the clock, [None] when clock_gettime returned -1.  The arithmetic is
    that of uint64_t. *)
Definition uclock_std_now (ts : option timespec) : Z :=
  match ts with
  | None => 0
  | Some ts =>
      ((tv_sec ts * UCLOCK_FREQ) mod UINT64_MOD
       + ((tv_nsec ts * UCLOCK_FREQ) mod UINT64_MOD) / 1000000000)
      mod UINT64_MOD
  end.

(** * Properties *)

(** ** Stores into a block *)

Section Stores.

Lemma set8_length p : forall i v p',
  set8 p i v = Some p' -> length p' = length p.
Proof.
  induction p as [|x t IH]; intros i v p' H; simpl in H; [discriminate|].
  destruct i as [|j].
  - injection H as <-. reflexivity.
  - destruct (set8 t j v) as [t'|] eqn:E; [|discriminate].
    injection H as <-. simpl. f_equal. eauto.
Qed.

Lemma set8_app_r a : forall b j v,
  set8 (a ++ b) (length a + j) v = option_map (app a) (set8 b j v).
Proof.
  induction a as [|x a IH]; intros b j v; simpl.
  - destruct (set8 b j v); reflexivity.
  - rewrite IH. destruct (set8 b j v); reflexivity.
Qed.

Lemma set8_at a x t v :
  set8 (a ++ x :: t) (length a) v = Some (a ++ v :: t).
Proof.
  rewrite <- (Nat.add_0_r (length a)) at 1. rewrite set8_app_r. reflexivity.
Qed.

Lemma write_bytes_app bs : forall a t,
  (length bs <= length t)%nat ->
  write_bytes (a ++ t) (length a) bs = Some (a ++ bs ++ skipn (length bs) t).
Proof.
  induction bs as [|b bs IH]; intros a t H; simpl.
  - reflexivity.
  - destruct t as [|x t]; simpl in H; [lia|].
    rewrite set8_at. simpl.
    replace (S (length a)) with (length (a ++ [b]))
      by (rewrite length_app; simpl; lia).
    replace (a ++ b :: t) with ((a ++ [b]) ++ t)
      by (rewrite <- app_assoc; reflexivity).
    rewrite IH by lia. rewrite <- app_assoc. reflexivity.
Qed.

Lemma write_bytes_short bs : forall a t,
  (length t < length bs)%nat ->
  write_bytes (a ++ t) (length a) bs = None.
Proof.
  induction bs as [|b bs IH]; intros a t H; simpl in *; [lia|].
  destruct t as [|x t].
  - rewrite <- (Nat.add_0_r (length a)), set8_app_r. reflexivity.
  - rewrite set8_at. simpl.
    replace (S (length a)) with (length (a ++ [b]))
      by (rewrite length_app; simpl; lia).
    replace (a ++ b :: t) with ((a ++ [b]) ++ t)
      by (rewrite <- app_assoc; reflexivity).
    apply IH. simpl in H. lia.
Qed.

Lemma get8_app_r a b j : get8 (a ++ b) (length a + j) = get8 b j.
Proof. unfold get8. rewrite app_nth2_plus. reflexivity. Qed.

End Stores.

(** ** Bit fields *)

Section BitFields.

Lemma bit_of_cases v k : bit_of v k = 0 \/ bit_of v k = 1.
Proof.
  unfold bit_of.
  assert (E : Z.land (Z.shiftr v k) 1 = Z.shiftr v k mod 2)
    by exact (Z.land_ones (Z.shiftr v k) 1 ltac:(lia)).
  pose proof (Z.mod_pos_bound (Z.shiftr v k) 2 eq_refl). lia.
Qed.

Lemma testbit_high v k n :
  0 <= v < 2 ^ k -> 0 <= k -> k <= n -> Z.testbit v n = false.
Proof.
  intros Hv Hk Hn. rewrite <- (Z.mod_small v (2 ^ k)) by assumption.
  apply Z.mod_pow2_bits_high. lia.
Qed.

(** A 12-bit field split over the low nibble of a byte and the next byte
    reads back as it was stored. *)
Lemma field12_roundtrip hi v :
  Z.land hi 15 = 0 -> 0 <= v < 4096 ->
  Z.lor (Z.shiftl (Z.land (Z.lor hi (Z.land (Z.shiftr v 8) 15)) 15) 8)
    (Z.land v 255) = v.
Proof.
  intros Hhi Hv.
  assert (Hb : forall i, 0 <= i -> Z.testbit hi i && Z.testbit 15 i = false)
    by (intros i _; rewrite <- Z.land_spec, Hhi; apply Z.bits_0).
  change 255 with (Z.ones 8). change 15 with (Z.ones 4) in *.
  Z.bitblast.
  - specialize (Hb l ltac:(lia)).
    rewrite Z.testbit_ones_nonneg in Hb by lia.
    destruct (Z.ltb_spec l 4); [|lia].
    rewrite andb_true_r in Hb. rewrite Hb. simpl.
    rewrite !andb_true_r, andb_false_r, orb_false_r. reflexivity.
  - simpl. rewrite !andb_false_r. simpl. symmetry.
    apply (testbit_high v 12); lia.
Qed.

Lemma field16_roundtrip v :
  0 <= v < 65536 ->
  Z.lor (Z.shiftl (Z.land (Z.shiftr v 8) 255) 8) (Z.land v 255) = v.
Proof.
  intros Hv. change 255 with (Z.ones 8).
  Z.bitblast. rewrite (testbit_high v 16) by lia. reflexivity.
Qed.

(** The 33 bits stored by [set_33bits] read back, whatever the seven other
    bits of the first byte are. *)
Lemma field33_roundtrip top v :
  0 <= v < 2 ^ 33 ->
  Z.lor (Z.shiftl (Z.land (Z.lor (Z.shiftl top 1) (bit_of v 32)) 1) 32)
    (Z.lor (Z.shiftl (byte_of v 24) 24)
       (Z.lor (Z.shiftl (byte_of v 16) 16)
          (Z.lor (Z.shiftl (byte_of v 8) 8) (byte_of v 0)))) = v.
Proof.
  intros Hv. unfold byte_of, bit_of.
  change 255 with (Z.ones 8).
  change (Z.land (Z.shiftr v 32) 1) with (Z.land (Z.shiftr v 32) (Z.ones 1)).
  replace (Z.land (Z.lor (Z.shiftl top 1) (Z.land (Z.shiftr v 32) (Z.ones 1))) 1)
    with (Z.land (Z.lor (Z.shiftl top 1) (Z.land (Z.shiftr v 32) (Z.ones 1)))
            (Z.ones 1)) by reflexivity.
  Z.bitblast.
  - rewrite (Z.testbit_neg_r top l) by lia.
    destruct (Z.testbit v l4); reflexivity.
  - rewrite (testbit_high v 33) by lia.
    destruct (Z.testbit top l); reflexivity.
Qed.

End BitFields.

(** ** What the synthesizers write

    The commands are compared with the wire format on a fresh block of
    arbitrary content: every byte of a section is written before it is
    used. *)

Section Layout.

Ltac peel H :=
  match type of H with
  | length ?l = _ =>
      destruct l as [|? l]; [discriminate H|];
      simpl in H; apply eq_add_S in H
  end.

Tactic Notation "fresh_cells" hyp(H) integer(n) :=
  unfold PSI_MAX_SIZE, PSI_HEADER_SIZE in H; simpl Nat.add in H;
  do n peel H; clear H.

Lemma build_null_section_layout raw :
  length raw = (PSI_MAX_SIZE + PSI_HEADER_SIZE)%nat ->
  build_null_section raw = Some (section_bytes SCTE35_NULL_COMMAND [] []).
Proof.
  intros H. fresh_cells H 20.
  cbv -[crc32_mpeg byte_of]. reflexivity.
Qed.

Lemma insert_section_layout raw event_id cancel out_of_network auto_return
    program_id duration pts_prog :
  length raw = (PSI_MAX_SIZE + PSI_HEADER_SIZE)%nat ->
  insert_section raw event_id cancel out_of_network auto_return program_id
    duration pts_prog =
  Some (section_bytes SCTE35_INSERT_COMMAND
          (insert_body event_id cancel out_of_network auto_return program_id
             duration pts_prog) []).
Proof.
  intros H. fresh_cells H 40.
  unfold insert_section, insert_body, insert_size,
    scte35_splice_time_set_pts_time, scte35_break_duration_set_duration,
    set_33bits, splice_time_bytes, break_duration_bytes.
  generalize (event_id mod UINT32_MOD) (program_id mod UINT16_MOD)
    ((pts_prog / CLOCK_SCALE) mod POW2_33)
    ((duration / CLOCK_SCALE) mod POW2_33).
  intros E P T D.
  destruct (bit_of_cases T 32) as [-> | ->],
    (bit_of_cases D 32) as [-> | ->];
  destruct cancel, out_of_network, auto_return,
    (pts_prog =? UINT64_MAX), (duration =? UINT64_MAX);
    cbv -[crc32_mpeg byte_of]; reflexivity.
Qed.

(** Before its descriptor loop a pass of time_signal has written the
    header (with the provisional section_length) and the command body, and
    nothing behind them. *)
Lemma time_signal_command_layout raw pts_orig :
  length raw = (PSI_MAX_SIZE + PSI_HEADER_SIZE)%nat ->
  let body := time_signal_body pts_orig in
  time_signal_command raw pts_orig =
  Some (header14 (Z.of_nat PSI_MAX_SIZE) (Z.of_nat (length body))
          SCTE35_TIME_SIGNAL_COMMAND
        ++ body ++ skipn (SCTE35_HEADER_SIZE + length body) raw).
Proof.
  intros H. fresh_cells H 20.
  unfold time_signal_command, time_signal_body,
    scte35_splice_time_set_pts_time, set_33bits, splice_time_bytes.
  destruct (bit_of_cases pts_orig 32) as [-> | ->];
  destruct (pts_orig =? UINT64_MAX);
    cbv -[byte_of]; reflexivity.
Qed.

End Layout.

(** ** The descriptor loop of time_signal *)

Section DescriptorLoop.

Lemma exported_desc_run u r : exported_desc u = Some r -> run_ok r.
Proof.
  unfold exported_desc, udict_get, obind.
  destruct (uref_udict u) as [d|]; [|discriminate].
  destruct (scte35_desc d) as [sd|]; [|discriminate].
  destruct (Nat.leb_spec (length (desc_data sd)) 255) as [Hle|]; [|discriminate].
  intros [= <-].
  exists (u8 (desc_tag sd)), (map u8 (desc_data sd)).
  rewrite length_map. split; [|assumption].
  simpl. do 2 f_equal. unfold u8. apply Z.mod_small. lia.
Qed.

Lemma exported_descs_cons u us :
  exported_descs (u :: us) =
  match exported_desc u with Some run => run | None => [] end
  ++ exported_descs us.
Proof. reflexivity. Qed.

(** Walking over the descriptors written so far ends right behind them. *)
Lemma descl_walk_runs runs : forall A P X len,
  Forall run_ok runs ->
  Z.of_nat (length P + length (concat runs)) < len ->
  descl_walk (A ++ P ++ concat runs ++ X) (length A) len (length P)
    (length runs)
  = Some (length A + (length P + length (concat runs)))%nat.
Proof.
  induction runs as [|r runs IH]; intros A P X len Hok Hlen.
  - simpl in *. destruct (Z.ltb_spec (Z.of_nat (length P)) len); [|lia].
    do 2 f_equal. lia.
  - inversion Hok as [|? ? (t & d & -> & Hd) Hok']; subst.
    cbn [concat] in *. rewrite length_app in Hlen.
    cbn [length] in Hlen. cbn [descl_walk length].
    destruct (Z.ltb_spec len (Z.of_nat (length P + DESC_HEADER_SIZE)));
      [unfold DESC_HEADER_SIZE in *; lia|].
    assert (Hget : scte35_splice_desc_get_length
                     (A ++ P ++ ((t :: Z.of_nat (length d) :: d)
                                 ++ concat runs) ++ X)
                     (length A + length P) = Z.of_nat (length d)).
    { unfold scte35_splice_desc_get_length.
      rewrite (app_assoc A P), <- length_app, get8_app_r. reflexivity. }
    rewrite Hget, Nat2Z.id.
    replace (length P + DESC_HEADER_SIZE + length d)%nat
      with (length (P ++ t :: Z.of_nat (length d) :: d))
      by (rewrite length_app; unfold DESC_HEADER_SIZE; simpl; lia).
    replace (A ++ P ++ ((t :: Z.of_nat (length d) :: d) ++ concat runs) ++ X)
      with (A ++ (P ++ t :: Z.of_nat (length d) :: d) ++ concat runs ++ X)
      by (rewrite <- !app_assoc; reflexivity).
    rewrite IH; [|assumption|rewrite length_app; simpl length; lia].
    f_equal. rewrite !length_app. simpl. lia.
Qed.

Lemma export_descs_layout us : forall A runs X,
  Forall run_ok runs ->
  Z.of_nat (length A + length (concat runs) + length X) < 65534 ->
  export_descs (A ++ concat runs ++ X) (length A)
    (Z.of_nat (length (concat runs))) (length runs) us =
  if (length (exported_descs us) <=? length X)%nat
  then Some (A ++ concat runs ++ exported_descs us
               ++ skipn (length (exported_descs us)) X,
             Z.of_nat (length (concat runs) + length (exported_descs us)))
  else None.
Proof.
  induction us as [|u us IH]; intros A runs X Hok Hlen.
  - simpl. rewrite Nat.add_0_r. reflexivity.
  - cbn [export_descs]. rewrite exported_descs_cons.
    unfold upipe_ts_scte_export_desc.
    destruct (exported_desc u) as [r|] eqn:Er.
    + pose proof (exported_desc_run _ _ Er) as Hr.
      assert (Hrun : Forall run_ok (runs ++ [r]))
        by (apply Forall_app; split; [assumption|constructor; auto]).
      destruct Hr as (t & d & Hr & Hd).
      assert (Hrl : length r = (2 + length d)%nat) by (subst r; reflexivity).
      assert (Hr1 : forall B Y, scte35_splice_desc_get_length
                                   (B ++ r ++ Y) (length B)
                                 = Z.of_nat (length d)).
      { intros B Y. unfold scte35_splice_desc_get_length.
        rewrite get8_app_r. subst r. reflexivity. }
      clear Hr.
      assert (Hcat : concat (runs ++ [r]) = concat runs ++ r)
        by (rewrite concat_app; cbn [concat]; rewrite app_nil_r; reflexivity).
      unfold descl_get_desc.
      rewrite Z.mod_small by (unfold DESC_HEADER_SIZE, UINT16_MOD; lia).
      rewrite (descl_walk_runs runs A [] X)
        by (simpl; unfold DESC_HEADER_SIZE; try assumption; lia).
      cbn [obind length Nat.add].
      replace (A ++ concat runs ++ X) with ((A ++ concat runs) ++ X)
        by (rewrite <- app_assoc; reflexivity).
      rewrite <- length_app.
      rewrite length_app with (l := r).
      destruct (Nat.leb_spec (length r) (length X)) as [Hfit|Hover].
      * rewrite write_bytes_app by lia. cbn [obind].
        rewrite Hr1.
        rewrite Z.mod_small
          by (unfold DESC_HEADER_SIZE, UINT16_MOD; lia).
        replace (Z.of_nat (length (concat runs)) + Z.of_nat DESC_HEADER_SIZE
                 + Z.of_nat (length d))
          with (Z.of_nat (length (concat (runs ++ [r]))))
          by (rewrite Hcat, length_app, Hrl; unfold DESC_HEADER_SIZE; lia).
        replace (S (length runs)) with (length (runs ++ [r]))
          by (rewrite length_app; simpl; lia).
        replace ((A ++ concat runs) ++ r ++ skipn (length r) X)
          with (A ++ concat (runs ++ [r]) ++ skipn (length r) X)
          by (rewrite Hcat, <- !app_assoc; reflexivity).
        rewrite IH;
          [|assumption
           |rewrite Hcat, length_app, length_skipn; lia].
        rewrite length_skipn, Hcat.
        destruct (Nat.leb_spec (length (exported_descs us))
                    (length X - length r)),
          (Nat.leb_spec (length r + length (exported_descs us)) (length X));
          try lia; [|reflexivity].
        rewrite skipn_skipn, !length_app, <- !app_assoc.
        rewrite (Nat.add_comm (length (exported_descs us)) (length r)).
        do 3 f_equal. lia.
      * rewrite write_bytes_short by lia.
        destruct (Nat.leb_spec (length r + length (exported_descs us))
                    (length X)); [lia|reflexivity].
    + cbn [obind]. rewrite IH by assumption. reflexivity.
Qed.

End DescriptorLoop.

(** ** Length fix-up, CRC and trim *)

Section Finish.

Lemma header14_command_length sl cl ct r :
  0 <= cl < 4096 ->
  scte35_get_command_length (header14 sl cl ct ++ r) = cl.
Proof.
  intros H. unfold scte35_get_command_length.
  change (get8 (header14 sl cl ct ++ r) 11)
    with (Z.lor 240 (Z.land (Z.shiftr cl 8) 15)).
  change (get8 (header14 sl cl ct ++ r) 12) with (Z.land cl 255).
  apply field12_roundtrip; [reflexivity|assumption].
Qed.

Lemma header14_length sl cl ct r :
  0 <= sl < 4096 -> psi_get_length (header14 sl cl ct ++ r) = sl.
Proof.
  intros H. unfold psi_get_length.
  change (get8 (header14 sl cl ct ++ r) 1)
    with (Z.lor 48 (Z.land (Z.shiftr sl 8) 15)).
  change (get8 (header14 sl cl ct ++ r) 2) with (Z.land sl 255).
  apply field12_roundtrip; [reflexivity|assumption].
Qed.

Lemma psi_set_length_header14 cl ct r sl :
  psi_set_length (header14 (Z.of_nat PSI_MAX_SIZE) cl ct ++ r) sl
  = Some (header14 sl cl ct ++ r).
Proof. reflexivity. Qed.

Lemma firstn_length_app {A : Type} (l l' : list A) :
  firstn (length l) (l ++ l') = l.
Proof.
  rewrite <- (Nat.add_0_r (length l)), firstn_app_2.
  simpl. apply app_nil_r.
Qed.

(** From the block a command and its descriptors leave behind to the
    finished section; [x] and [y] are the two bytes that receive
    descriptor_loop_length and [X] is the rest of the block, which must
    hold the CRC. *)
Lemma finish_layout ct body descs x y X :
  let cl := Z.of_nat (length body) in
  let dl := Z.of_nat (length descs) in
  11 + cl + 2 + dl + 4 < 4096 ->
  (p <- scte35_set_desclength
          (header14 (Z.of_nat PSI_MAX_SIZE) cl ct
           ++ body ++ x :: y :: descs ++ X) dl ;;
   psi_finish p
     (Z.of_nat (scte35_get_descl p + PSI_CRC_SIZE - PSI_HEADER_SIZE) + dl))
  = if (4 <=? length X)%nat then Some (section_bytes ct body descs)
    else None.
Proof.
  intros cl dl Hb.
  assert (Hcl : 0 <= cl < 4096) by lia.
  set (sl := 11 + cl + 2 + dl + 4) in *.
  assert (Hoff : forall s r,
             scte35_desclength_off (header14 s cl ct ++ r)
             = (14 + length body)%nat).
  { intros s r. unfold scte35_desclength_off.
    rewrite header14_command_length by assumption.
    unfold cl. rewrite Nat2Z.id. reflexivity. }
  set (d1 := Z.land (Z.shiftr dl 8) 255).
  set (d2 := Z.land dl 255).
  assert (HlenH : forall s, length (header14 s cl ct ++ body)
                            = (14 + length body)%nat)
    by (intros s; rewrite length_app; reflexivity).
  unfold scte35_set_desclength. cbv zeta. rewrite Hoff.
  fold d1 d2.
  rewrite (app_assoc (header14 _ _ _) body),
    <- (HlenH (Z.of_nat PSI_MAX_SIZE)).
  rewrite set8_at. cbn [obind].
  rewrite <- Nat.add_1_r, set8_app_r. cbn [set8 option_map obind].
  rewrite <- app_assoc.
  unfold scte35_get_descl. rewrite Hoff.
  replace (Z.of_nat (14 + length body + SCTE35_HEADER2_SIZE + PSI_CRC_SIZE
                     - PSI_HEADER_SIZE) + dl) with sl
    by (unfold sl, cl, SCTE35_HEADER2_SIZE, PSI_CRC_SIZE, PSI_HEADER_SIZE;
        lia).
  unfold psi_finish. rewrite psi_set_length_header14. cbn [obind].
  set (pre := header14 sl cl ct ++ body ++ [d1; d2] ++ descs).
  assert (Hpre : forall Y, header14 sl cl ct ++ body ++ d1 :: d2 :: descs ++ Y
                 = pre ++ Y)
    by (intros Y; unfold pre; rewrite <- !app_assoc; reflexivity).
  assert (Hlpre : length pre = (Z.to_nat sl - 1)%nat).
  { unfold pre. rewrite !length_app. unfold sl, cl, dl. simpl length. lia. }
  unfold psi_set_crc.
  rewrite header14_length by (unfold sl; lia).
  replace (Z.to_nat sl + PSI_HEADER_SIZE - PSI_CRC_SIZE)%nat
    with (length pre)
    by (rewrite Hlpre; unfold PSI_HEADER_SIZE, PSI_CRC_SIZE, sl, cl, dl; lia).
  rewrite Hpre, firstn_length_app.
  destruct (Nat.leb_spec 4 (length X)) as [Hfit|Hover].
  - rewrite write_bytes_app by (simpl; lia). cbn [obind].
    assert (Hlen3 : psi_get_length
                      (pre ++ be32 (crc32_mpeg pre)
                       ++ skipn (length (be32 (crc32_mpeg pre))) X) = sl).
    { unfold pre. rewrite <- !app_assoc.
      apply header14_length. unfold sl. lia. }
    rewrite Hlen3.
    replace (Z.to_nat sl + PSI_HEADER_SIZE)%nat
      with (length (pre ++ be32 (crc32_mpeg pre)))
      by (rewrite length_app, Hlpre; unfold PSI_HEADER_SIZE, sl, cl, dl;
          cbn [length be32]; lia).
    rewrite (app_assoc pre). rewrite firstn_length_app.
    reflexivity.
  - rewrite write_bytes_short by (simpl; lia). reflexivity.
Qed.

End Finish.

(** ** The time_signal section *)

Section TimeSignal.

Lemma header14_descl sl cl ct r :
  0 <= cl < 4096 ->
  scte35_get_descl (header14 sl cl ct ++ r) = (14 + Z.to_nat cl + 2)%nat.
Proof.
  intros H. unfold scte35_get_descl, scte35_desclength_off.
  rewrite header14_command_length by assumption. reflexivity.
Qed.

Lemma time_signal_body_length pts_orig :
  (1 <= length (time_signal_body pts_orig) <= 5)%nat.
Proof.
  unfold time_signal_body. destruct (pts_orig =? UINT64_MAX); simpl; lia.
Qed.

(** A pass of time_signal writes the section the wire format asks for
    when it fits the block, and runs over the end of the block otherwise. *)
Lemma time_signal_section_layout raw pts_orig us :
  length raw = (PSI_MAX_SIZE + PSI_HEADER_SIZE)%nat ->
  let body := time_signal_body pts_orig in
  let descs := exported_descs us in
  time_signal_section raw pts_orig us =
  if (14 + length body + 2 + length descs + 4 <=? 1024)%nat
  then Some (section_bytes SCTE35_TIME_SIGNAL_COMMAND body descs)
  else None.
Proof.
  intros Hraw body descs.
  pose proof (time_signal_body_length pts_orig) as Hbody. fold body in Hbody.
  set (fits := (14 + length body + 2 + length descs + 4 <=? 1024)%nat).
  assert (Hfits : fits = (length descs + 4 <=? 1008 - length body)%nat).
  { unfold fits.
    destruct (Nat.leb_spec (14 + length body + 2 + length descs + 4) 1024),
      (Nat.leb_spec (length descs + 4) (1008 - length body));
      try lia; reflexivity. }
  clearbody fits. subst fits.
  unfold time_signal_section.
  rewrite time_signal_command_layout by assumption. cbn [obind]. fold body.
  remember (skipn (SCTE35_HEADER_SIZE + length body) raw) as tail eqn:Et.
  assert (Htail : length tail = (1024 - 14 - length body)%nat).
  { subst tail. rewrite length_skipn, Hraw.
    unfold PSI_MAX_SIZE, PSI_HEADER_SIZE, SCTE35_HEADER_SIZE. lia. }
  clear Et. destruct tail as [|x [|y X]]; cbn [length] in Htail; try lia.
  rewrite header14_descl by lia. rewrite Nat2Z.id.
  set (hd := header14 (Z.of_nat PSI_MAX_SIZE) (Z.of_nat (length body))
               SCTE35_TIME_SIGNAL_COMMAND).
  pose proof (export_descs_layout us (hd ++ body ++ [x; y]) [] X
                (Forall_nil _)) as HE.
  cbn [concat length Nat.add app] in HE.
  rewrite <- !app_assoc in HE. cbn [app] in HE.
  change (Z.of_nat 0) with 0 in HE.
  replace (length (hd ++ body ++ [x; y])) with (14 + length body + 2)%nat
    in HE by (rewrite !length_app; simpl; lia).
  rewrite HE by lia.
  clear HE.
  fold descs.
  destruct (Nat.leb_spec (length descs) (length X)) as [Hfit|Hover].
  - cbn [obind].
    unfold hd. rewrite finish_layout by lia.
    rewrite length_skipn.
    destruct (Nat.leb_spec 4 (length X - length descs)),
      (Nat.leb_spec (length descs + 4) (1008 - length body));
      try lia; reflexivity.
  - cbn [obind].
    destruct (Nat.leb_spec (length descs + 4) (1008 - length body));
      [lia|reflexivity].
Qed.

End TimeSignal.

(** ** The length fields of a laid-out section *)

Section Lengths.



End Lengths.

(** ** Length fields of the synthesized sections *)

Section SynthesizedLengths.




End SynthesizedLengths.

(** ** The 33-bit times *)

Section ModularWrap.

Lemma clock_scale_300 : CLOCK_SCALE = 300.
Proof. reflexivity. Qed.

Lemma time_specified_set b : Z.testbit (Z.lor 254 b) 7 = true.
Proof. rewrite Z.lor_spec. reflexivity. Qed.

Lemma auto_return_bit (auto_return : bool) (d : Z) :
  Z.testbit (Z.lor (if auto_return then 254 else 126) (bit_of d 32)) 7
  = auto_return.
Proof.
  destruct (bit_of_cases d 32) as [-> | ->], auto_return; reflexivity.
Qed.

Lemma wrapped_range v : 0 <= (v / CLOCK_SCALE) mod POW2_33 < 2 ^ 33.
Proof. apply Z.mod_pos_bound. reflexivity. Qed.

Lemma splice_time_reads v :
  0 <= v < 2 ^ 33 ->
  Z.lor (Z.shiftl (Z.land (Z.lor 254 (bit_of v 32)) 1) 32)
    (Z.lor (Z.shiftl (byte_of v 24) 24)
       (Z.lor (Z.shiftl (byte_of v 16) 16)
          (Z.lor (Z.shiftl (byte_of v 8) 8) (byte_of v 0)))) = v.
Proof. exact (field33_roundtrip 127 v). Qed.

Lemma break_duration_reads (auto_return : bool) (v : Z) :
  0 <= v < 2 ^ 33 ->
  Z.lor (Z.shiftl
           (Z.land (Z.lor (if auto_return then 254 else 126) (bit_of v 32)) 1)
           32)
    (Z.lor (Z.shiftl (byte_of v 24) 24)
       (Z.lor (Z.shiftl (byte_of v 16) 16)
          (Z.lor (Z.shiftl (byte_of v 8) 8) (byte_of v 0)))) = v.
Proof.
  destruct auto_return;
    [exact (field33_roundtrip 127 v)|exact (field33_roundtrip 63 v)].
Qed.

Lemma not_uint64_max v : 0 <= v < UINT64_MAX -> (v =? UINT64_MAX) = false.
Proof. intros H. apply Z.eqb_neq. lia. Qed.

(** The scheduled splice_insert carries the wrapped pts_time, unless the
    event is cancelled and carries no splice_time() at all. *)
Lemma insert_layout_pts_time event_id cancel out_of_network auto_return
    program_id dur pts :
  0 <= pts < UINT64_MAX ->
  insert_pts_time
    (section_bytes SCTE35_INSERT_COMMAND
       (insert_body event_id cancel out_of_network auto_return program_id
          dur pts) [])
  = if cancel then None else Some ((pts / 300) mod 2 ^ 33).
Proof.
  intros Hp. unfold insert_body. rewrite (not_uint64_max pts Hp).
  pose proof (wrapped_range pts) as Hr.
  change ((pts / 300) mod 2 ^ 33) with ((pts / CLOCK_SCALE) mod POW2_33).
  generalize dependent ((pts / CLOCK_SCALE) mod POW2_33).
  generalize (event_id mod UINT32_MOD) (program_id mod UINT16_MOD)
    ((dur / CLOCK_SCALE) mod POW2_33).
  intros E P D T HT.
  destruct cancel; [reflexivity|].
  destruct out_of_network, (dur =? UINT64_MAX);
    (transitivity
       (if Z.testbit (Z.lor 254 (bit_of T 32)) 7
        then Some
               (Z.lor (Z.shiftl (Z.land (Z.lor 254 (bit_of T 32)) 1) 32)
                  (Z.lor (Z.shiftl (byte_of T 24) 24)
                     (Z.lor (Z.shiftl (byte_of T 16) 16)
                        (Z.lor (Z.shiftl (byte_of T 8) 8) (byte_of T 0)))))
        else None);
     [reflexivity
     |rewrite time_specified_set, splice_time_reads by assumption;
      reflexivity]).
Qed.

(** Both forms of a splice_insert carry the wrapped duration and the
    auto_return flag, unless the event is cancelled. *)
Lemma insert_layout_break_duration event_id cancel out_of_network
    (auto_return : bool) program_id dur pts :
  0 <= dur < UINT64_MAX ->
  insert_break_duration
    (section_bytes SCTE35_INSERT_COMMAND
       (insert_body event_id cancel out_of_network auto_return program_id
          dur pts) [])
  = if cancel then None else Some (auto_return, (dur / 300) mod 2 ^ 33).
Proof.
  intros Hd. unfold insert_body. rewrite (not_uint64_max dur Hd).
  pose proof (wrapped_range dur) as Hr.
  change ((dur / 300) mod 2 ^ 33) with ((dur / CLOCK_SCALE) mod POW2_33).
  generalize dependent ((dur / CLOCK_SCALE) mod POW2_33).
  generalize (event_id mod UINT32_MOD) (program_id mod UINT16_MOD)
    ((pts / CLOCK_SCALE) mod POW2_33).
  intros E P T D HD.
  destruct cancel; [reflexivity|].
  unfold splice_time_bytes.
  destruct (bit_of_cases T 32) as [-> | ->];
  destruct out_of_network, (pts =? UINT64_MAX);
    (transitivity
       (Some
          (Z.testbit (Z.lor (if auto_return then 254 else 126) (bit_of D 32)) 7,
           Z.lor
             (Z.shiftl
                (Z.land
                   (Z.lor (if auto_return then 254 else 126) (bit_of D 32)) 1)
                32)
             (Z.lor (Z.shiftl (byte_of D 24) 24)
                (Z.lor (Z.shiftl (byte_of D 16) 16)
                   (Z.lor (Z.shiftl (byte_of D 8) 8) (byte_of D 0))))));
     [reflexivity
     |rewrite auto_return_bit, break_duration_reads by assumption;
      reflexivity]).
Qed.

Lemma time_signal_pts_orig_present pts :
  0 <= pts < UINT64_MAX ->
  time_signal_body (time_signal_pts_orig pts)
  = splice_time_bytes ((pts / CLOCK_SCALE) mod POW2_33).
Proof.
  intros Hp. unfold time_signal_pts_orig, time_signal_body.
  rewrite (not_uint64_max pts Hp).
  pose proof (wrapped_range pts) as Hr.
  destruct (Z.eqb_spec ((pts / CLOCK_SCALE) mod POW2_33) UINT64_MAX) as [E|];
    [|reflexivity].
  rewrite E in Hr. unfold UINT64_MAX in Hr. lia.
Qed.

(** The scheduled time_signal carries the wrapped pts_time, whatever its
    descriptors. *)
Lemma time_signal_layout_pts_time pts descs :
  0 <= pts < UINT64_MAX ->
  time_signal_pts_time
    (section_bytes SCTE35_TIME_SIGNAL_COMMAND
       (time_signal_body (time_signal_pts_orig pts)) descs)
  = Some ((pts / 300) mod 2 ^ 33).
Proof.
  intros Hp. rewrite time_signal_pts_orig_present by assumption.
  pose proof (wrapped_range pts) as Hr.
  change ((pts / 300) mod 2 ^ 33) with ((pts / CLOCK_SCALE) mod POW2_33).
  generalize dependent ((pts / CLOCK_SCALE) mod POW2_33). intros T HT.
  transitivity
    (if Z.testbit (Z.lor 254 (bit_of T 32)) 7
     then Some
            (Z.lor (Z.shiftl (Z.land (Z.lor 254 (bit_of T 32)) 1) 32)
               (Z.lor (Z.shiftl (byte_of T 24) 24)
                  (Z.lor (Z.shiftl (byte_of T 16) 16)
                     (Z.lor (Z.shiftl (byte_of T 8) 8) (byte_of T 0)))))
     else None);
    [reflexivity|].
  rewrite time_specified_set, splice_time_reads by assumption. reflexivity.
Qed.

End ModularWrap.

(** ** Allocations and traces *)

Section Worlds.

Lemma outputs_app tr tr' : outputs (tr ++ tr') = outputs tr ++ outputs tr'.
Proof.
  induction tr as [|e tr IH]; simpl; [reflexivity|].
  destruct e; simpl; rewrite ?IH; reflexivity.
Qed.

Lemma published_app tr tr' :
  published (tr ++ tr') = published tr ++ published tr'.
Proof.
  induction tr as [|e tr IH]; simpl; [reflexivity|].
  destruct e; simpl; rewrite ?IH; reflexivity.
Qed.

(** When no allocation fails, one succeeds and none of the rest fails. *)
Lemma draw_ok w :
  allocs_ok w ->
  exists al, draw w = (true, mk_world (pipe w) al (trace w))
             /\ Forall (fun b => b = true) al.
Proof.
  unfold allocs_ok, draw. destruct w as [s al tr]. simpl.
  destruct al as [|b al]; intros H.
  - exists []. auto.
  - inversion H; subst. exists al. auto.
Qed.

Lemma send_ok section cr w :
  allocs_ok w ->
  exists al,
    upipe_ts_scte35g_send section cr w
    = mk_world (set_scte35_cr_sys cr (pipe w)) al
        (trace w ++ [Output section cr])
    /\ Forall (fun b => b = true) al.
Proof.
  intros H. unfold upipe_ts_scte35g_send.
  destruct (draw_ok w H) as (al1 & -> & H1).
  destruct (draw_ok (mk_world (pipe w) al1 (trace w)) H1) as (al2 & -> & H2).
  exists al2. split; [reflexivity|assumption].
Qed.

End Worlds.

(** ** The emission scheduler *)

Section Scheduler.

Lemma tick_sections_cons cr msg msgs :
  tick_sections cr (msg :: msgs)
  = match tick_form cr msg with Some s => [s] | None => [] end
    ++ tick_sections cr msgs.
Proof. reflexivity. Qed.

(** The traversal of the pending messages: what stays, what is sent, and
    the flag [handled]. *)
Lemma prepare_loop_decision cr msgs : forall w handled,
  allocs_ok w ->
  exists al,
    prepare_loop cr msgs w handled
    = (tick_kept cr msgs,
       mk_world
         (match tick_sections cr msgs with
          | [] => pipe w
          | _ => set_scte35_cr_sys cr (pipe w)
          end)
         al (snd (fst (prepare_loop cr msgs w handled))).(trace),
       match tick_sections cr msgs with
       | [] => handled
       | _ => true
       end)
    /\ Forall (fun b => b = true) al
    /\ outputs (trace (snd (fst (prepare_loop cr msgs w handled))))
       = outputs (trace w) ++ map (fun s => (s, cr)) (tick_sections cr msgs)
    /\ published (trace (snd (fst (prepare_loop cr msgs w handled))))
       = published (trace w).
Proof.
  induction msgs as [|msg msgs IH]; intros w handled Hok.
  - exists (allocs w). simpl. rewrite app_nil_r.
    destruct w; simpl; repeat split; auto.
  - rewrite tick_sections_cons. unfold tick_kept, tick_form.
    cbn [prepare_loop filter].
    destruct (cr_sys msg <? cr) eqn:Hpast; cbn [negb].
    + destruct (immediate msg) as [s|] eqn:Hi.
      * destruct (send_ok s cr
                    (upipe_log NOTICE "sending an immediate event" w) Hok)
          as (al1 & E1 & H1).
        rewrite E1.
        destruct (IH (mk_world
                        (set_scte35_cr_sys cr
                           (pipe (upipe_log NOTICE
                                    "sending an immediate event" w)))
                        al1
                        (trace (upipe_log NOTICE
                                  "sending an immediate event" w)
                         ++ [Output s cr])) true H1)
          as (al & E & Hal & Ho & Hp).
        exists al. rewrite E. cbn [fst snd trace pipe] in *.
        rewrite Ho, Hp. fold (tick_kept cr msgs).
        repeat split; auto.
        -- cbn [app]. destruct (tick_sections cr msgs); reflexivity.
        -- unfold upipe_log, emit. cbn [trace].
           rewrite !outputs_app. simpl. rewrite app_nil_r, <- app_assoc.
           reflexivity.
        -- unfold upipe_log, emit. cbn [trace].
           rewrite !published_app. simpl. rewrite !app_nil_r. reflexivity.
      * destruct (IH (upipe_log NOTICE "event expired" w) handled Hok)
          as (al & E & Hal & Ho & Hp).
        exists al. rewrite E. cbn [fst snd trace pipe app] in *.
        rewrite Ho, Hp. fold (tick_kept cr msgs).
        repeat split; auto.
        -- unfold upipe_log, emit. cbn [trace].
           rewrite !outputs_app. simpl. rewrite app_nil_r. reflexivity.
        -- unfold upipe_log, emit. cbn [trace].
           rewrite !published_app. simpl. rewrite !app_nil_r. reflexivity.
    + cbn [map scte35_message_set_immediate ubuf].
      destruct (ubuf msg) as [s|] eqn:Hu.
      * destruct (send_ok s cr (upipe_log DBG "sending an event" w) Hok)
          as (al1 & E1 & H1).
        rewrite E1.
        destruct (IH (mk_world
                        (set_scte35_cr_sys cr
                           (pipe (upipe_log DBG "sending an event" w)))
                        al1
                        (trace (upipe_log DBG "sending an event" w)
                         ++ [Output s cr])) true H1)
          as (al & E & Hal & Ho & Hp).
        exists al. rewrite E. cbn [fst snd trace pipe] in *.
        rewrite Ho, Hp. fold (tick_kept cr msgs).
        repeat split; auto.
        -- cbn [app]. destruct (tick_sections cr msgs); reflexivity.
        -- unfold upipe_log, emit. cbn [trace].
           rewrite !outputs_app. simpl. rewrite app_nil_r, <- app_assoc.
           reflexivity.
        -- unfold upipe_log, emit. cbn [trace].
           rewrite !published_app. simpl. rewrite !app_nil_r. reflexivity.
      * destruct (IH (upipe_log DBG "sending an event" w) handled Hok)
          as (al & E & Hal & Ho & Hp).
        exists al. rewrite E. cbn [fst snd trace pipe app] in *.
        rewrite Ho, Hp. fold (tick_kept cr msgs).
        repeat split; auto.
        -- unfold upipe_log, emit. cbn [trace].
           rewrite !outputs_app. simpl. rewrite app_nil_r. reflexivity.
        -- unfold upipe_log, emit. cbn [trace].
           rewrite !published_app. simpl. rewrite !app_nil_r. reflexivity.
Qed.

(** A tick that passes the four tests, when no allocation fails. *)
Lemma prepare_qualifying w cr latency fd null_section :
  flow_def (pipe w) = Some fd ->
  scte35_null_section (pipe w) = Some null_section ->
  scte35_interval (pipe w) <> 0 ->
  (scte35_cr_sys (pipe w) + scte35_interval (pipe w)) mod UINT64_MOD <= cr ->
  allocs_ok w ->
  let msgs := scte35_sections (pipe w) in
  let r := upipe_ts_scte35g_prepare w cr latency in
  fst r = UBASE_ERR_NONE
  /\ pipe (snd r)
     = set_scte35_sections (tick_kept cr msgs)
         (set_scte35_cr_sys cr (pipe w))
  /\ outputs (trace (snd r))
     = outputs (trace w)
       ++ map (fun s => (s, cr)) (tick_sent cr null_section msgs)
  /\ published (trace (snd r)) = published (trace w).
Proof.
  intros Hfd Hnull Hint Hdue Hok msgs r. subst r.
  unfold upipe_ts_scte35g_prepare. rewrite Hfd, Hnull.
  destruct (Z.eqb_spec (scte35_interval (pipe w)) 0) as [|_]; [contradiction|].
  destruct (Z.gtb_spec
              ((scte35_cr_sys (pipe w) + scte35_interval (pipe w))
               mod UINT64_MOD) cr) as [|_]; [lia|].
  cbn [orb].
  destruct (prepare_loop_decision cr msgs w false Hok)
    as (al & E & Hal & Ho & Hp).
  fold msgs. rewrite E in *. cbn [fst snd trace pipe] in *.
  unfold tick_sent.
  destruct (tick_sections cr msgs) as [|s0 l] eqn:Hs.
  - destruct (send_ok null_section cr
                (with_pipe (set_scte35_sections (tick_kept cr msgs))
                   (mk_world (pipe w) al
                      (trace (snd (fst (prepare_loop cr msgs w false))))))
                Hal) as (al' & E' & _).
    rewrite E'. cbn [fst snd trace pipe with_pipe].
    repeat split.
    + rewrite outputs_app, Ho. simpl. rewrite app_nil_r. reflexivity.
    + rewrite published_app, Hp. simpl. apply app_nil_r.
  - cbn [fst snd trace pipe with_pipe]. repeat split; assumption.
Qed.

(** C1: on a qualifying tick (no allocation failing) the pending messages
    are traversed in insertion order; a message whose deadline has passed
    ([cr_sys msg < cr]) has its immediate form sent when it has one and
    leaves the list in either case; any other message stays in the list
    with no immediate form any more, its scheduled form and its deadline
    as they were, and has its scheduled form sent when it has one; when
    no message had a form to send, a copy of the null section is sent. *)
Theorem prepare_decision w cr latency fd null_section :
  flow_def (pipe w) = Some fd ->
  scte35_null_section (pipe w) = Some null_section ->
  scte35_interval (pipe w) <> 0 ->
  (scte35_cr_sys (pipe w) + scte35_interval (pipe w)) mod UINT64_MOD <= cr ->
  allocs_ok w ->
  let msgs := scte35_sections (pipe w) in
  let w' := snd (upipe_ts_scte35g_prepare w cr latency) in
  scte35_sections (pipe w')
  = map (fun msg => mk_msg (ubuf msg) None (cr_sys msg))
      (filter (fun msg => negb (cr_sys msg <? cr)) msgs)
  /\ outputs (trace w')
     = outputs (trace w)
       ++ map (fun s => (s, cr))
            (match
               flat_map (fun msg =>
                           match (if cr_sys msg <? cr then immediate msg
                                  else ubuf msg) with
                           | Some s => [s]
                           | None => []
                           end) msgs
             with
             | [] => [null_section]
             | sent => sent
             end).
Proof.
  intros Hfd Hnull Hint Hdue Hok msgs w'.
  destruct (prepare_qualifying w cr latency fd null_section
              Hfd Hnull Hint Hdue Hok) as (_ & Hpipe & Hout & _).
  fold msgs in Hpipe, Hout. fold w' in Hpipe, Hout.
  split; [rewrite Hpipe; reflexivity|exact Hout].
Qed.

(** C2, amended: a tick for which one of the four activity preconditions
    fails (no flow definition, no null section, interval zero, or [cr]
    before scte35_cr_sys + interval, the sum taken on 64 bits) sends
    nothing and changes nothing; a tick for which all four hold (no
    allocation failing) sends one section for each pending message that
    has the form the tick selects, its immediate form once its deadline
    has passed and its scheduled form before, in the order of the list, or
    the null section alone when no message has one, so at least one
    section and more than one when several messages have one; each is
    stamped [cr] and scte35_cr_sys becomes [cr].  When the sum does not
    wrap, [cr] is before it exactly when less than the interval has
    elapsed since scte35_cr_sys. *)
Theorem prepare_tick w cr latency :
  let r := upipe_ts_scte35g_prepare w cr latency in
  let due :=
    (scte35_cr_sys (pipe w) + scte35_interval (pipe w)) mod UINT64_MOD in
  (flow_def (pipe w) = None \/ scte35_null_section (pipe w) = None
   \/ scte35_interval (pipe w) = 0 \/ cr < due ->
   r = (UBASE_ERR_NONE, w))
  /\ (forall fd null_section,
        flow_def (pipe w) = Some fd ->
        scte35_null_section (pipe w) = Some null_section ->
        0 < scte35_interval (pipe w) -> due <= cr -> allocs_ok w ->
        let sent :=
          match
            flat_map (fun msg =>
                        match (if cr_sys msg <? cr then immediate msg
                               else ubuf msg) with
                        | Some s => [s]
                        | None => []
                        end) (scte35_sections (pipe w))
          with
          | [] => [null_section]
          | l => l
          end in
        outputs (trace (snd r))
        = outputs (trace w) ++ map (fun s => (s, cr)) sent
        /\ (1 <= length sent)%nat
        /\ scte35_cr_sys (pipe (snd r)) = cr)
  /\ (0 <= scte35_cr_sys (pipe w) -> 0 < scte35_interval (pipe w) ->
      scte35_cr_sys (pipe w) + scte35_interval (pipe w) < UINT64_MOD ->
      (cr < due <-> cr - scte35_cr_sys (pipe w) < scte35_interval (pipe w))).
Proof.
  intros r due. split; [|split].
  - intros H. subst r. unfold upipe_ts_scte35g_prepare.
    destruct (flow_def (pipe w)); [|reflexivity].
    destruct (scte35_null_section (pipe w)); [|reflexivity].
    destruct H as [H|[H|[H|H]]]; try discriminate.
    + rewrite H. reflexivity.
    + fold due. destruct (Z.gtb_spec due cr); [|lia].
      rewrite orb_true_r. reflexivity.
  - intros fd ns Hfd Hnull Hint Hdue Hok sent.
    destruct (prepare_qualifying w cr latency fd ns Hfd Hnull
                ltac:(lia) Hdue Hok) as (_ & Hpipe & Hout & _).
    fold r in Hpipe, Hout. rewrite Hpipe.
    split; [exact Hout|]. split; [|reflexivity].
    subst sent. destruct (flat_map _ _); simpl; lia.
  - intros Hlast Hint Hwrap. subst due.
    rewrite Z.mod_small by lia. lia.
Qed.

Lemma prepare_decision_witness :
  exists fd null_section,
    flow_def (pipe w_mixed) = Some fd
    /\ scte35_null_section (pipe w_mixed) = Some null_section
    /\ scte35_interval (pipe w_mixed) <> 0
    /\ (scte35_cr_sys (pipe w_mixed)
        + scte35_interval (pipe w_mixed)) mod UINT64_MOD <= 2000000
    /\ allocs_ok w_mixed
    /\ map cr_sys (scte35_sections (pipe w_mixed)) = [1000000; 5000000]
    /\ scte35_sections
         (pipe (snd (upipe_ts_scte35g_prepare w_mixed 2000000 0)))
       = map (fun msg => mk_msg (ubuf msg) None (cr_sys msg))
           (filter (fun msg => negb (cr_sys msg <? 2000000))
              (scte35_sections (pipe w_mixed)))
    /\ outputs (trace (snd (upipe_ts_scte35g_prepare w_mixed 2000000 0)))
       = outputs (trace w_mixed)
         ++ map (fun s => (s, 2000000))
              (match
                 flat_map (fun msg =>
                             match (if cr_sys msg <? 2000000
                                    then immediate msg else ubuf msg) with
                             | Some s => [s]
                             | None => []
                             end) (scte35_sections (pipe w_mixed))
               with
               | [] => [null_section]
               | sent => sent
               end).
Proof.
  eexists. eexists.
  assert (H1 : flow_def (pipe w_mixed) = Some scte35_flow) by reflexivity.
  assert (H2 : scte35_null_section (pipe w_mixed)
               = Some [252; 48; 17; 0; 0; 0; 0; 0; 0; 0; 255; 240; 0; 0; 0; 0;
                       122; 79; 191; 255])
    by reflexivity.
  assert (H3 : scte35_interval (pipe w_mixed) <> 0)
    by (vm_compute; discriminate).
  assert (H4 : (scte35_cr_sys (pipe w_mixed)
                + scte35_interval (pipe w_mixed)) mod UINT64_MOD
               <= 2000000)
    by (vm_compute; discriminate).
  assert (H5 : allocs_ok w_mixed) by constructor.
  assert (H6 : map cr_sys (scte35_sections (pipe w_mixed))
               = [1000000; 5000000]) by reflexivity.
  split; [exact H1|]. split; [exact H2|].
  repeat (split; [assumption|]).
  exact (prepare_decision w_mixed 2000000 0 _ _ H1 H2 H3 H4 H5).
Defined.

Lemma prepare_tick_witness :
  let due := (scte35_cr_sys (pipe w_two_events)
              + scte35_interval (pipe w_two_events)) mod UINT64_MOD in
  1000000 < due
  /\ upipe_ts_scte35g_prepare w_two_events 1000000 0
     = (UBASE_ERR_NONE, w_two_events)
  /\ flow_def (pipe w_start) = None
  /\ upipe_ts_scte35g_prepare w_start 2000000 0 = (UBASE_ERR_NONE, w_start)
  /\ exists fd null_section,
       flow_def (pipe w_two_events) = Some fd
       /\ scte35_null_section (pipe w_two_events) = Some null_section
       /\ 0 < scte35_interval (pipe w_two_events)
       /\ due <= 2000000
       /\ allocs_ok w_two_events
       /\ let r := upipe_ts_scte35g_prepare w_two_events 2000000 0 in
          let sent :=
            match
              flat_map (fun msg =>
                          match (if cr_sys msg <? 2000000 then immediate msg
                                 else ubuf msg) with
                          | Some s => [s]
                          | None => []
                          end) (scte35_sections (pipe w_two_events))
            with
            | [] => [null_section]
            | l => l
            end in
          outputs (trace (snd r))
          = outputs (trace w_two_events)
            ++ map (fun s => (s, 2000000)) sent
          /\ (1 <= length sent)%nat
          /\ scte35_cr_sys (pipe (snd r)) = 2000000.
Proof.
  intros due.
  assert (E1 : 1000000 < due) by reflexivity.
  split; [exact E1|].
  split;
    [exact (proj1 (prepare_tick w_two_events 1000000 0)
              (or_intror (or_intror (or_intror E1))))|].
  split; [reflexivity|].
  split;
    [exact (proj1 (prepare_tick w_start 2000000 0) (or_introl eq_refl))|].
  eexists. eexists.
  assert (H1 : flow_def (pipe w_two_events) = Some scte35_flow)
    by reflexivity.
  assert (H2 : scte35_null_section (pipe w_two_events)
               = Some [252; 48; 17; 0; 0; 0; 0; 0; 0; 0; 255; 240; 0; 0; 0; 0;
                       122; 79; 191; 255])
    by reflexivity.
  assert (H3 : 0 < scte35_interval (pipe w_two_events)) by reflexivity.
  assert (H4 : due <= 2000000) by (vm_compute; discriminate).
  assert (H5 : allocs_ok w_two_events) by constructor.
  split; [exact H1|]. split; [exact H2|].
  repeat (split; [assumption|]).
  exact (proj1 (proj2 (prepare_tick w_two_events 2000000 0))
           _ _ H1 H2 H3 H4 H5).
Defined.

(** C2 as stated fails: with two scheduled messages pending, one
    qualifying tick sends two sections. *)
Lemma tick_sends_two_sections :
  0 < scte35_interval (pipe w_two_events)
  /\ flow_def (pipe w_two_events) <> None
  /\ scte35_null_section (pipe w_two_events) <> None
  /\ length (outputs
               (trace (snd (upipe_ts_scte35g_prepare w_two_events 2000000 0))))
     = 2%nat
  /\ ~ tick_exactly_one w_two_events 2000000 0.
Proof.
  split; [reflexivity|]. split; [discriminate|]. split; [discriminate|].
  split; [reflexivity|].
  unfold tick_exactly_one. intros [[H _]|[o [H _]]].
  - vm_compute in H. discriminate.
  - apply (f_equal (@length _)) in H. rewrite length_app in H.
    vm_compute in H. discriminate.
Qed.

End Scheduler.

(** ** Synthesis of a message *)

Section Synthesis.

Lemma fresh_block_length :
  length fresh_block = (PSI_MAX_SIZE + PSI_HEADER_SIZE)%nat.
Proof. reflexivity. Qed.

Lemma alloc_section_ok build s w :
  allocs_ok w -> build fresh_block = Some s ->
  exists al,
    alloc_section build w = (Some s, mk_world (pipe w) al (trace w))
    /\ Forall (fun b => b = true) al.
Proof.
  intros Hok Hs. unfold alloc_section.
  destruct (draw_ok w Hok) as (al1 & -> & H1). cbn [negb].
  destruct (draw_ok (mk_world (pipe w) al1 (trace w)) H1) as (al2 & -> & H2).
  cbn [negb pipe trace]. rewrite Hs. exists al2. auto.
Qed.

Lemma input_insert_ok w u rest :
  urefs (pipe w) = u :: rest -> allocs_ok w ->
  exists al,
    upipe_ts_scte35g_input_insert w
    = mk_world
        (set_scte35_cr_sys 0
           (set_scte35_sections (scte35_sections (pipe w) ++ [insert_message u])
              (set_urefs rest (pipe w))))
        al
        (trace w ++ [Log NOTICE "now using splice_insert command for event"])
    /\ Forall (fun b => b = true) al.
Proof.
  intros Hu Hok. unfold upipe_ts_scte35g_input_insert. rewrite Hu.
  destruct (draw_ok (with_pipe (set_urefs rest) w) Hok) as (al0 & -> & H0).
  cbn [negb]. unfold synth_loop.
  set (w0 := mk_world (pipe (with_pipe (set_urefs rest) w)) al0
               (trace (with_pipe (set_urefs rest) w))).
  set (pts := get_or UINT64_MAX (pts_prog u)).
  set (build := fun (p : Z) (raw : block) =>
                  insert_section raw (get_or 0 (udict_get scte35_event_id u))
                    (udict_flag scte35_cancel u)
                    (udict_flag scte35_out_of_network u)
                    (udict_flag scte35_auto_return u)
                    (get_or 0 (udict_get scte35_unique_program_id u))
                    (get_or UINT64_MAX (duration u)) p).
  set (sec := fun p : Z =>
                section_bytes SCTE35_INSERT_COMMAND
                  (insert_body (get_or 0 (udict_get scte35_event_id u))
                     (udict_flag scte35_cancel u)
                     (udict_flag scte35_out_of_network u)
                     (udict_flag scte35_auto_return u)
                     (get_or 0 (udict_get scte35_unique_program_id u))
                     (get_or UINT64_MAX (duration u)) p) []).
  assert (Hb : forall p, build p fresh_block = Some (sec p))
    by (intros p; apply insert_section_layout, fresh_block_length).
  destruct (alloc_section_ok (build pts) _ w0 H0 (Hb pts)) as (al1 & E1 & H1).
  unfold build in E1. rewrite E1. clear E1.
  unfold insert_message. fold pts.
  destruct (pts =? UINT64_MAX) eqn:Hp.
  - exists al1. split; [|assumption].
    apply Z.eqb_eq in Hp. rewrite Hp. reflexivity.
  - destruct (alloc_section_ok (build UINT64_MAX) _
                (mk_world (pipe w0) al1 (trace w0)) H1 (Hb UINT64_MAX))
      as (al2 & E2 & H2).
    unfold build in E2. rewrite E2. clear E2.
    exists al2. split; [reflexivity|assumption].
Qed.

Lemma export_warnings_quiet us : forall w,
  pipe (export_warnings us w) = pipe w
  /\ allocs (export_warnings us w) = allocs w
  /\ outputs (trace (export_warnings us w)) = outputs (trace w)
  /\ published (trace (export_warnings us w)) = published (trace w).
Proof.
  unfold export_warnings.
  induction us as [|u us IH]; intros w; simpl; [auto|].
  destruct (exported_desc u); [apply IH|].
  destruct (IH (upipe_log WARN "fail to export descriptor" w))
    as (-> & -> & -> & ->).
  unfold upipe_log, emit. cbn [pipe allocs trace].
  rewrite outputs_app, published_app. simpl. rewrite !app_nil_r. auto.
Qed.

Lemma time_signal_ok w u rest :
  urefs (pipe w) = u :: rest -> allocs_ok w ->
  (14 + length (time_signal_body
                  (time_signal_pts_orig (get_or UINT64_MAX (pts_prog u))))
   + 2 + length (exported_descs rest) + 4 <= 1024)%nat ->
  exists al tr,
    upipe_ts_scte35g_time_signal w
    = mk_world
        (set_scte35_cr_sys 0
           (set_scte35_sections
              (scte35_sections (pipe w) ++ [time_signal_message u rest])
              (set_urefs rest (pipe w))))
        al tr
    /\ Forall (fun b => b = true) al
    /\ outputs tr = outputs (trace w)
    /\ published tr = published (trace w).
Proof.
  intros Hu Hok Hfit. unfold upipe_ts_scte35g_time_signal. rewrite Hu.
  cbv zeta.
  destruct (draw_ok (with_pipe (set_urefs rest) w) Hok) as (al0 & -> & H0).
  cbn [negb]. unfold synth_loop.
  set (w0 := mk_world (pipe (with_pipe (set_urefs rest) w)) al0
               (trace (with_pipe (set_urefs rest) w))).
  set (pts := get_or UINT64_MAX (pts_prog u)) in *.
  set (sec := section_bytes SCTE35_TIME_SIGNAL_COMMAND
                (time_signal_body (time_signal_pts_orig pts))
                (exported_descs rest)).
  set (build := fun raw : block =>
                  time_signal_section raw (time_signal_pts_orig pts) rest).
  assert (Hb : build fresh_block = Some sec).
  { unfold build.
    rewrite time_signal_section_layout by apply fresh_block_length.
    cbv zeta.
    destruct (Nat.leb_spec
                (14 + length (time_signal_body (time_signal_pts_orig pts))
                 + 2 + length (exported_descs rest) + 4) 1024);
      [reflexivity|lia]. }
  destruct (alloc_section_ok build _ w0 H0 Hb) as (al1 & E1 & H1).
  rewrite E1. clear E1.
  set (w1 := export_warnings rest (mk_world (pipe w0) al1 (trace w0))).
  destruct (export_warnings_quiet rest (mk_world (pipe w0) al1 (trace w0)))
    as (Hp1 & Ha1 & Ho1 & Hq1).
  fold w1 in Hp1, Ha1, Ho1, Hq1. cbn [pipe allocs trace] in Hp1, Ha1, Ho1, Hq1.
  unfold time_signal_message. fold pts. fold sec.
  destruct (pts =? UINT64_MAX) eqn:Hpts.
  - exists al1, (trace w1 ++ [Log NOTICE "now using time signal command"]).
    unfold add_message, upipe_log, emit, with_pipe.
    cbn [pipe allocs trace]. rewrite Hp1, Ha1.
    rewrite outputs_app, published_app, Ho1, Hq1. simpl.
    rewrite !app_nil_r. auto.
  - assert (Hok1 : allocs_ok w1) by (unfold allocs_ok; rewrite Ha1; exact H1).
    destruct (alloc_section_ok build _ w1 Hok1 Hb) as (al2 & E2 & H2).
    rewrite E2. clear E2.
    set (w2 := export_warnings rest (mk_world (pipe w1) al2 (trace w1))).
    destruct (export_warnings_quiet rest (mk_world (pipe w1) al2 (trace w1)))
      as (Hp2 & Ha2 & Ho2 & Hq2).
    fold w2 in Hp2, Ha2, Ho2, Hq2.
    cbn [pipe allocs trace] in Hp2, Ha2, Ho2, Hq2.
    exists al2, (trace w2 ++ [Log NOTICE "now using time signal command"]).
    unfold add_message, upipe_log, emit, with_pipe.
    cbn [pipe allocs trace]. rewrite Hp2, Ha2, Hp1.
    rewrite outputs_app, published_app, Ho2, Hq2, Ho1, Hq1. simpl.
    rewrite !app_nil_r. auto.
Qed.

End Synthesis.

(** ** Flow definition and null section *)

Section FlowDef.

Lemma draw_all_ok n : forall w,
  allocs_ok w ->
  exists al, draw_all n w = (true, mk_world (pipe w) al (trace w))
             /\ Forall (fun b => b = true) al.
Proof.
  induction n as [|n IH]; intros w Hok; simpl.
  - exists (allocs w). destruct w. auto.
  - destruct (draw_ok w Hok) as (al1 & -> & H1).
    destruct (IH (mk_world (pipe w) al1 (trace w)) H1) as (al & E & H).
    exists al. auto.
Qed.

Lemma build_null_ok w :
  flow_def (pipe w) <> None -> allocs_ok w ->
  exists al,
    upipe_ts_scte35g_build_null w
    = mk_world
        (set_scte35_null_section
           (Some (section_bytes SCTE35_NULL_COMMAND [] [])) (pipe w))
        al (trace w)
    /\ Forall (fun b => b = true) al.
Proof.
  intros Hfd Hok. unfold upipe_ts_scte35g_build_null.
  destruct (flow_def (pipe w)); [|contradiction].
  destruct (alloc_section_ok build_null_section _ w Hok
              (build_null_section_layout fresh_block fresh_block_length))
    as (al & -> & Hal).
  exists al. auto.
Qed.

Lemma draw_pipe w : pipe (snd (draw w)) = pipe w.
Proof. unfold draw. destruct (allocs w); reflexivity. Qed.

Lemma alloc_section_pipe build w :
  pipe (snd (alloc_section build w)) = pipe w.
Proof.
  unfold alloc_section.
  pose proof (draw_pipe w) as H1. destruct (draw w) as [ok1 w1].
  simpl in H1. destruct ok1; [|exact H1]. cbn [negb].
  pose proof (draw_pipe w1) as H2. destruct (draw w1) as [ok2 w2].
  simpl in H2. destruct ok2; cbn [negb]; [|simpl; congruence].
  destruct (build fresh_block); simpl; congruence.
Qed.

(** A rebuild of the null section touches no other field of the pipe. *)
Lemma build_null_frame w :
  exists ns,
    pipe (upipe_ts_scte35g_build_null w)
    = set_scte35_null_section ns (pipe w).
Proof.
  unfold upipe_ts_scte35g_build_null.
  destruct (flow_def (pipe w)).
  - pose proof (alloc_section_pipe build_null_section w) as H.
    destruct (alloc_section build_null_section w) as [[s|] w1]; simpl in H.
    + exists (Some s). simpl. rewrite H. reflexivity.
    + exists (scte35_null_section (pipe w)). rewrite H.
      destruct (pipe w); reflexivity.
  - exists (scte35_null_section (pipe w)). destruct (pipe w); reflexivity.
Qed.

(** Without an input flow definition the rebuild does nothing at all. *)
Lemma build_null_without_flow_def w :
  flow_def (pipe w) = None -> upipe_ts_scte35g_build_null w = w.
Proof. intros H. unfold upipe_ts_scte35g_build_null. rewrite H. reflexivity. Qed.

Lemma build_flow_def_ok w :
  allocs_ok w ->
  exists al,
    upipe_ts_scte35g_build_flow_def w
    = (if scte35_interval (pipe w) =? 0 then w else
       let f := mk_out_flow (scte35_interval (pipe w))
                  (183 * 27000000 / scte35_interval (pipe w)) 125000 in
       mk_world (set_output_flow_def (Some f) (pipe w)) al
         (trace w ++ [FlowDef f]))
    /\ Forall (fun b => b = true) al.
Proof.
  intros Hok. unfold upipe_ts_scte35g_build_flow_def.
  destruct (scte35_interval (pipe w) =? 0).
  - exists (allocs w). auto.
  - destruct (draw_all_ok 5 w Hok) as (al & -> & Hal).
    exists al. auto.
Qed.

(** C7, amended: a SET_FLOW_DEF with a flow definition matching
    void.scte35. (no allocation failing) stores the flow definition; only
    when none was stored before does it build the null section and, with a
    non-zero interval, publish the output flow definition; on a later set
    it replaces the stored flow definition and nothing else. *)
Theorem set_flow_def_first_set_only w fd :
  uref_flow_match_def fd "void.scte35." = true ->
  allocs_ok w ->
  let r := upipe_ts_scte35g_set_flow_def w (Some fd) in
  fst r = UBASE_ERR_NONE
  /\ flow_def (pipe (snd r)) = Some fd
  /\ (flow_def (pipe w) = None ->
      scte35_null_section (pipe (snd r))
      = Some (section_bytes SCTE35_NULL_COMMAND [] [])
      /\ published (trace (snd r))
         = published (trace w)
           ++ (if scte35_interval (pipe w) =? 0 then []
               else [mk_out_flow (scte35_interval (pipe w))
                       (183 * 27000000 / scte35_interval (pipe w)) 125000]))
  /\ (flow_def (pipe w) <> None ->
      pipe (snd r) = set_flow_def (Some fd) (pipe w)
      /\ trace (snd r) = trace w).
Proof.
  intros Hmatch Hok r. subst r. unfold upipe_ts_scte35g_set_flow_def.
  rewrite Hmatch. cbn [negb].
  destruct (draw_ok w Hok) as (al0 & -> & H0). cbn [negb pipe].
  destruct (flow_def (pipe w)) as [old|] eqn:Hold.
  - cbn [fst snd with_pipe pipe trace flow_def set_flow_def].
    split; [reflexivity|]. split; [reflexivity|].
    split; [discriminate|]. intros _. split; reflexivity.
  - set (w1 := with_pipe (set_flow_def (Some fd))
                 (mk_world (pipe w) al0 (trace w))).
    destruct (build_null_ok w1 ltac:(discriminate) H0) as (al1 & E1 & H1).
    destruct (build_flow_def_ok
                (mk_world
                   (set_scte35_null_section
                      (Some (section_bytes SCTE35_NULL_COMMAND [] []))
                      (pipe w1)) al1 (trace w1)) H1)
      as (al2 & E2 & H2).
    cbn [fst snd]. rewrite E1, E2. cbn [pipe trace scte35_interval w1
      with_pipe set_flow_def set_scte35_null_section].
    destruct (scte35_interval (pipe w) =? 0);
      cbn [pipe trace flow_def scte35_null_section set_output_flow_def];
      (split; [reflexivity|]); (split; [reflexivity|]);
      (split; [intros _; split; [reflexivity|]|intros H; contradiction]).
    + rewrite app_nil_r. reflexivity.
    + rewrite published_app. reflexivity.
Qed.

Lemma set_flow_def_first_set_only_witness :
  uref_flow_match_def scte35_flow "void.scte35." = true
  /\ allocs_ok w_start
  /\ flow_def (pipe w_start) = None
  /\ scte35_null_section
       (pipe (snd (upipe_ts_scte35g_set_flow_def w_start (Some scte35_flow))))
     = Some (section_bytes SCTE35_NULL_COMMAND [] [])
  /\ allocs_ok w_ready
  /\ flow_def (pipe w_ready) <> None
  /\ pipe (snd (upipe_ts_scte35g_set_flow_def w_ready (Some scte35_flow)))
     = set_flow_def (Some scte35_flow) (pipe w_ready).
Proof.
  split; [reflexivity|]. split; [constructor|]. split; [reflexivity|].
  split;
    [exact (proj1 (proj1 (proj2 (proj2
              (set_flow_def_first_set_only w_start scte35_flow eq_refl
                 (Forall_nil _)))) eq_refl))|].
  split; [constructor|]. split; [discriminate|].
  exact (proj1 (proj2 (proj2 (proj2
           (set_flow_def_first_set_only w_ready scte35_flow eq_refl
              (Forall_nil _)))) ltac:(discriminate))).
Defined.

(** C7 as stated fails: a second, different matching flow definition
    neither rebuilds the null section nor publishes anything. *)
Lemma flow_def_change_not_rebuilt :
  uref_flow_match_def scte35_flow' "void.scte35." = true
  /\ flow_def (pipe w_no_null) = Some scte35_flow
  /\ flow_def (pipe (snd (upipe_ts_scte35g_set_flow_def w_no_null
                            (Some scte35_flow')))) = Some scte35_flow'
  /\ scte35_null_section
       (pipe (snd (upipe_ts_scte35g_set_flow_def w_no_null
                     (Some scte35_flow')))) = None
  /\ published
       (trace (snd (upipe_ts_scte35g_set_flow_def w_ready
                      (Some scte35_flow')))) = published (trace w_ready)
  /\ ~ rebuilt_on_change w_no_null scte35_flow'
  /\ ~ rebuilt_on_change w_ready scte35_flow'.
Proof.
  split; [reflexivity|]. split; [reflexivity|]. split; [reflexivity|].
  split; [reflexivity|]. split; [reflexivity|].
  unfold rebuilt_on_change.
  split; [intros [H _]|intros [_ H]]; apply H; reflexivity.
Qed.

End FlowDef.

(** ** Reassembly *)

Section Reassembly.

(** An empty event leaves the list of pending sections, and every field
    but the list of input urefs, as they were. *)
Lemma input_empty_frame msg_view w :
  pipe (upipe_ts_scte35g_input msg_view w None)
  = set_urefs (map msg_view (urefs (pipe w))) (pipe w).
Proof. reflexivity. Qed.

(** A first fragment with a command type other than the three supported
    ones stops the flush before the list is drained. *)
Lemma flush_unknown_command w u rest ct :
  urefs (pipe w) = u :: rest ->
  uref_ts_scte35_get_command_type u = Some ct ->
  ct <> SCTE35_INSERT_COMMAND -> ct <> SCTE35_NULL_COMMAND ->
  ct <> SCTE35_TIME_SIGNAL_COMMAND ->
  upipe_ts_scte35g_flush w = upipe_log WARN "unimplemented command type" w.
Proof.
  intros Hu Hct H5 H0 H6. unfold upipe_ts_scte35g_flush. rewrite Hu, Hct.
  destruct (Z.eqb_spec ct SCTE35_INSERT_COMMAND); [contradiction|].
  destruct (Z.eqb_spec ct SCTE35_NULL_COMMAND); [contradiction|].
  destruct (Z.eqb_spec ct SCTE35_TIME_SIGNAL_COMMAND); [contradiction|].
  reflexivity.
Qed.

(** A flush on a first fragment of a supported command type, or without
    one, empties the list. *)
Lemma flush_drains w u rest :
  urefs (pipe w) = u :: rest ->
  match uref_ts_scte35_get_command_type u with
  | Some ct => ct = SCTE35_NULL_COMMAND \/ ct = SCTE35_INSERT_COMMAND
               \/ ct = SCTE35_TIME_SIGNAL_COMMAND
  | None => True
  end ->
  urefs (pipe (upipe_ts_scte35g_flush w)) = [].
Proof.
  intros Hu Hct. unfold upipe_ts_scte35g_flush. rewrite Hu.
  destruct (uref_ts_scte35_get_command_type u) as [ct|]; [|reflexivity].
  destruct Hct as [->|[->| ->]]; reflexivity.
Qed.

(** C8, on the code: an event of the unsupported command type 4 is warned
    about but stays in the list of input urefs, and the whole event pushed
    after it is never synthesized. *)
Theorem unknown_command_not_drained :
  let u := event_uref 4 1 None None in
  let v := event_uref SCTE35_INSERT_COMMAND 2 None None in
  let w1 := upipe_ts_scte35g_input same_uref w_ready (Some u) in
  let w2 := upipe_ts_scte35g_input same_uref w1 (Some v) in
  urefs (pipe w1) = [u]
  /\ trace w1 = trace w_ready ++ [Log WARN "unimplemented command type"]
  /\ urefs (pipe w2) = [u; v]
  /\ scte35_sections (pipe w2) = [].
Proof. vm_compute. repeat split. Qed.

(** C9 as stated fails: a fragment of command type 4 arriving with neither
    start nor end on an empty list is kept. *)
Lemma unknown_fragment_retained :
  uref_ts_scte35_get_command_type (fragment_uref 4) = Some 4
  /\ block_start (fragment_uref 4) = false
  /\ block_end (fragment_uref 4) = false
  /\ urefs (pipe w_ready) = []
  /\ ~ flushed_at_once same_uref w_ready (fragment_uref 4).
Proof.
  repeat split. unfold flushed_at_once. vm_compute. discriminate.
Qed.

(** C9, amended: a uref with one of the three supported command types
    that arrives with neither start nor end while the list of input urefs
    is empty is not kept for further descriptors: the flush runs at once on
    this single fragment and leaves the list empty; when no allocation
    fails a splice_insert or a time_signal fragment becomes a message of
    its own, appended to the pending sections, and a splice_null fragment
    appends none. *)
Theorem fragment_flushed_at_once msg_view w u d ct :
  uref_udict u = Some d -> scte35_command_type d = Some ct ->
  ct = SCTE35_NULL_COMMAND \/ ct = SCTE35_INSERT_COMMAND
  \/ ct = SCTE35_TIME_SIGNAL_COMMAND ->
  block_start u = false -> block_end u = false -> urefs (pipe w) = [] ->
  let w' := upipe_ts_scte35g_input msg_view w (Some u) in
  w' = upipe_ts_scte35g_flush (with_pipe (set_urefs [u]) w)
  /\ urefs (pipe w') = []
  /\ (allocs_ok w ->
      scte35_sections (pipe w')
      = scte35_sections (pipe w)
        ++ (if ct =? SCTE35_INSERT_COMMAND then [insert_message u]
            else if ct =? SCTE35_TIME_SIGNAL_COMMAND
                 then [time_signal_message u []]
                 else [])).
Proof.
  intros Hd Hct Hsup Hs He Hempty w'.
  assert (Hw' : w' = upipe_ts_scte35g_flush (with_pipe (set_urefs [u]) w)).
  { subst w'. destruct u as [ud st en pp du ps]. simpl in *. subst ud st en.
    rewrite Hct, Hempty. cbn [andb negb orb].
    unfold with_pipe. rewrite Hempty. reflexivity. }
  assert (Hget : uref_ts_scte35_get_command_type u = Some ct)
    by (unfold uref_ts_scte35_get_command_type, udict_get; rewrite Hd;
        exact Hct).
  set (w0 := with_pipe (set_urefs [u]) w) in *.
  assert (Hu0 : urefs (pipe w0) = [u]) by reflexivity.
  split; [exact Hw'|]. rewrite Hw'. split.
  - apply (flush_drains w0 u [] Hu0). rewrite Hget. exact Hsup.
  - intros Hok.
    assert (Hok0 : allocs_ok w0) by exact Hok.
    unfold upipe_ts_scte35g_flush. rewrite Hu0, Hget.
    destruct Hsup as [->|[->| ->]]; cbn [Z.eqb SCTE35_INSERT_COMMAND
      SCTE35_NULL_COMMAND SCTE35_TIME_SIGNAL_COMMAND Pos.eqb].
    + destruct (build_null_frame w0) as (ns & E).
      cbn [with_pipe pipe]. rewrite E. symmetry. apply app_nil_r.
    + destruct (input_insert_ok w0 u [] Hu0 Hok0) as (al & -> & _).
      reflexivity.
    + assert (Hfit : (14 + length (time_signal_body
                         (time_signal_pts_orig
                            (get_or UINT64_MAX (pts_prog u))))
                      + 2 + length (exported_descs []) + 4 <= 1024)%nat).
      { pose proof (time_signal_body_length
                      (time_signal_pts_orig (get_or UINT64_MAX (pts_prog u)))).
        simpl length. lia. }
      destruct (time_signal_ok w0 u [] Hu0 Hok0 Hfit)
        as (al & tr & -> & _).
      reflexivity.
Qed.

Lemma fragment_flushed_at_once_witness :
  let u := fragment_uref SCTE35_INSERT_COMMAND in
  urefs (pipe w_ready) = []
  /\ allocs_ok w_ready
  /\ urefs (pipe (upipe_ts_scte35g_input same_uref w_ready (Some u))) = []
  /\ scte35_sections
       (pipe (upipe_ts_scte35g_input same_uref w_ready (Some u)))
     = [insert_message u].
Proof.
  intros u. split; [reflexivity|]. split; [constructor|].
  pose proof (fragment_flushed_at_once same_uref w_ready u _ _
                eq_refl eq_refl (or_intror (or_introl eq_refl))
                eq_refl eq_refl eq_refl) as (_ & H1 & H2).
  split; [exact H1|exact (H2 (Forall_nil _))].
Defined.

(** C10: completing an event whose first fragment has command type NULL
    appends no message to the pending sections and leaves scte35_cr_sys as
    it was; it rebuilds the cached null section (the splice_null section,
    when no allocation fails), and when no input flow definition is set
    the rebuild does nothing, no log and no change of state. *)
Theorem flush_null_command w u rest :
  urefs (pipe w) = u :: rest ->
  uref_ts_scte35_get_command_type u = Some SCTE35_NULL_COMMAND ->
  let w' := upipe_ts_scte35g_flush w in
  w' = with_pipe (set_urefs []) (upipe_ts_scte35g_build_null w)
  /\ scte35_sections (pipe w') = scte35_sections (pipe w)
  /\ scte35_cr_sys (pipe w') = scte35_cr_sys (pipe w)
  /\ (flow_def (pipe w) = None -> upipe_ts_scte35g_build_null w = w)
  /\ (flow_def (pipe w) <> None -> allocs_ok w ->
      scte35_null_section (pipe w')
      = Some (section_bytes SCTE35_NULL_COMMAND [] [])
      /\ trace w' = trace w).
Proof.
  intros Hu Hct w'.
  assert (Hw' : w' = with_pipe (set_urefs [])
                       (upipe_ts_scte35g_build_null w)).
  { subst w'. unfold upipe_ts_scte35g_flush. rewrite Hu, Hct. reflexivity. }
  split; [exact Hw'|]. rewrite Hw'.
  destruct (build_null_frame w) as (ns & E).
  cbn [with_pipe pipe]. rewrite E.
  split; [reflexivity|]. split; [reflexivity|].
  split; [apply build_null_without_flow_def|].
  intros Hfd Hok. destruct (build_null_ok w Hfd Hok) as (al & E' & _).
  rewrite E' in E. cbn [pipe] in E.
  cbn [with_pipe trace]. rewrite E'. cbn [trace]. split; [|reflexivity].
  rewrite <- E. reflexivity.
Qed.

Lemma flush_null_command_witness :
  let u := event_uref SCTE35_NULL_COMMAND 1 None None in
  let w := with_pipe (set_urefs [u]) w_ready in
  let w0 := with_pipe (set_urefs [u]) w_start in
  urefs (pipe w) = [u]
  /\ uref_ts_scte35_get_command_type u = Some SCTE35_NULL_COMMAND
  /\ scte35_sections (pipe (upipe_ts_scte35g_flush w))
     = scte35_sections (pipe w)
  /\ flow_def (pipe w) <> None
  /\ allocs_ok w
  /\ scte35_null_section (pipe (upipe_ts_scte35g_flush w))
     = Some (section_bytes SCTE35_NULL_COMMAND [] [])
  /\ flow_def (pipe w0) = None
  /\ upipe_ts_scte35g_build_null w0 = w0.
Proof.
  intros u w w0. split; [reflexivity|]. split; [reflexivity|].
  split; [exact (proj1 (proj2 (flush_null_command w u [] eq_refl eq_refl)))|].
  split; [discriminate|]. split; [constructor|].
  split;
    [exact (proj1 (proj2 (proj2 (proj2 (proj2
              (flush_null_command w u [] eq_refl eq_refl))))
              ltac:(discriminate) (Forall_nil _)))|].
  split; [reflexivity|].
  exact (proj1 (proj2 (proj2 (proj2
           (flush_null_command w0 u [] eq_refl eq_refl)))) eq_refl).
Defined.

(** The immediate form of a splice_insert never carries a pts_time. *)
Lemma insert_immediate_without_pts u s :
  immediate (insert_message u) = Some s -> insert_pts_time s = None.
Proof.
  unfold insert_message. cbn [immediate]. intros [= <-].
  unfold insert_body. cbn [Z.eqb UINT64_MAX Pos.eqb].
  generalize (get_or 0 (udict_get scte35_event_id u) mod UINT32_MOD)
    (get_or 0 (udict_get scte35_unique_program_id u) mod UINT16_MOD)
    ((get_or UINT64_MAX (duration u) / CLOCK_SCALE) mod POW2_33).
  intros E P D.
  destruct (udict_flag scte35_cancel u), (udict_flag scte35_out_of_network u),
    (get_or UINT64_MAX (duration u) =? UINT64_MAX); reflexivity.
Qed.

(** Both forms of a time_signal with a pts_prog are one and the same
    section, and it carries the pts_time. *)
Lemma time_signal_forms_equal u rest p :
  pts_prog u = Some p -> 0 <= p < UINT64_MAX ->
  exists s,
    ubuf (time_signal_message u rest) = Some s
    /\ immediate (time_signal_message u rest) = Some s
    /\ time_signal_pts_time s = Some ((p / 300) mod 2 ^ 33).
Proof.
  intros Hp Hr. unfold time_signal_message. rewrite Hp. cbn [get_or].
  rewrite (not_uint64_max p Hr). eexists. cbn [ubuf immediate].
  split; [reflexivity|]. split; [reflexivity|].
  apply time_signal_layout_pts_time, Hr.
Qed.

(** C5, on the code: a TIME_SIGNAL event with pts_prog = 90000000 is
    synthesized into a message appended to the pending sections, with
    scte35_cr_sys reset to 0, but its immediate form is the very section
    of its scheduled form and carries pts_time = 300000. *)
Theorem time_signal_immediate_form_has_pts :
  let u := event_uref SCTE35_TIME_SIGNAL_COMMAND 1 (Some 90000000) None in
  let w := upipe_ts_scte35g_input same_uref w_ready (Some u) in
  exists s,
    scte35_sections (pipe w) = [mk_msg (Some s) (Some s) 5000000]
    /\ time_signal_pts_time s = Some 300000
    /\ scte35_cr_sys (pipe w) = 0.
Proof. vm_compute. eexists. repeat split. Qed.

(** C6, on the code: after a scheduled INSERT was synthesized, an empty
    event leaves the scheduled form of the pending message in place, and
    the next tick before the deadline sends it, not the null section. *)
Theorem empty_event_keeps_scheduled_form (msg_view : uref -> uref) :
  let u := event_uref SCTE35_INSERT_COMMAND 1 (Some 9000000) (Some 2700000) in
  let w1 := upipe_ts_scte35g_input msg_view w_ready (Some u) in
  let w2 := upipe_ts_scte35g_input msg_view w1 None in
  scte35_sections (pipe w2) = scte35_sections (pipe w1)
  /\ exists s,
       map ubuf (scte35_sections (pipe w2)) = [Some s]
       /\ insert_pts_time s = Some 30000
       /\ outputs (trace (snd (upipe_ts_scte35g_prepare w2 2000000 0)))
          = [(s, 2000000)].
Proof. vm_compute. split; [reflexivity|]. eexists. repeat split. Qed.

End Reassembly.

(** ** End-to-end scenarios *)

Section Scenarios.

(** The null section: twenty bytes, section_length 17. *)
Example null_section_bytes :
  build_null_section fresh_block
  = Some [252; 48; 17; 0; 0; 0; 0; 0; 0; 0; 255; 240; 0; 0; 0; 0;
          122; 79; 191; 255].
Proof. vm_compute. reflexivity. Qed.

(** Null only: three ticks one interval apart send the null section three
    times. *)
Example null_only_ticks :
  let tick cr w := snd (upipe_ts_scte35g_prepare w cr 0) in
  outputs (trace (tick 4050000 (tick 2700000 (tick 1350000 w_ready))))
  = map (fun cr => ([252; 48; 17; 0; 0; 0; 0; 0; 0; 0; 255; 240; 0; 0; 0; 0;
                     122; 79; 191; 255], cr))
      [1350000; 2700000; 4050000].
Proof. vm_compute. reflexivity. Qed.

(** Immediate INSERT: the section sent after the deadline starts its
    command body with the event id and carries the flags out_of_network,
    program_splice and splice_immediate; the message is then gone. *)
Example immediate_insert :
  let u := mk_uref
             (Some (mk_udict (Some SCTE35_INSERT_COMMAND) (Some 305419896)
                      false true false (Some 66) None))
             true true None None (Some 10000000) in
  let w := snd (upipe_ts_scte35g_prepare
                  (upipe_ts_scte35g_input same_uref w_ready (Some u))
                  10000001 0) in
  outputs (trace w)
  = [([252; 48; 27; 0; 0; 0; 0; 0; 0; 0; 255; 240; 10; 5;
       18; 52; 86; 120; 127; 223; 0; 66; 0; 0; 0; 0; 177; 33; 21; 76],
      10000001)]
  /\ scte35_sections (pipe w) = [].
Proof. vm_compute. split; reflexivity. Qed.

End Scenarios.

(** ** Ticks when allocations fail, and ticks in sequence *)

Section Ticks.

Lemma set_scte35_cr_sys_same s :
  set_scte35_cr_sys (scte35_cr_sys s) s = s.
Proof. destruct s; reflexivity. Qed.

Lemma tick_frame_refl cr w : tick_frame cr w w.
Proof. split; [reflexivity|left; split; reflexivity]. Qed.

Lemma tick_frame_log cr w w' l m :
  tick_frame cr w w' -> tick_frame cr w (upipe_log l m w').
Proof.
  intros [Hp H]. unfold upipe_log, emit, tick_frame. cbn [pipe trace].
  rewrite outputs_app, published_app. simpl. rewrite !app_nil_r.
  split; assumption.
Qed.

(** A send that fails throws and leaves the pipe alone; one that succeeds
    outputs the section and moves scte35_cr_sys. *)
Lemma tick_frame_send cr w w' s :
  tick_frame cr w w' -> tick_frame cr w (upipe_ts_scte35g_send s cr w').
Proof.
  intros [Hp H]. unfold upipe_ts_scte35g_send.
  pose proof (draw_pipe w') as P1.
  assert (T1 : trace (snd (draw w')) = trace w')
    by (unfold draw; destruct (allocs w'); reflexivity).
  destruct (draw w') as [ok1 w1]. cbn [snd] in P1, T1.
  pose proof (draw_pipe w1) as P2.
  assert (T2 : trace (snd (draw w1)) = trace w1)
    by (unfold draw; destruct (allocs w1); reflexivity).
  destruct (draw w1) as [ok2 w2]. cbn [snd] in P2, T2.
  destruct (ok1 && ok2); cbn [negb].
  - unfold with_pipe, emit, tick_frame. cbn [pipe trace].
    rewrite outputs_app, published_app, P2, P1, T2, T1. simpl.
    rewrite app_nil_r. split; [assumption|]. right.
    destruct H as [[E O]|(E & sent & Hne & O)]; rewrite E, O.
    + split; [reflexivity|]. exists [s]. split; [discriminate|reflexivity].
    + split; [destruct (pipe w); reflexivity|].
      exists (sent ++ [s]). split; [destruct sent; discriminate|].
      rewrite map_app, app_assoc. reflexivity.
  - unfold upipe_throw_fatal, emit, tick_frame. cbn [pipe trace].
    rewrite outputs_app, published_app, P2, P1, T2, T1. simpl.
    rewrite !app_nil_r. split; assumption.
Qed.

(** Whatever the allocations do, the traversal keeps the messages the
    decision keeps. *)
Lemma prepare_loop_frame cr msgs : forall w0 w handled,
  tick_frame cr w0 w ->
  fst (fst (prepare_loop cr msgs w handled)) = tick_kept cr msgs
  /\ tick_frame cr w0 (snd (fst (prepare_loop cr msgs w handled))).
Proof.
  induction msgs as [|msg msgs IH]; intros w0 w handled H.
  - split; [reflexivity|exact H].
  - cbn [prepare_loop]. unfold tick_kept. cbn [filter].
    destruct (cr_sys msg <? cr) eqn:Hcr; cbn [negb].
    + destruct (immediate msg) as [s|].
      * apply IH, tick_frame_send, tick_frame_log, H.
      * apply IH, tick_frame_log, H.
    + cbn [map]. fold (tick_kept cr msgs).
      set (w1 := upipe_log DBG "sending an event" w).
      assert (H1 : tick_frame cr w0 w1) by apply tick_frame_log, H.
      destruct (ubuf (scte35_message_set_immediate msg None)) as [s|].
      * destruct (IH w0 (upipe_ts_scte35g_send s cr w1) true
                    (tick_frame_send _ _ _ _ H1)) as [K F].
        destruct (prepare_loop cr msgs (upipe_ts_scte35g_send s cr w1) true)
          as [[kept w2] h2]. cbn [fst snd] in *. rewrite K. auto.
      * destruct (IH w0 w1 handled H1) as [K F].
        destruct (prepare_loop cr msgs w1 handled) as [[kept w2] h2].
        cbn [fst snd] in *. rewrite K. auto.
Qed.

(** A qualifying tick, whatever the allocations do: it is the sends of a
    tick on the pipe that holds the messages kept. *)
Lemma prepare_any_allocs w cr latency fd null_section :
  flow_def (pipe w) = Some fd ->
  scte35_null_section (pipe w) = Some null_section ->
  scte35_interval (pipe w) <> 0 ->
  (scte35_cr_sys (pipe w) + scte35_interval (pipe w)) mod UINT64_MOD <= cr ->
  tick_frame cr
    (with_pipe (set_scte35_sections (tick_kept cr (scte35_sections (pipe w))))
       w)
    (snd (upipe_ts_scte35g_prepare w cr latency)).
Proof.
  intros Hfd Hnull Hint Hdue.
  unfold upipe_ts_scte35g_prepare. rewrite Hfd, Hnull.
  destruct (Z.eqb_spec (scte35_interval (pipe w)) 0) as [|_]; [contradiction|].
  destruct (Z.gtb_spec
              ((scte35_cr_sys (pipe w) + scte35_interval (pipe w))
               mod UINT64_MOD) cr) as [|_]; [lia|].
  cbn [orb].
  destruct (prepare_loop_frame cr (scte35_sections (pipe w)) w w false
              (tick_frame_refl cr w)) as [K F].
  destruct (prepare_loop cr (scte35_sections (pipe w)) w false)
    as [[kept w1] h]. cbn [fst snd] in *. subst kept.
  set (kept := tick_kept cr (scte35_sections (pipe w))).
  set (wk := with_pipe (set_scte35_sections kept) w1).
  assert (Fk : tick_frame cr (with_pipe (set_scte35_sections kept) w) wk).
  { destruct F as [Hp F]. split; [exact Hp|].
    unfold wk, with_pipe. cbn [pipe trace].
    destruct F as [[E O]|(E & sent & Hne & O)]; rewrite E.
    - left. auto.
    - right. split; [destruct (pipe w); reflexivity|]. exists sent. auto. }
  destruct h; [exact Fk|apply tick_frame_send, Fk].
Qed.

(** The pipe a qualifying tick leaves, whatever the allocations do. *)
Lemma prepare_any_allocs_pipe w cr latency fd null_section :
  flow_def (pipe w) = Some fd ->
  scte35_null_section (pipe w) = Some null_section ->
  scte35_interval (pipe w) <> 0 ->
  (scte35_cr_sys (pipe w) + scte35_interval (pipe w)) mod UINT64_MOD <= cr ->
  exists v,
    pipe (snd (upipe_ts_scte35g_prepare w cr latency))
    = set_scte35_sections (tick_kept cr (scte35_sections (pipe w)))
        (set_scte35_cr_sys v (pipe w)).
Proof.
  intros Hfd Hnull Hint Hdue.
  destruct (prepare_any_allocs w cr latency fd null_section
              Hfd Hnull Hint Hdue) as (_ & [[E _]|[E _]]);
    cbn [with_pipe pipe] in E; rewrite E.
  - exists (scte35_cr_sys (pipe w)). destruct (pipe w); reflexivity.
  - exists cr. destruct (pipe w); reflexivity.
Qed.

(** X1: whatever the allocations do, a qualifying tick leaves exactly
    the pending messages the decision keeps (those not yet due, their
    immediate form cleared) and publishes nothing; either it sent nothing
    (every send failed) and scte35_cr_sys is as it was, or it sent at
    least one section, each stamped [cr], and scte35_cr_sys is [cr]. *)
Theorem prepare_under_failures w cr latency fd null_section :
  flow_def (pipe w) = Some fd ->
  scte35_null_section (pipe w) = Some null_section ->
  scte35_interval (pipe w) <> 0 ->
  (scte35_cr_sys (pipe w) + scte35_interval (pipe w)) mod UINT64_MOD <= cr ->
  let w' := snd (upipe_ts_scte35g_prepare w cr latency) in
  published (trace w') = published (trace w)
  /\ ((pipe w'
       = set_scte35_sections (tick_kept cr (scte35_sections (pipe w)))
           (pipe w)
       /\ outputs (trace w') = outputs (trace w))
      \/ (pipe w'
          = set_scte35_sections (tick_kept cr (scte35_sections (pipe w)))
              (set_scte35_cr_sys cr (pipe w))
          /\ exists sent, sent <> []
               /\ outputs (trace w')
                  = outputs (trace w) ++ map (fun s => (s, cr)) sent)).
Proof.
  intros Hfd Hnull Hint Hdue w'.
  destruct (prepare_any_allocs w cr latency fd null_section
              Hfd Hnull Hint Hdue) as (Hp & F).
  fold w' in Hp, F. cbn [with_pipe pipe trace] in Hp, F.
  split; [exact Hp|].
  destruct F as [[E O]|(E & sent & Hne & O)]; rewrite E.
  - left. split; [reflexivity|exact O].
  - right. split; [destruct (pipe w); reflexivity|].
    exists sent. split; [exact Hne|exact O].
Qed.

Lemma prepare_under_failures_witness :
  let w := mk_world (pipe w_two_events) [true; false; true; true] [] in
  exists fd null_section,
    flow_def (pipe w) = Some fd
    /\ scte35_null_section (pipe w) = Some null_section
    /\ scte35_interval (pipe w) <> 0
    /\ (scte35_cr_sys (pipe w) + scte35_interval (pipe w)) mod UINT64_MOD
       <= 2000000
    /\ let w' := snd (upipe_ts_scte35g_prepare w 2000000 0) in
       published (trace w') = published (trace w)
       /\ ((pipe w'
            = set_scte35_sections
                (tick_kept 2000000 (scte35_sections (pipe w))) (pipe w)
            /\ outputs (trace w') = outputs (trace w))
           \/ (pipe w'
               = set_scte35_sections
                   (tick_kept 2000000 (scte35_sections (pipe w)))
                   (set_scte35_cr_sys 2000000 (pipe w))
               /\ exists sent, sent <> []
                    /\ outputs (trace w')
                       = outputs (trace w)
                         ++ map (fun s => (s, 2000000)) sent)).
Proof.
  intros w. eexists. eexists.
  assert (H1 : flow_def (pipe w) = Some scte35_flow) by reflexivity.
  assert (H2 : scte35_null_section (pipe w)
               = Some [252; 48; 17; 0; 0; 0; 0; 0; 0; 0; 255; 240; 0; 0; 0; 0;
                       122; 79; 191; 255])
    by reflexivity.
  assert (H3 : scte35_interval (pipe w) <> 0) by (vm_compute; discriminate).
  assert (H4 : (scte35_cr_sys (pipe w) + scte35_interval (pipe w))
               mod UINT64_MOD <= 2000000)
    by (vm_compute; discriminate).
  split; [exact H1|]. split; [exact H2|].
  repeat (split; [assumption|]).
  exact (prepare_under_failures w 2000000 0 _ _ H1 H2 H3 H4).
Defined.

(** X2: after a qualifying tick (no allocation failing), a tick that
    comes less than the interval after it does nothing at all: it returns
    UBASE_ERR_NONE and the pipe, the allocations and the trace are as the
    first tick left them. *)
Theorem prepare_rate_limit w cr cr' latency latency' fd null_section :
  flow_def (pipe w) = Some fd ->
  scte35_null_section (pipe w) = Some null_section ->
  0 < scte35_interval (pipe w) ->
  (scte35_cr_sys (pipe w) + scte35_interval (pipe w)) mod UINT64_MOD <= cr ->
  allocs_ok w ->
  0 <= cr -> cr + scte35_interval (pipe w) < UINT64_MOD ->
  cr' < cr + scte35_interval (pipe w) ->
  let w1 := snd (upipe_ts_scte35g_prepare w cr latency) in
  upipe_ts_scte35g_prepare w1 cr' latency' = (UBASE_ERR_NONE, w1).
Proof.
  intros Hfd Hnull Hint Hdue Hok Hcr Hwrap Hearly w1.
  destruct (prepare_qualifying w cr latency fd null_section
              Hfd Hnull ltac:(lia) Hdue Hok) as (_ & Hpipe & _).
  fold w1 in Hpipe.
  unfold upipe_ts_scte35g_prepare. rewrite Hpipe.
  cbn [flow_def scte35_null_section scte35_interval scte35_cr_sys
       set_scte35_sections set_scte35_cr_sys].
  rewrite Hfd, Hnull.
  rewrite (Z.mod_small (cr + scte35_interval (pipe w)) UINT64_MOD)
    by lia.
  destruct (Z.gtb_spec (cr + scte35_interval (pipe w)) cr'); [|lia].
  rewrite orb_true_r. reflexivity.
Qed.

Lemma prepare_rate_limit_witness :
  exists fd null_section,
    flow_def (pipe w_two_events) = Some fd
    /\ scte35_null_section (pipe w_two_events) = Some null_section
    /\ 0 < scte35_interval (pipe w_two_events)
    /\ (scte35_cr_sys (pipe w_two_events)
        + scte35_interval (pipe w_two_events)) mod UINT64_MOD <= 2000000
    /\ allocs_ok w_two_events
    /\ 0 <= 2000000
    /\ 2000000 + scte35_interval (pipe w_two_events) < UINT64_MOD
    /\ 3349999 < 2000000 + scte35_interval (pipe w_two_events)
    /\ let w1 := snd (upipe_ts_scte35g_prepare w_two_events 2000000 0) in
       upipe_ts_scte35g_prepare w1 3349999 0 = (UBASE_ERR_NONE, w1).
Proof.
  eexists. eexists.
  assert (H1 : flow_def (pipe w_two_events) = Some scte35_flow)
    by reflexivity.
  assert (H2 : scte35_null_section (pipe w_two_events)
               = Some [252; 48; 17; 0; 0; 0; 0; 0; 0; 0; 255; 240; 0; 0; 0; 0;
                       122; 79; 191; 255])
    by reflexivity.
  assert (H3 : 0 < scte35_interval (pipe w_two_events)) by reflexivity.
  assert (H4 : (scte35_cr_sys (pipe w_two_events)
                + scte35_interval (pipe w_two_events)) mod UINT64_MOD
               <= 2000000)
    by (vm_compute; discriminate).
  assert (H5 : allocs_ok w_two_events) by constructor.
  assert (H6 : 0 <= 2000000) by lia.
  assert (H7 : 2000000 + scte35_interval (pipe w_two_events) < UINT64_MOD)
    by reflexivity.
  assert (H8 : 3349999 < 2000000 + scte35_interval (pipe w_two_events))
    by reflexivity.
  split; [exact H1|]. split; [exact H2|].
  repeat (split; [assumption|]).
  exact (prepare_rate_limit w_two_events 2000000 3349999 0 0 _ _
           H1 H2 H3 H4 H5 H6 H7 H8).
Defined.

Lemma tick_kept_twice cr cr' msgs :
  cr <= cr' -> tick_kept cr' (tick_kept cr msgs) = tick_kept cr' msgs.
Proof.
  intros Hle. unfold tick_kept.
  induction msgs as [|m msgs IH]; [reflexivity|]. cbn [filter].
  destruct (Z.ltb_spec (cr_sys m) cr) as [H|H]; cbn [negb].
  - destruct (Z.ltb_spec (cr_sys m) cr'); [|lia]. cbn [negb]. exact IH.
  - cbn [map filter scte35_message_set_immediate cr_sys].
    destruct (cr_sys m <? cr'); cbn [negb]; [exact IH|].
    cbn [map]. rewrite IH. reflexivity.
Qed.

Lemma tick_kept_forms cr msgs :
  Forall (fun m => immediate m = None /\ cr <= cr_sys m) (tick_kept cr msgs).
Proof.
  unfold tick_kept. induction msgs as [|m msgs IH]; [constructor|].
  cbn [filter]. destruct (Z.ltb_spec (cr_sys m) cr); cbn [negb]; [exact IH|].
  cbn [map]. constructor; [|exact IH]. split; [reflexivity|assumption].
Qed.

(** X3: whatever the allocations do, after a qualifying tick at [cr] no
    pending message has an immediate form and none has a deadline before
    [cr]; the messages that stay are those with a deadline at or after
    [cr], in their order, with their deadline and scheduled form. *)
Theorem prepare_leaves_scheduled_only w cr latency fd null_section :
  flow_def (pipe w) = Some fd ->
  scte35_null_section (pipe w) = Some null_section ->
  scte35_interval (pipe w) <> 0 ->
  (scte35_cr_sys (pipe w) + scte35_interval (pipe w)) mod UINT64_MOD <= cr ->
  let w' := snd (upipe_ts_scte35g_prepare w cr latency) in
  Forall (fun m => immediate m = None /\ cr <= cr_sys m)
    (scte35_sections (pipe w'))
  /\ map (fun m => (ubuf m, cr_sys m)) (scte35_sections (pipe w'))
     = map (fun m => (ubuf m, cr_sys m))
         (filter (fun m => cr <=? cr_sys m) (scte35_sections (pipe w))).
Proof.
  intros Hfd Hnull Hint Hdue w'.
  assert (E : scte35_sections (pipe w')
              = tick_kept cr (scte35_sections (pipe w))).
  { destruct (prepare_any_allocs_pipe w cr latency fd null_section
                Hfd Hnull Hint Hdue) as (v & E).
    fold w' in E. rewrite E. reflexivity. }
  rewrite E. split; [apply tick_kept_forms|].
  unfold tick_kept. rewrite map_map. cbn [scte35_message_set_immediate
                                          ubuf cr_sys].
  f_equal. apply filter_ext. intros m.
  destruct (Z.ltb_spec (cr_sys m) cr), (Z.leb_spec cr (cr_sys m));
    try reflexivity; lia.
Qed.

Lemma prepare_leaves_scheduled_only_witness :
  let w := mk_world (pipe w_two_events) [false] [] in
  exists fd null_section,
    flow_def (pipe w) = Some fd
    /\ scte35_null_section (pipe w) = Some null_section
    /\ scte35_interval (pipe w) <> 0
    /\ (scte35_cr_sys (pipe w) + scte35_interval (pipe w)) mod UINT64_MOD
       <= 2000000
    /\ let w' := snd (upipe_ts_scte35g_prepare w 2000000 0) in
       Forall (fun m => immediate m = None /\ 2000000 <= cr_sys m)
         (scte35_sections (pipe w'))
       /\ map (fun m => (ubuf m, cr_sys m)) (scte35_sections (pipe w'))
          = map (fun m => (ubuf m, cr_sys m))
              (filter (fun m => 2000000 <=? cr_sys m)
                 (scte35_sections (pipe w))).
Proof.
  intros w. eexists. eexists.
  assert (H1 : flow_def (pipe w) = Some scte35_flow) by reflexivity.
  assert (H2 : scte35_null_section (pipe w)
               = Some [252; 48; 17; 0; 0; 0; 0; 0; 0; 0; 255; 240; 0; 0; 0; 0;
                       122; 79; 191; 255])
    by reflexivity.
  assert (H3 : scte35_interval (pipe w) <> 0) by (vm_compute; discriminate).
  assert (H4 : (scte35_cr_sys (pipe w) + scte35_interval (pipe w))
               mod UINT64_MOD <= 2000000)
    by (vm_compute; discriminate).
  split; [exact H1|]. split; [exact H2|].
  repeat (split; [assumption|]).
  exact (prepare_leaves_scheduled_only w 2000000 0 _ _ H1 H2 H3 H4).
Defined.

(** X4: two qualifying ticks in a row, whatever the allocations do:
    the pending messages left are those a single tick at the later date
    would leave. *)
Theorem prepare_twice w cr cr' latency latency' fd null_section :
  flow_def (pipe w) = Some fd ->
  scte35_null_section (pipe w) = Some null_section ->
  scte35_interval (pipe w) <> 0 ->
  (scte35_cr_sys (pipe w) + scte35_interval (pipe w)) mod UINT64_MOD <= cr ->
  cr <= cr' ->
  let w1 := snd (upipe_ts_scte35g_prepare w cr latency) in
  (scte35_cr_sys (pipe w1) + scte35_interval (pipe w)) mod UINT64_MOD
  <= cr' ->
  scte35_sections (pipe (snd (upipe_ts_scte35g_prepare w1 cr' latency')))
  = tick_kept cr' (scte35_sections (pipe w)).
Proof.
  intros Hfd Hnull Hint Hdue Hle w1 Hdue'.
  assert (E : exists v,
            pipe w1 = set_scte35_sections
                        (tick_kept cr (scte35_sections (pipe w)))
                        (set_scte35_cr_sys v (pipe w)))
    by exact (prepare_any_allocs_pipe w cr latency fd null_section
                Hfd Hnull Hint Hdue).
  destruct E as [v E].
  assert (Hfd1 : flow_def (pipe w1) = Some fd) by (rewrite E; exact Hfd).
  assert (Hnull1 : scte35_null_section (pipe w1) = Some null_section)
    by (rewrite E; exact Hnull).
  assert (Hint1 : scte35_interval (pipe w1) = scte35_interval (pipe w))
    by (rewrite E; reflexivity).
  destruct (prepare_any_allocs_pipe w1 cr' latency' fd null_section
              Hfd1 Hnull1 ltac:(congruence) ltac:(rewrite Hint1; exact Hdue'))
    as (v' & E').
  rewrite E', E.
  cbn [scte35_sections set_scte35_sections set_scte35_cr_sys].
  apply tick_kept_twice, Hle.
Qed.

Lemma prepare_twice_witness :
  exists fd null_section,
    flow_def (pipe w_two_events) = Some fd
    /\ scte35_null_section (pipe w_two_events) = Some null_section
    /\ scte35_interval (pipe w_two_events) <> 0
    /\ (scte35_cr_sys (pipe w_two_events)
        + scte35_interval (pipe w_two_events)) mod UINT64_MOD <= 2000000
    /\ 2000000 <= 6000000
    /\ let w1 := snd (upipe_ts_scte35g_prepare w_two_events 2000000 0) in
       (scte35_cr_sys (pipe w1) + scte35_interval (pipe w_two_events))
       mod UINT64_MOD <= 6000000
       /\ scte35_sections
            (pipe (snd (upipe_ts_scte35g_prepare w1 6000000 0)))
          = tick_kept 6000000 (scte35_sections (pipe w_two_events)).
Proof.
  eexists. eexists.
  assert (H1 : flow_def (pipe w_two_events) = Some scte35_flow)
    by reflexivity.
  assert (H2 : scte35_null_section (pipe w_two_events)
               = Some [252; 48; 17; 0; 0; 0; 0; 0; 0; 0; 255; 240; 0; 0; 0; 0;
                       122; 79; 191; 255])
    by reflexivity.
  assert (H3 : scte35_interval (pipe w_two_events) <> 0)
    by (vm_compute; discriminate).
  assert (H4 : (scte35_cr_sys (pipe w_two_events)
                + scte35_interval (pipe w_two_events)) mod UINT64_MOD
               <= 2000000)
    by (vm_compute; discriminate).
  assert (H5 : 2000000 <= 6000000) by lia.
  assert (H6 : (scte35_cr_sys
                  (pipe (snd (upipe_ts_scte35g_prepare w_two_events
                                2000000 0)))
                + scte35_interval (pipe w_two_events)) mod UINT64_MOD
               <= 6000000)
    by (vm_compute; discriminate).
  split; [exact H1|]. split; [exact H2|].
  repeat (split; [assumption|]).
  exact (prepare_twice w_two_events 2000000 6000000 0 0 _ _
           H1 H2 H3 H4 H5 H6).
Defined.

(** X5: a pending message that has only an immediate form and whose
    deadline has not passed when the tick comes loses that form without
    being sent: alone in the list, the tick sends the null section in its
    place, and what stays of it has nothing for any later tick. *)
Theorem immediate_only_not_sent w cr latency fd null_section m :
  flow_def (pipe w) = Some fd ->
  scte35_null_section (pipe w) = Some null_section ->
  scte35_interval (pipe w) <> 0 ->
  (scte35_cr_sys (pipe w) + scte35_interval (pipe w)) mod UINT64_MOD <= cr ->
  allocs_ok w ->
  scte35_sections (pipe w) = [m] -> ubuf m = None -> cr <= cr_sys m ->
  let w' := snd (upipe_ts_scte35g_prepare w cr latency) in
  outputs (trace w') = outputs (trace w) ++ [(null_section, cr)]
  /\ scte35_sections (pipe w') = [mk_msg None None (cr_sys m)]
  /\ forall cr', tick_sections cr' (scte35_sections (pipe w')) = [].
Proof.
  intros Hfd Hnull Hint Hdue Hok Hm Hu Hcr w'.
  destruct (prepare_qualifying w cr latency fd null_section
              Hfd Hnull Hint Hdue Hok) as (_ & Hpipe & Hout & _).
  fold w' in Hpipe, Hout. rewrite Hm in Hpipe, Hout.
  unfold tick_sent, tick_sections, tick_form, tick_kept in Hpipe, Hout.
  cbn [flat_map filter] in Hpipe, Hout.
  destruct (Z.ltb_spec (cr_sys m) cr); [lia|].
  rewrite Hu in Hout. cbn [negb map app] in Hpipe, Hout.
  unfold scte35_message_set_immediate in Hpipe. rewrite Hu in Hpipe.
  rewrite Hpipe. cbn [scte35_sections set_scte35_sections].
  split; [exact Hout|]. split; [reflexivity|].
  intros cr'. unfold tick_sections, tick_form. cbn.
  destruct (cr_sys m <? cr'); reflexivity.
Qed.

Lemma immediate_only_not_sent_witness :
  exists fd null_section m,
    flow_def (pipe w_immediate_only) = Some fd
    /\ scte35_null_section (pipe w_immediate_only) = Some null_section
    /\ scte35_interval (pipe w_immediate_only) <> 0
    /\ (scte35_cr_sys (pipe w_immediate_only)
        + scte35_interval (pipe w_immediate_only)) mod UINT64_MOD <= 2000000
    /\ allocs_ok w_immediate_only
    /\ scte35_sections (pipe w_immediate_only) = [m]
    /\ ubuf m = None
    /\ 2000000 <= cr_sys m
    /\ let w' := snd (upipe_ts_scte35g_prepare w_immediate_only 2000000 0) in
       outputs (trace w')
       = outputs (trace w_immediate_only) ++ [(null_section, 2000000)]
       /\ scte35_sections (pipe w') = [mk_msg None None (cr_sys m)]
       /\ forall cr', tick_sections cr' (scte35_sections (pipe w')) = [].
Proof.
  eexists. eexists. eexists.
  assert (H1 : flow_def (pipe w_immediate_only) = Some scte35_flow)
    by reflexivity.
  assert (H2 : scte35_null_section (pipe w_immediate_only)
               = Some [252; 48; 17; 0; 0; 0; 0; 0; 0; 0; 255; 240; 0; 0; 0; 0;
                       122; 79; 191; 255])
    by reflexivity.
  assert (H3 : scte35_interval (pipe w_immediate_only) <> 0)
    by (vm_compute; discriminate).
  assert (H4 : (scte35_cr_sys (pipe w_immediate_only)
                + scte35_interval (pipe w_immediate_only)) mod UINT64_MOD
               <= 2000000)
    by (vm_compute; discriminate).
  assert (H5 : allocs_ok w_immediate_only) by constructor.
  assert (H6 : scte35_sections (pipe w_immediate_only)
               = [insert_message
                    (event_uref SCTE35_INSERT_COMMAND 1 None None)])
    by (vm_compute; reflexivity).
  assert (H7 : ubuf (insert_message
                       (event_uref SCTE35_INSERT_COMMAND 1 None None))
               = None)
    by reflexivity.
  assert (H8 : 2000000
               <= cr_sys (insert_message
                            (event_uref SCTE35_INSERT_COMMAND 1 None None)))
    by (vm_compute; discriminate).
  split; [exact H1|]. split; [exact H2|].
  repeat (split; [assumption|]).
  split; [exact H6|]. split; [exact H7|]. split; [exact H8|].
  exact (immediate_only_not_sent w_immediate_only 2000000 0 _ _ _
           H1 H2 H3 H4 H5 H6 H7 H8).
Defined.

End Ticks.

(** ** Reassembly of events spread over several urefs *)

Section Events.

Lemma input_typed msg_view w u ct :
  uref_ts_scte35_get_command_type u = Some ct ->
  upipe_ts_scte35g_input msg_view w (Some u)
  = let was_empty := match urefs (pipe w) with [] => true | _ => false end in
    let forced := block_start u && negb was_empty in
    let w1 := if forced
              then upipe_ts_scte35g_flush
                     (upipe_log WARN "force last event flush" w)
              else w in
    let w2 := with_pipe (fun s => set_urefs (urefs s ++ [u]) s) w1 in
    if (negb (if forced then true else was_empty) || block_start u)
       && negb (block_end u)
    then upipe_log VERBOSE "wait for next descriptor" w2
    else upipe_ts_scte35g_flush w2.
Proof.
  intros Hct. destruct u as [[d|] st en pp du ps]; [|discriminate].
  unfold uref_ts_scte35_get_command_type, udict_get in Hct. simpl in Hct.
  cbn [upipe_ts_scte35g_input block_start block_end]. rewrite Hct.
  destruct (st && negb match urefs (pipe w) with [] => true | _ => false end);
    reflexivity.
Qed.

(** A uref of an event that goes on is appended to the list of input
    urefs and nothing else happens. *)
Lemma input_wait msg_view w u ct :
  uref_ts_scte35_get_command_type u = Some ct ->
  block_end u = false ->
  (urefs (pipe w) = [] /\ block_start u = true)
  \/ (urefs (pipe w) <> [] /\ block_start u = false) ->
  upipe_ts_scte35g_input msg_view w (Some u)
  = upipe_log VERBOSE "wait for next descriptor"
      (with_pipe (set_urefs (urefs (pipe w) ++ [u])) w).
Proof.
  intros Hct He H. rewrite (input_typed _ _ _ _ Hct), He.
  destruct H as [[Hl Hs]|[Hl Hs]]; rewrite Hs.
  - rewrite Hl. cbn. unfold with_pipe. rewrite Hl. reflexivity.
  - destruct (urefs (pipe w)) as [|u0 l] eqn:E; [contradiction|].
    cbn. unfold with_pipe. rewrite E. reflexivity.
Qed.

(** The last uref of an event is appended and the list is flushed. *)
Lemma input_end msg_view w u ct :
  uref_ts_scte35_get_command_type u = Some ct ->
  block_start u = false -> block_end u = true ->
  upipe_ts_scte35g_input msg_view w (Some u)
  = upipe_ts_scte35g_flush
      (with_pipe (set_urefs (urefs (pipe w) ++ [u])) w).
Proof.
  intros Hct Hs He. rewrite (input_typed _ _ _ _ Hct), Hs, He.
  cbn [andb negb orb]. rewrite !andb_false_r. reflexivity.
Qed.

Lemma push_continuations msg_view ms : forall w,
  urefs (pipe w) <> [] -> Forall is_continuation ms ->
  let w' := push_all msg_view w ms in
  pipe w' = set_urefs (urefs (pipe w) ++ ms) (pipe w)
  /\ allocs w' = allocs w
  /\ outputs (trace w') = outputs (trace w)
  /\ published (trace w') = published (trace w).
Proof.
  induction ms as [|m ms IH]; intros w Hne Hms; cbn [push_all fold_left].
  - rewrite app_nil_r. destruct (pipe w). auto.
  - inversion Hms as [|m' ms' (Hct & Hs & He) Hrest]; subst.
    destruct (uref_ts_scte35_get_command_type m) as [ct|] eqn:E;
      [|contradiction].
    rewrite (input_wait msg_view w m ct E He (or_intror (conj Hne Hs))).
    set (w1 := upipe_log VERBOSE "wait for next descriptor"
                 (with_pipe (set_urefs (urefs (pipe w) ++ [m])) w)).
    assert (Hne1 : urefs (pipe w1) <> [])
      by (cbn; destruct (urefs (pipe w)); discriminate).
    destruct (IH w1 Hne1 Hrest) as (P & A & O & Pu).
    fold (push_all msg_view w1 ms). rewrite P, A, O, Pu.
    unfold w1, upipe_log, emit, with_pipe.
    cbn [pipe allocs trace urefs set_urefs flow_def output_flow_def
         scte35_interval scte35_cr_sys scte35_null_section scte35_sections].
    rewrite <- app_assoc, outputs_app, published_app. simpl.
    rewrite !app_nil_r. auto.
Qed.

(** A flush on a splice_insert or time_signal event, no allocation
    failing: the message is appended, the list is emptied. *)
Lemma flush_ok w u rest ct :
  urefs (pipe w) = u :: rest ->
  uref_ts_scte35_get_command_type u = Some ct ->
  ct = SCTE35_INSERT_COMMAND \/ ct = SCTE35_TIME_SIGNAL_COMMAND ->
  (ct = SCTE35_TIME_SIGNAL_COMMAND ->
   (length (exported_descs rest) <= 999)%nat) ->
  allocs_ok w ->
  let w' := upipe_ts_scte35g_flush w in
  pipe w'
  = set_urefs []
      (set_scte35_cr_sys 0
         (set_scte35_sections
            (scte35_sections (pipe w) ++ flushed_messages u rest) (pipe w)))
  /\ allocs_ok w'
  /\ outputs (trace w') = outputs (trace w)
  /\ published (trace w') = published (trace w).
Proof.
  intros Hu Hct Hsup Hfit Hok w'. subst w'.
  unfold upipe_ts_scte35g_flush, flushed_messages. rewrite Hu, Hct.
  destruct Hsup as [->| ->]; cbn [Z.eqb SCTE35_INSERT_COMMAND
    SCTE35_NULL_COMMAND SCTE35_TIME_SIGNAL_COMMAND Pos.eqb].
  - destruct (input_insert_ok w u rest Hu Hok) as (al & -> & Hal).
    unfold with_pipe. cbn [pipe allocs trace]. rewrite outputs_app,
      published_app. simpl. rewrite !app_nil_r. auto.
  - assert (Hfit' : (14 + length (time_signal_body
                         (time_signal_pts_orig
                            (get_or UINT64_MAX (pts_prog u))))
                     + 2 + length (exported_descs rest) + 4 <= 1024)%nat).
    { pose proof (time_signal_body_length
                    (time_signal_pts_orig (get_or UINT64_MAX (pts_prog u)))).
      specialize (Hfit eq_refl). lia. }
    destruct (time_signal_ok w u rest Hu Hok Hfit')
      as (al & tr & -> & Hal & Ho & Hp).
    unfold with_pipe. cbn [pipe allocs trace]. auto.
Qed.

(** X6: a splice_insert or time_signal event spread over several urefs
    and pushed on an empty list, no allocation failing and, for a
    time_signal, the exported descriptors of the urefs behind the first
    taking at most 999 bytes (so that the section stays within its block
    of 1024 bytes): the first uref (start set, end not set) and the
    continuation urefs are kept until the uref that has end set arrives;
    then one message is appended to the pending sections, a splice_insert
    built from the first uref alone or a time_signal built from the first
    uref and the descriptors of all the others, the list of input urefs
    is empty again, scte35_cr_sys is back to 0 and nothing was sent
    meanwhile. *)
Theorem event_assembled msg_view w u ms l ct :
  urefs (pipe w) = [] -> allocs_ok w ->
  uref_ts_scte35_get_command_type u = Some ct ->
  ct = SCTE35_INSERT_COMMAND \/ ct = SCTE35_TIME_SIGNAL_COMMAND ->
  block_start u = true -> block_end u = false ->
  Forall is_continuation ms ->
  uref_ts_scte35_get_command_type l <> None ->
  block_start l = false -> block_end l = true ->
  (ct = SCTE35_TIME_SIGNAL_COMMAND ->
   (length (exported_descs (ms ++ [l])) <= 999)%nat) ->
  let w1 := push_all msg_view w (u :: ms) in
  let w' := push_all msg_view w (u :: ms ++ [l]) in
  urefs (pipe w1) = u :: ms
  /\ scte35_sections (pipe w1) = scte35_sections (pipe w)
  /\ urefs (pipe w') = []
  /\ scte35_sections (pipe w')
     = scte35_sections (pipe w) ++ flushed_messages u (ms ++ [l])
  /\ scte35_cr_sys (pipe w') = 0
  /\ outputs (trace w') = outputs (trace w).
Proof.
  intros Hempty Hok Hct Hsup Hs He Hms Hlt Hls Hle Hfit w1 w'.
  set (w0 := upipe_ts_scte35g_input msg_view w (Some u)).
  assert (E0 : w0 = upipe_log VERBOSE "wait for next descriptor"
                      (with_pipe (set_urefs [u]) w)).
  { unfold w0.
    rewrite (input_wait msg_view w u ct Hct He (or_introl (conj Hempty Hs))).
    rewrite Hempty. reflexivity. }
  assert (E1 : w1 = push_all msg_view w0 ms) by reflexivity.
  assert (E' : w' = upipe_ts_scte35g_input msg_view w1 (Some l)).
  { unfold w', w1, push_all. cbn [fold_left]. rewrite fold_left_app.
    reflexivity. }
  clearbody w0 w1 w'.
  assert (Hu0 : urefs (pipe w0) = [u]) by (rewrite E0; reflexivity).
  assert (Hne0 : urefs (pipe w0) <> []) by (rewrite Hu0; discriminate).
  destruct (push_continuations msg_view ms w0 Hne0 Hms) as (P & A & O & Pu).
  rewrite <- E1 in P, A, O, Pu. rewrite Hu0 in P.
  assert (Ow0 : outputs (trace w0) = outputs (trace w)).
  { rewrite E0. unfold upipe_log, emit. cbn [trace with_pipe].
    rewrite outputs_app. simpl. apply app_nil_r. }
  assert (Sw0 : scte35_sections (pipe w0) = scte35_sections (pipe w))
    by (rewrite E0; reflexivity).
  split; [rewrite P; reflexivity|].
  split; [rewrite P; exact Sw0|].
  destruct (uref_ts_scte35_get_command_type l) as [ctl|] eqn:El;
    [|contradiction].
  rewrite (input_end msg_view w1 l ctl El Hls Hle) in E'.
  set (w2 := with_pipe (set_urefs (urefs (pipe w1) ++ [l])) w1) in E'.
  assert (Hu2 : urefs (pipe w2) = u :: ms ++ [l])
    by (unfold w2; cbn [with_pipe pipe urefs set_urefs]; rewrite P;
        reflexivity).
  assert (Hok2 : allocs_ok w2).
  { unfold allocs_ok, w2. cbn [with_pipe allocs]. rewrite A, E0.
    exact Hok. }
  destruct (flush_ok w2 u (ms ++ [l]) ct Hu2 Hct Hsup Hfit Hok2)
    as (P2 & _ & O2 & _).
  rewrite <- E' in P2, O2. rewrite P2.
  cbn [urefs scte35_sections scte35_cr_sys set_urefs set_scte35_cr_sys
       set_scte35_sections].
  split; [reflexivity|]. split; [|split; [reflexivity|]].
  - unfold w2. cbn [with_pipe pipe scte35_sections set_urefs].
    rewrite P. cbn [scte35_sections set_urefs]. rewrite Sw0. reflexivity.
  - rewrite O2. unfold w2. cbn [with_pipe trace]. rewrite O. exact Ow0.
Qed.

Lemma event_assembled_witness :
  let u := start_uref SCTE35_TIME_SIGNAL_COMMAND (Some 90000000) in
  let w1 := push_all same_uref w_ready [u; mid_uref] in
  let w' := push_all same_uref w_ready ([u; mid_uref] ++ [desc_uref]) in
  urefs (pipe w_ready) = []
  /\ allocs_ok w_ready
  /\ uref_ts_scte35_get_command_type u = Some SCTE35_TIME_SIGNAL_COMMAND
  /\ block_start u = true /\ block_end u = false
  /\ Forall is_continuation [mid_uref]
  /\ uref_ts_scte35_get_command_type desc_uref <> None
  /\ block_start desc_uref = false /\ block_end desc_uref = true
  /\ (length (exported_descs ([mid_uref] ++ [desc_uref])) <= 999)%nat
  /\ urefs (pipe w1) = [u; mid_uref]
  /\ scte35_sections (pipe w1) = scte35_sections (pipe w_ready)
  /\ urefs (pipe w') = []
  /\ scte35_sections (pipe w')
     = scte35_sections (pipe w_ready)
       ++ flushed_messages u ([mid_uref] ++ [desc_uref])
  /\ scte35_cr_sys (pipe w') = 0
  /\ outputs (trace w') = outputs (trace w_ready).
Proof.
  intros u w1 w'.
  assert (H1 : urefs (pipe w_ready) = []) by reflexivity.
  assert (H2 : allocs_ok w_ready) by constructor.
  assert (H3 : uref_ts_scte35_get_command_type u
               = Some SCTE35_TIME_SIGNAL_COMMAND) by reflexivity.
  assert (H4 : block_start u = true) by reflexivity.
  assert (H5 : block_end u = false) by reflexivity.
  assert (H6 : Forall is_continuation [mid_uref]).
  { constructor; [|constructor].
    split; [discriminate|split; reflexivity]. }
  assert (H7 : uref_ts_scte35_get_command_type desc_uref <> None)
    by discriminate.
  assert (H8 : block_start desc_uref = false) by reflexivity.
  assert (H9 : block_end desc_uref = true) by reflexivity.
  assert (H10 : (length (exported_descs ([mid_uref] ++ [desc_uref]))
                 <= 999)%nat)
    by (vm_compute; lia).
  repeat (split; [assumption|]).
  exact (event_assembled same_uref w_ready u [mid_uref] desc_uref
           SCTE35_TIME_SIGNAL_COMMAND H1 H2 H3 (or_intror eq_refl) H4 H5 H6
           H7 H8 H9 (fun _ => H10)).
Defined.

(** X7: a uref with start set that arrives while an event is still
    being collected, both of command type splice_insert or time_signal,
    no allocation failing and, when the event being collected is a
    time_signal, the exported descriptors of its urefs behind the first
    taking at most 999 bytes: the event collected so far is synthesized
    from the urefs it has (the forced flush), then the new uref opens the
    next event, which is synthesized at once when the uref also has end
    set. *)
Theorem start_forces_flush msg_view w u0 rest ct0 u ct :
  urefs (pipe w) = u0 :: rest -> allocs_ok w ->
  uref_ts_scte35_get_command_type u0 = Some ct0 ->
  ct0 = SCTE35_INSERT_COMMAND \/ ct0 = SCTE35_TIME_SIGNAL_COMMAND ->
  (ct0 = SCTE35_TIME_SIGNAL_COMMAND ->
   (length (exported_descs rest) <= 999)%nat) ->
  uref_ts_scte35_get_command_type u = Some ct ->
  ct = SCTE35_INSERT_COMMAND \/ ct = SCTE35_TIME_SIGNAL_COMMAND ->
  block_start u = true ->
  let w' := upipe_ts_scte35g_input msg_view w (Some u) in
  urefs (pipe w') = (if block_end u then [] else [u])
  /\ scte35_sections (pipe w')
     = scte35_sections (pipe w) ++ flushed_messages u0 rest
       ++ (if block_end u then flushed_messages u [] else [])
  /\ scte35_cr_sys (pipe w') = 0
  /\ outputs (trace w') = outputs (trace w).
Proof.
  intros Hu0 Hok Hct0 Hsup0 Hfit0 Hct Hsup Hs w'. subst w'.
  rewrite (input_typed _ _ _ _ Hct), Hu0, Hs. cbn [andb negb orb].
  set (w0 := upipe_log WARN "force last event flush" w).
  assert (Hok0 : allocs_ok w0) by exact Hok.
  destruct (flush_ok w0 u0 rest ct0 Hu0 Hct0 Hsup0 Hfit0 Hok0)
    as (P1 & Hok1 & O1 & _).
  set (w1 := upipe_ts_scte35g_flush w0) in *.
  set (w2 := with_pipe (fun s => set_urefs (urefs s ++ [u]) s) w1).
  assert (Ow0 : outputs (trace w0) = outputs (trace w)).
  { unfold w0, upipe_log, emit. cbn [trace]. rewrite outputs_app. simpl.
    apply app_nil_r. }
  assert (P2 : pipe w2
               = set_urefs [u]
                   (set_scte35_cr_sys 0
                      (set_scte35_sections
                         (scte35_sections (pipe w) ++ flushed_messages u0 rest)
                         (pipe w)))).
  { unfold w2. cbn [with_pipe pipe]. rewrite P1. reflexivity. }
  destruct (block_end u); cbn [negb].
  - assert (Hu2 : urefs (pipe w2) = [u]) by (rewrite P2; reflexivity).
    assert (Hok2 : allocs_ok w2) by exact Hok1.
    destruct (flush_ok w2 u [] ct Hu2 Hct Hsup
                ltac:(intros _; simpl; lia) Hok2)
      as (P3 & _ & O3 & _).
    rewrite P3, P2, O3.
    cbn [urefs scte35_sections scte35_cr_sys set_urefs set_scte35_cr_sys
         set_scte35_sections with_pipe trace w2].
    rewrite <- app_assoc, O1, Ow0. auto.
  - unfold upipe_log, emit. cbn [pipe trace]. rewrite P2, outputs_app.
    cbn [urefs scte35_sections scte35_cr_sys set_urefs set_scte35_cr_sys
         set_scte35_sections with_pipe trace w2 outputs].
    rewrite !app_nil_r, O1, Ow0. auto.
Qed.

Lemma start_forces_flush_witness :
  let u0 := start_uref SCTE35_TIME_SIGNAL_COMMAND (Some 90000000) in
  let u := event_uref SCTE35_INSERT_COMMAND 2 None None in
  let w := push_all same_uref w_ready [u0; mid_uref] in
  let w' := upipe_ts_scte35g_input same_uref w (Some u) in
  urefs (pipe w) = [u0; mid_uref]
  /\ allocs_ok w
  /\ uref_ts_scte35_get_command_type u0 = Some SCTE35_TIME_SIGNAL_COMMAND
  /\ (length (exported_descs [mid_uref]) <= 999)%nat
  /\ uref_ts_scte35_get_command_type u = Some SCTE35_INSERT_COMMAND
  /\ block_start u = true
  /\ urefs (pipe w') = (if block_end u then [] else [u])
  /\ scte35_sections (pipe w')
     = scte35_sections (pipe w) ++ flushed_messages u0 [mid_uref]
       ++ (if block_end u then flushed_messages u [] else [])
  /\ scte35_cr_sys (pipe w') = 0
  /\ outputs (trace w') = outputs (trace w).
Proof.
  intros u0 u w w'.
  assert (H1 : urefs (pipe w) = [u0; mid_uref]) by reflexivity.
  assert (H2 : allocs_ok w) by constructor.
  assert (H3 : uref_ts_scte35_get_command_type u0
               = Some SCTE35_TIME_SIGNAL_COMMAND) by reflexivity.
  assert (H4 : (length (exported_descs [mid_uref]) <= 999)%nat)
    by (vm_compute; lia).
  assert (H5 : uref_ts_scte35_get_command_type u
               = Some SCTE35_INSERT_COMMAND) by reflexivity.
  assert (H6 : block_start u = true) by reflexivity.
  repeat (split; [assumption|]).
  exact (start_forces_flush same_uref w u0 [mid_uref]
           SCTE35_TIME_SIGNAL_COMMAND u SCTE35_INSERT_COMMAND
           H1 H2 H3 (or_intror eq_refl) (fun _ => H4) H5
           (or_introl eq_refl) H6).
Defined.

End Events.

(** ** Oversized descriptor loops, and the times of an event *)

Section EventTimes.


(** C4, amended: for an event whose pts_prog is present and is not
    UINT64_MAX (the value the code takes as absent), flushed with no
    allocation failing, the scheduled form of the message appended to the
    pending sections carries pts_time = (pts_prog / 300) mod 2^33, 300
    being CLOCK_SCALE = 27000000 / 90000: for a splice_insert (a cancelled
    one carries no splice_time() at all) and for a time_signal whose
    descriptors leave the section within its block (at most 999 bytes of
    them); for a splice_insert whose duration is present and is not
    UINT64_MAX, every form of the message carries the auto_return flag and
    duration = (duration / 300) mod 2^33 in its break_duration(). *)
Theorem pts_time_modular_wrap w u rest ct :
  urefs (pipe w) = u :: rest -> allocs_ok w ->
  uref_ts_scte35_get_command_type u = Some ct ->
  ct = SCTE35_INSERT_COMMAND \/ ct = SCTE35_TIME_SIGNAL_COMMAND ->
  (ct = SCTE35_TIME_SIGNAL_COMMAND ->
   (length (exported_descs rest) <= 999)%nat) ->
  CLOCK_SCALE = 27000000 / 90000 /\ CLOCK_SCALE = 300
  /\ exists msg,
       scte35_sections (pipe (upipe_ts_scte35g_flush w))
       = scte35_sections (pipe w) ++ [msg]
       /\ (forall p,
             pts_prog u = Some p -> 0 <= p < UINT64_MAX ->
             exists s,
               ubuf msg = Some s
               /\ (ct = SCTE35_INSERT_COMMAND ->
                   insert_pts_time s
                   = if udict_flag scte35_cancel u then None
                     else Some ((p / 300) mod 2 ^ 33))
               /\ (ct = SCTE35_TIME_SIGNAL_COMMAND ->
                   time_signal_pts_time s = Some ((p / 300) mod 2 ^ 33)))
       /\ (forall d,
             ct = SCTE35_INSERT_COMMAND ->
             duration u = Some d -> 0 <= d < UINT64_MAX ->
             exists s,
               immediate msg = Some s
               /\ forall s',
                    ubuf msg = Some s' \/ immediate msg = Some s' ->
                    insert_break_duration s'
                    = if udict_flag scte35_cancel u then None
                      else Some (udict_flag scte35_auto_return u,
                                 (d / 300) mod 2 ^ 33)).
Proof.
  intros Hu Hok Hct Hsup Hfit.
  split; [reflexivity|]. split; [reflexivity|].
  destruct (flush_ok w u rest ct Hu Hct Hsup Hfit Hok) as (P & _).
  rewrite P. cbn [scte35_sections set_urefs set_scte35_cr_sys
                  set_scte35_sections].
  unfold flushed_messages. rewrite Hct.
  destruct Hsup as [->| ->]; cbn [Z.eqb SCTE35_INSERT_COMMAND
    SCTE35_TIME_SIGNAL_COMMAND Pos.eqb].
  - exists (insert_message u). split; [reflexivity|]. split.
    + intros p Hp Hr. unfold insert_message. rewrite Hp. cbn [get_or].
      rewrite (not_uint64_max p Hr). cbn [ubuf]. eexists.
      split; [reflexivity|]. split; [|discriminate].
      intros _. apply insert_layout_pts_time, Hr.
    + intros d _ Hd Hr. unfold insert_message. rewrite Hd. cbn [get_or].
      cbn [ubuf immediate]. eexists. split; [reflexivity|].
      intros s' [H|H].
      * destruct (get_or UINT64_MAX (pts_prog u) =? UINT64_MAX);
          [discriminate|].
        injection H as <-. apply insert_layout_break_duration, Hr.
      * injection H as <-. apply insert_layout_break_duration, Hr.
  - exists (time_signal_message u rest). split; [reflexivity|]. split.
    + intros p Hp Hr. unfold time_signal_message. rewrite Hp. cbn [get_or].
      rewrite (not_uint64_max p Hr). cbn [ubuf]. eexists.
      split; [reflexivity|]. split; [discriminate|].
      intros _. apply time_signal_layout_pts_time, Hr.
    + intros d H. discriminate H.
Qed.

Lemma pts_time_modular_wrap_witness :
  let u := event_uref SCTE35_INSERT_COMMAND 1 (Some 25769803776000000)
             (Some 2700000) in
  let w := with_pipe (set_urefs [u]) w_ready in
  urefs (pipe w) = [u]
  /\ allocs_ok w
  /\ uref_ts_scte35_get_command_type u = Some SCTE35_INSERT_COMMAND
  /\ pts_prog u = Some 25769803776000000
  /\ 0 <= 25769803776000000 < UINT64_MAX
  /\ duration u = Some 2700000
  /\ 0 <= 2700000 < UINT64_MAX
  /\ (25769803776000000 / 300) mod 2 ^ 33 = 8589934592000 mod 2 ^ 33
  /\ exists msg,
       scte35_sections (pipe (upipe_ts_scte35g_flush w))
       = scte35_sections (pipe w) ++ [msg]
       /\ (exists s,
             ubuf msg = Some s
             /\ (SCTE35_INSERT_COMMAND = SCTE35_INSERT_COMMAND ->
                 insert_pts_time s
                 = if udict_flag scte35_cancel u then None
                   else Some ((25769803776000000 / 300) mod 2 ^ 33))
             /\ (SCTE35_INSERT_COMMAND = SCTE35_TIME_SIGNAL_COMMAND ->
                 time_signal_pts_time s
                 = Some ((25769803776000000 / 300) mod 2 ^ 33)))
       /\ (exists s,
             immediate msg = Some s
             /\ forall s',
                  ubuf msg = Some s' \/ immediate msg = Some s' ->
                  insert_break_duration s'
                  = if udict_flag scte35_cancel u then None
                    else Some (udict_flag scte35_auto_return u,
                               (2700000 / 300) mod 2 ^ 33)).
Proof.
  intros u w.
  assert (H1 : urefs (pipe w) = [u]) by reflexivity.
  assert (H2 : allocs_ok w) by constructor.
  assert (H3 : uref_ts_scte35_get_command_type u
               = Some SCTE35_INSERT_COMMAND) by reflexivity.
  assert (H4 : pts_prog u = Some 25769803776000000) by reflexivity.
  assert (H5 : 0 <= 25769803776000000 < UINT64_MAX)
    by (unfold UINT64_MAX; lia).
  assert (H6 : duration u = Some 2700000) by reflexivity.
  assert (H7 : 0 <= 2700000 < UINT64_MAX) by (unfold UINT64_MAX; lia).
  assert (H8 : (25769803776000000 / 300) mod 2 ^ 33
               = 8589934592000 mod 2 ^ 33) by reflexivity.
  repeat (split; [assumption|]).
  destruct (pts_time_modular_wrap w u [] SCTE35_INSERT_COMMAND H1 H2 H3
              (or_introl eq_refl) ltac:(discriminate))
    as (_ & _ & msg & E & T & D).
  exists msg. split; [exact E|].
  split; [exact (T _ H4 H5)|exact (D _ eq_refl H6 H7)].
Defined.

(** C4 as stated fails: an event whose pts_prog is present with the value
    UINT64_MAX is taken as one without pts_prog, and the message the flush
    appends has no scheduled form; the scheduled form of a cancelled
    splice_insert with a pts_prog has no splice_time(); a time_signal
    with a pts_prog and 84 descriptors of twelve bytes overruns its block
    and gives no message; and a duration present with the value
    UINT64_MAX is taken as absent, no form carrying a break_duration(). *)
Lemma pts_prog_uint64_max_absent :
  let u := event_uref SCTE35_INSERT_COMMAND 1 (Some UINT64_MAX) None in
  let w := with_pipe (set_urefs [u]) w_ready in
  let wc := with_pipe (set_urefs [cancelled_uref]) w_ready in
  let t := start_uref SCTE35_TIME_SIGNAL_COMMAND (Some 90000000) in
  let wt := with_pipe (set_urefs (t :: repeat cont_uref 83 ++ [desc_uref]))
              w_ready in
  let d := event_uref SCTE35_INSERT_COMMAND 1 (Some 9000000)
             (Some UINT64_MAX) in
  let wd := with_pipe (set_urefs [d]) w_ready in
  (pts_prog u = Some UINT64_MAX
   /\ uref_ts_scte35_get_command_type u = Some SCTE35_INSERT_COMMAND
   /\ map ubuf (scte35_sections (pipe (upipe_ts_scte35g_flush w))) = [None]
   /\ ~ scheduled_pts_time_law insert_pts_time w UINT64_MAX)
  /\ (pts_prog cancelled_uref = Some 9000000
      /\ udict_flag scte35_cancel cancelled_uref = true
      /\ (exists s,
            map ubuf (scte35_sections (pipe (upipe_ts_scte35g_flush wc)))
            = [Some s]
            /\ insert_pts_time s = None)
      /\ ~ scheduled_pts_time_law insert_pts_time wc 9000000)
  /\ (pts_prog t = Some 90000000
      /\ uref_ts_scte35_get_command_type t = Some SCTE35_TIME_SIGNAL_COMMAND
      /\ scte35_sections (pipe (upipe_ts_scte35g_flush wt)) = []
      /\ ~ scheduled_pts_time_law time_signal_pts_time wt 90000000)
  /\ (duration d = Some UINT64_MAX
      /\ exists s s',
           scte35_sections (pipe (upipe_ts_scte35g_flush wd))
           = [mk_msg (Some s) (Some s') 5000000]
           /\ insert_break_duration s = None
           /\ insert_break_duration s' = None).
Proof.
  intros u w wc t wt d wd.
  assert (Z0 : scte35_sections (pipe w_ready) = []) by reflexivity.
  split; [|split; [|split]].
  - split; [reflexivity|]. split; [reflexivity|].
    assert (E : map ubuf (scte35_sections (pipe (upipe_ts_scte35g_flush w)))
                = [None]) by (vm_compute; reflexivity).
    split; [exact E|].
    intros (msg & s & S & U & _).
    apply (f_equal (map ubuf)) in S. rewrite E in S.
    change (scte35_sections (pipe w)) with (scte35_sections (pipe w_ready))
      in S.
    rewrite Z0 in S. cbn [app map] in S. rewrite U in S. discriminate S.
  - split; [reflexivity|]. split; [reflexivity|].
    assert (E : exists s,
              map ubuf (scte35_sections (pipe (upipe_ts_scte35g_flush wc)))
              = [Some s]
              /\ insert_pts_time s = None)
      by (eexists; split; vm_compute; reflexivity).
    split; [exact E|].
    destruct E as (s0 & E & N).
    intros (msg & s & S & U & T).
    apply (f_equal (map ubuf)) in S. rewrite E in S.
    change (scte35_sections (pipe wc)) with (scte35_sections (pipe w_ready))
      in S.
    rewrite Z0 in S. cbn [app map] in S. rewrite U in S.
    injection S as ->. rewrite N in T. discriminate T.
  - split; [reflexivity|]. split; [reflexivity|].
    assert (E : scte35_sections (pipe (upipe_ts_scte35g_flush wt)) = [])
      by (vm_compute; reflexivity).
    split; [exact E|].
    intros (msg & s & S & _). rewrite E in S.
    destruct (scte35_sections (pipe wt)); discriminate S.
  - split; [reflexivity|].
    eexists. eexists. split; [vm_compute; reflexivity|].
    split; vm_compute; reflexivity.
Qed.

End EventTimes.

(** ** What an input never does *)

Section InputFrame.

Lemma silent_refl w : silent w w.
Proof. repeat split. Qed.

Lemma silent_trans w1 w2 w3 : silent w1 w2 -> silent w2 w3 -> silent w1 w3.
Proof. intros (P & O & F) (P' & O' & F'). repeat split; congruence. Qed.

Lemma silent_draw w : silent w (snd (draw w)).
Proof. unfold draw. destruct (allocs w); repeat split. Qed.

Lemma silent_log l m w : silent w (upipe_log l m w).
Proof.
  unfold upipe_log, emit, silent. cbn [pipe trace].
  rewrite outputs_app, published_app. simpl. rewrite !app_nil_r. auto.
Qed.

Lemma silent_fatal w : silent w (upipe_throw_fatal w).
Proof.
  unfold upipe_throw_fatal, emit, silent. cbn [pipe trace].
  rewrite outputs_app, published_app. simpl. rewrite !app_nil_r. auto.
Qed.

Lemma silent_undefined w : silent w (emit Undefined w).
Proof.
  unfold emit, silent. cbn [pipe trace].
  rewrite outputs_app, published_app. simpl. rewrite !app_nil_r. auto.
Qed.

Lemma silent_alloc_section build w :
  silent w (snd (alloc_section build w)).
Proof.
  unfold alloc_section.
  pose proof (silent_draw w) as H1. destruct (draw w) as [ok1 w1].
  cbn [snd] in H1. destruct ok1; cbn [negb snd].
  - pose proof (silent_draw w1) as H2. destruct (draw w1) as [ok2 w2].
    cbn [snd] in H2. pose proof (silent_trans _ _ _ H1 H2) as H.
    destruct ok2; cbn [negb snd].
    + destruct (build fresh_block); cbn [snd]; [exact H|].
      exact (silent_trans _ _ _ H (silent_undefined w2)).
    + exact (silent_trans _ _ _ H (silent_fatal w2)).
  - exact (silent_trans _ _ _ H1 (silent_fatal w1)).
Qed.

Lemma silent_export_warnings us w : silent w (export_warnings us w).
Proof.
  destruct (export_warnings_quiet us w) as (P & _ & O & F).
  repeat split; assumption.
Qed.

Lemma silent_synth_loop pass msg pts w :
  (forall p w0, silent w0 (snd (pass p w0))) ->
  silent w (snd (synth_loop pass msg pts w)).
Proof.
  intros Hpass. unfold synth_loop.
  pose proof (Hpass pts w) as H1. destruct (pass pts w) as [[s|] w1];
    cbn [snd] in *; [|exact H1].
  destruct (pts =? UINT64_MAX); cbn [snd]; [exact H1|].
  pose proof (Hpass UINT64_MAX w1) as H2.
  destruct (pass UINT64_MAX w1) as [[s'|] w2]; cbn [snd] in *;
    exact (silent_trans _ _ _ H1 H2).
Qed.

Lemma input_frame_refl w : input_frame w w.
Proof.
  repeat split. exists []. symmetry. apply app_nil_r.
Qed.

Lemma input_frame_trans w1 w2 w3 :
  input_frame w1 w2 -> input_frame w2 w3 -> input_frame w1 w3.
Proof.
  intros (O & F & A & B & C & l & S) (O' & F' & A' & B' & C' & l' & S').
  repeat split; try congruence.
  exists (l ++ l'). rewrite S', S, app_assoc. reflexivity.
Qed.

Lemma input_frame_silent w w' : silent w w' -> input_frame w w'.
Proof.
  intros (P & O & F). unfold input_frame. rewrite P, O, F.
  repeat split. exists []. symmetry. apply app_nil_r.
Qed.

Lemma input_frame_urefs f w :
  input_frame w (with_pipe (fun s => set_urefs (f s) s) w).
Proof.
  repeat split. exists []. symmetry. apply app_nil_r.
Qed.

Lemma input_frame_add_message notice r w :
  silent w (snd r) -> input_frame w (add_message notice r).
Proof.
  intros H. destruct r as [[msg|] w1]; cbn [snd add_message] in *.
  - destruct H as (P & O & F).
    unfold upipe_log, emit, with_pipe, input_frame. cbn [pipe trace].
    rewrite outputs_app, published_app, P, O, F. simpl.
    rewrite !app_nil_r. repeat split. exists [msg]. reflexivity.
  - apply input_frame_silent, H.
Qed.

Lemma input_insert_frame w :
  input_frame w (upipe_ts_scte35g_input_insert w).
Proof.
  unfold upipe_ts_scte35g_input_insert.
  destruct (urefs (pipe w)) as [|u rest]; [apply input_frame_refl|].
  apply (input_frame_trans _ (with_pipe (set_urefs rest) w));
    [apply (input_frame_urefs (fun _ => rest))|].
  generalize (with_pipe (set_urefs rest) w). intros w0.
  pose proof (silent_draw w0) as H0. destruct (draw w0) as [ok w1].
  cbn [snd] in H0.
  apply (input_frame_trans _ w1); [apply input_frame_silent, H0|].
  destruct ok; cbn [negb].
  - apply input_frame_add_message, silent_synth_loop.
    intros p w2. apply silent_alloc_section.
  - apply input_frame_silent, silent_fatal.
Qed.

Lemma time_signal_frame w :
  input_frame w (upipe_ts_scte35g_time_signal w).
Proof.
  unfold upipe_ts_scte35g_time_signal.
  destruct (urefs (pipe w)) as [|u rest]; [apply input_frame_refl|].
  apply (input_frame_trans _ (with_pipe (set_urefs rest) w));
    [apply (input_frame_urefs (fun _ => rest))|].
  generalize (with_pipe (set_urefs rest) w). intros w0.
  pose proof (silent_draw w0) as H0. destruct (draw w0) as [ok w1].
  cbn [snd] in H0.
  apply (input_frame_trans _ w1); [apply input_frame_silent, H0|].
  destruct ok; cbn [negb].
  - apply input_frame_add_message, silent_synth_loop.
    intros p w2.
    pose proof (silent_alloc_section
                  (fun raw =>
                     time_signal_section raw
                       (time_signal_pts_orig (get_or UINT64_MAX (pts_prog u)))
                       rest) w2) as H.
    destruct (alloc_section _ w2) as [[s|] w3]; cbn [snd] in *.
    + exact (silent_trans _ _ _ H (silent_export_warnings rest w3)).
    + exact H.
  - apply input_frame_silent, silent_fatal.
Qed.

Lemma build_null_input_frame w :
  input_frame w (upipe_ts_scte35g_build_null w).
Proof.
  unfold upipe_ts_scte35g_build_null.
  destruct (flow_def (pipe w)); [|apply input_frame_refl].
  pose proof (silent_alloc_section build_null_section w) as H.
  destruct (alloc_section build_null_section w) as [[s|] w1];
    cbn [snd] in H; [|apply input_frame_silent, H].
  destruct H as (P & O & F).
  unfold with_pipe, input_frame. cbn [pipe trace]. rewrite P, O, F.
  repeat split. exists []. symmetry. apply app_nil_r.
Qed.

Lemma flush_frame w : input_frame w (upipe_ts_scte35g_flush w).
Proof.
  unfold upipe_ts_scte35g_flush.
  destruct (urefs (pipe w)) as [|u rest]; [apply input_frame_refl|].
  assert (D : forall w1, input_frame w w1 ->
                         input_frame w (with_pipe (set_urefs []) w1)).
  { intros w1 H. apply (input_frame_trans _ w1 _ H).
    apply (input_frame_urefs (fun _ => [])). }
  destruct (uref_ts_scte35_get_command_type u) as [ct|].
  - destruct (ct =? SCTE35_INSERT_COMMAND);
      [apply D, input_insert_frame|].
    destruct (ct =? SCTE35_NULL_COMMAND);
      [apply D, build_null_input_frame|].
    destruct (ct =? SCTE35_TIME_SIGNAL_COMMAND);
      [apply D, time_signal_frame|].
    apply input_frame_silent, silent_log.
  - apply D, input_frame_silent, silent_log.
Qed.

(** X8: whatever arrives and whatever the allocations do (an empty
    event taken on an empty list of input urefs, where its stores touch
    nothing), an input sends no section, publishes no flow definition,
    leaves the flow definitions and the interval as they are, and removes
    or alters none of the pending messages: it can only append to them. *)
Theorem input_only_appends msg_view w input :
  (match input with Some u => uref_udict u | None => None end = None ->
   urefs (pipe w) = []) ->
  let w' := upipe_ts_scte35g_input msg_view w input in
  outputs (trace w') = outputs (trace w)
  /\ published (trace w') = published (trace w)
  /\ flow_def (pipe w') = flow_def (pipe w)
  /\ output_flow_def (pipe w') = output_flow_def (pipe w)
  /\ scte35_interval (pipe w') = scte35_interval (pipe w)
  /\ exists l, scte35_sections (pipe w') = scte35_sections (pipe w) ++ l.
Proof.
  intros _ w'. change (input_frame w w'). subst w'.
  assert (N : input_frame w
                (with_pipe (fun s => set_urefs (map msg_view (urefs s)) s)
                   (upipe_log NOTICE
                      "now using splice_null command due to empty event" w))).
  { eapply input_frame_trans;
      [apply input_frame_silent, silent_log|].
    apply (input_frame_urefs (fun s => map msg_view (urefs s))). }
  destruct input as [u|]; [|exact N].
  destruct (uref_ts_scte35_get_command_type u) as [ct|] eqn:Hct.
  - rewrite (input_typed _ _ _ _ Hct). cbv zeta.
    set (forced := block_start u
                   && negb match urefs (pipe w) with
                           | [] => true | _ => false end).
    set (w1 := if forced
               then upipe_ts_scte35g_flush
                      (upipe_log WARN "force last event flush" w)
               else w).
    assert (H1 : input_frame w w1).
    { unfold w1. destruct forced; [|apply input_frame_refl].
      eapply input_frame_trans;
        [apply input_frame_silent, silent_log|apply flush_frame]. }
    set (w2 := with_pipe (fun s => set_urefs (urefs s ++ [u]) s) w1).
    assert (H2 : input_frame w w2).
    { apply (input_frame_trans _ _ _ H1).
      apply (input_frame_urefs (fun s => urefs s ++ [u])). }
    destruct ((negb (if forced then true else _) || block_start u)
              && negb (block_end u)).
    + apply (input_frame_trans _ _ _ H2), input_frame_silent, silent_log.
    + apply (input_frame_trans _ _ _ H2), flush_frame.
  - destruct u as [[d|] st en pp du ps]; [|exact N].
    unfold uref_ts_scte35_get_command_type, udict_get in Hct.
    simpl in Hct. cbn [upipe_ts_scte35g_input]. rewrite Hct.
    apply input_frame_silent, silent_log.
Qed.

Lemma input_only_appends_witness :
  let u := event_uref SCTE35_INSERT_COMMAND 3 (Some 9000000) None in
  let w' := upipe_ts_scte35g_input same_uref w_two_events (Some u) in
  (uref_udict u = None -> urefs (pipe w_two_events) = [])
  /\ outputs (trace w') = outputs (trace w_two_events)
  /\ published (trace w') = published (trace w_two_events)
  /\ flow_def (pipe w') = flow_def (pipe w_two_events)
  /\ output_flow_def (pipe w') = output_flow_def (pipe w_two_events)
  /\ scte35_interval (pipe w') = scte35_interval (pipe w_two_events)
  /\ exists l, scte35_sections (pipe w')
               = scte35_sections (pipe w_two_events) ++ l.
Proof.
  intros u w'.
  assert (H : uref_udict u = None -> urefs (pipe w_two_events) = [])
    by discriminate.
  split; [exact H|].
  exact (input_only_appends same_uref w_two_events (Some u) H).
Defined.

Lemma flush_urefs w :
  urefs (pipe (upipe_ts_scte35g_flush w)) = []
  \/ urefs (pipe (upipe_ts_scte35g_flush w)) = urefs (pipe w).
Proof.
  unfold upipe_ts_scte35g_flush.
  destruct (urefs (pipe w)) as [|u rest] eqn:E; [right; exact E|].
  destruct (uref_ts_scte35_get_command_type u) as [ct|]; [|left; reflexivity].
  destruct (ct =? SCTE35_INSERT_COMMAND); [left; reflexivity|].
  destruct (ct =? SCTE35_NULL_COMMAND); [left; reflexivity|].
  destruct (ct =? SCTE35_TIME_SIGNAL_COMMAND); [left; reflexivity|].
  right. exact E.
Qed.

End InputFrame.

(** ** The other fields of the synthesized sections *)

Section Fields.

Lemma be32_reads v :
  0 <= v < 2 ^ 32 ->
  Z.lor (Z.shiftl (byte_of v 24) 24)
    (Z.lor (Z.shiftl (byte_of v 16) 16)
       (Z.lor (Z.shiftl (byte_of v 8) 8) (byte_of v 0))) = v.
Proof.
  intros Hv. unfold byte_of. change 255 with (Z.ones 8).
  Z.bitblast. rewrite (testbit_high v 32) by lia. reflexivity.
Qed.

Lemma be16_reads v :
  0 <= v < 2 ^ 16 ->
  Z.lor (Z.shiftl (byte_of v 8) 8) (byte_of v 0) = v.
Proof.
  intros Hv. unfold byte_of. rewrite Z.shiftr_0_r.
  apply field16_roundtrip. lia.
Qed.

(** X9: what a decoder reads back from a splice_insert section, either form:
    the event id and the program id as the 32 and 16 low bits of the
    attributes, the cancel indicator, and, unless cancelled, the
    out_of_network flag, program_splice_flag = 1, duration_flag set when
    the event has a duration, and splice_immediate_flag set, with no
    splice_time() behind it, exactly when [pts_prog] is absent. *)
Theorem insert_fields_read_back raw event_id (cancel out_of_network
    auto_return : bool) program_id dur pts :
  length raw = (PSI_MAX_SIZE + PSI_HEADER_SIZE)%nat ->
  exists s,
    insert_section raw event_id cancel out_of_network auto_return
      program_id dur pts = Some s
    /\ scte35_get_command_type s = SCTE35_INSERT_COMMAND
    /\ scte35_insert_get_event_id s = event_id mod 2 ^ 32
    /\ scte35_insert_has_cancel s = cancel
    /\ (cancel = false ->
        scte35_insert_has_out_of_network s = out_of_network
        /\ scte35_insert_has_program_splice s = true
        /\ scte35_insert_has_duration s = negb (dur =? UINT64_MAX)
        /\ scte35_insert_is_splice_immediate s = (pts =? UINT64_MAX)
        /\ scte35_insert_get_splice_time s
           = (if pts =? UINT64_MAX then None else Some 20%nat)
        /\ scte35_insert_get_unique_program_id s
           = Some (program_id mod 2 ^ 16)).
Proof.
  intros Hraw. eexists. split; [apply insert_section_layout, Hraw|].
  unfold insert_body, splice_time_bytes, break_duration_bytes.
  assert (HE : 0 <= event_id mod UINT32_MOD < 2 ^ 32)
    by (apply Z.mod_pos_bound; reflexivity).
  assert (HP : 0 <= program_id mod UINT16_MOD < 2 ^ 16)
    by (apply Z.mod_pos_bound; reflexivity).
  change (event_id mod 2 ^ 32) with (event_id mod UINT32_MOD).
  change (program_id mod 2 ^ 16) with (program_id mod UINT16_MOD).
  generalize dependent (event_id mod UINT32_MOD).
  generalize dependent (program_id mod UINT16_MOD).
  generalize ((pts / CLOCK_SCALE) mod POW2_33)
    ((dur / CLOCK_SCALE) mod POW2_33).
  intros T D P HP E HE.
  split; [destruct cancel; reflexivity|].
  split.
  { transitivity
      (Z.lor (Z.shiftl (byte_of E 24) 24)
         (Z.lor (Z.shiftl (byte_of E 16) 16)
            (Z.lor (Z.shiftl (byte_of E 8) 8) (byte_of E 0))));
      [destruct cancel; reflexivity|apply be32_reads, HE]. }
  split; [destruct cancel; reflexivity|].
  intros ->.
  destruct (bit_of_cases T 32) as [HT|HT], (bit_of_cases D 32) as [HD|HD];
    rewrite HT, HD;
    destruct out_of_network, auto_return, (pts =? UINT64_MAX),
      (dur =? UINT64_MAX);
    (split; [reflexivity|]); (split; [reflexivity|]);
    (split; [reflexivity|]); (split; [reflexivity|]);
    (split; [reflexivity|]);
    (transitivity
       (Some (Z.lor (Z.shiftl (byte_of P 8) 8) (byte_of P 0)));
     [reflexivity|rewrite be16_reads by assumption; reflexivity]).
Qed.

Lemma insert_fields_read_back_witness :
  length fresh_block = (PSI_MAX_SIZE + PSI_HEADER_SIZE)%nat
  /\ exists s,
       insert_section fresh_block 4294967297 false true true 65602
         UINT64_MAX UINT64_MAX = Some s
       /\ scte35_get_command_type s = SCTE35_INSERT_COMMAND
       /\ scte35_insert_get_event_id s = 4294967297 mod 2 ^ 32
       /\ scte35_insert_has_cancel s = false
       /\ (false = false ->
           scte35_insert_has_out_of_network s = true
           /\ scte35_insert_has_program_splice s = true
           /\ scte35_insert_has_duration s
              = negb (UINT64_MAX =? UINT64_MAX)
           /\ scte35_insert_is_splice_immediate s
              = (UINT64_MAX =? UINT64_MAX)
           /\ scte35_insert_get_splice_time s
              = (if UINT64_MAX =? UINT64_MAX then None else Some 20%nat)
           /\ scte35_insert_get_unique_program_id s
              = Some (65602 mod 2 ^ 16)).
Proof.
  split; [reflexivity|].
  exact (insert_fields_read_back fresh_block 4294967297 false true true
           65602 UINT64_MAX UINT64_MAX eq_refl).
Defined.

(** X10: upipe_ts_scte35g_time_signal checks no size: a pass yields a section
    exactly when header, splice_time(), descriptor_loop_length, the
    exported descriptors and the CRC fit the block of 1024 bytes; with
    more descriptors a store lands behind the block. *)
Theorem time_signal_overruns_block raw pts_orig us :
  length raw = (PSI_MAX_SIZE + PSI_HEADER_SIZE)%nat ->
  time_signal_section raw pts_orig us = None
  <-> (1024 < 14 + length (time_signal_body pts_orig) + 2
              + length (exported_descs us) + 4)%nat.
Proof.
  intros Hraw. rewrite time_signal_section_layout by assumption.
  destruct (Nat.leb_spec
              (14 + length (time_signal_body pts_orig) + 2
               + length (exported_descs us) + 4) 1024);
    split; intros H'; try discriminate; try lia; reflexivity.
Qed.

Lemma time_signal_overruns_block_witness :
  length fresh_block = (PSI_MAX_SIZE + PSI_HEADER_SIZE)%nat
  /\ (1024 < 14 + length (time_signal_body 300000) + 2
             + length (exported_descs (repeat desc_uref 84)) + 4)%nat
  /\ time_signal_section fresh_block 300000 (repeat desc_uref 84) = None.
Proof.
  split; [reflexivity|].
  assert (H : (1024 < 14 + length (time_signal_body 300000) + 2
                      + length (exported_descs (repeat desc_uref 84)) + 4)%nat)
    by (vm_compute; lia).
  split; [exact H|].
  exact (proj2 (time_signal_overruns_block fresh_block 300000
                  (repeat desc_uref 84) eq_refl) H).
Defined.

Lemma exported_descs_app us us' :
  exported_descs (us ++ us') = exported_descs us ++ exported_descs us'.
Proof. unfold exported_descs. apply flat_map_app. Qed.

(** X11: a uref whose descriptor cannot be exported is skipped: the section
    is the one the other urefs give, their descriptors in the order of
    the urefs. *)
Theorem time_signal_skips_failed_export raw pts_orig us u us' :
  length raw = (PSI_MAX_SIZE + PSI_HEADER_SIZE)%nat ->
  exported_desc u = None ->
  time_signal_section raw pts_orig (us ++ u :: us')
  = time_signal_section raw pts_orig (us ++ us').
Proof.
  intros Hraw Hu. rewrite !time_signal_section_layout by assumption.
  rewrite !exported_descs_app, exported_descs_cons, Hu. reflexivity.
Qed.

Lemma time_signal_skips_failed_export_witness :
  let u := event_uref SCTE35_TIME_SIGNAL_COMMAND 1 None None in
  length fresh_block = (PSI_MAX_SIZE + PSI_HEADER_SIZE)%nat
  /\ exported_desc u = None
  /\ time_signal_section fresh_block 300000 ([mid_uref] ++ u :: [desc_uref])
     = time_signal_section fresh_block 300000 ([mid_uref] ++ [desc_uref]).
Proof.
  intros u. split; [reflexivity|]. split; [reflexivity|].
  exact (time_signal_skips_failed_export fresh_block 300000 [mid_uref] u
           [desc_uref] eq_refl eq_refl).
Defined.

End Fields.

(** ** Sections are strings of bytes *)

Section Bytes.

Lemma land_255_range v : 0 <= Z.land v 255 < 256.
Proof.
  change 255 with (Z.ones 8). rewrite Z.land_ones by lia.
  apply Z.mod_pos_bound. reflexivity.
Qed.

Lemma byte_of_range v k : 0 <= byte_of v k < 256.
Proof. apply land_255_range. Qed.

Lemma lor_range a b :
  0 <= a < 256 -> 0 <= b < 256 -> 0 <= Z.lor a b < 256.
Proof.
  intros Ha Hb.
  assert (Ea : a = Z.land a 255)
    by (change 255 with (Z.ones 8); rewrite Z.land_ones by lia;
        symmetry; apply Z.mod_small; lia).
  assert (Eb : b = Z.land b 255)
    by (change 255 with (Z.ones 8); rewrite Z.land_ones by lia;
        symmetry; apply Z.mod_small; lia).
  rewrite Ea, Eb, <- Z.land_lor_distr_l. apply land_255_range.
Qed.

Lemma lor_nibble_range hi v :
  hi = 48 \/ hi = 240 -> 0 <= Z.lor hi (Z.land v 15) < 256.
Proof.
  intros Hhi. apply lor_range; [destruct Hhi; lia|].
  change 15 with (Z.ones 4). rewrite Z.land_ones by lia.
  pose proof (Z.mod_pos_bound v (2 ^ 4) eq_refl). lia.
Qed.

Lemma be32_range v : Forall (fun b => 0 <= b < 256) (be32 v).
Proof. unfold be32. repeat constructor; apply byte_of_range. Qed.

Lemma header14_range sl cl ct :
  0 <= ct < 256 -> Forall (fun b => 0 <= b < 256) (header14 sl cl ct).
Proof.
  intros Hct. unfold header14.
  repeat (constructor; [first [lia|apply land_255_range
                              |apply lor_nibble_range; auto]|]).
  constructor.
Qed.

Lemma section_bytes_range ct body descs :
  0 <= ct < 256 ->
  Forall (fun b => 0 <= b < 256) body ->
  Forall (fun b => 0 <= b < 256) descs ->
  Forall (fun b => 0 <= b < 256) (section_bytes ct body descs).
Proof.
  intros Hct Hb Hd. unfold section_bytes. cbv zeta.
  repeat (apply Forall_app; split); auto using header14_range, be32_range.
  repeat (constructor; [apply land_255_range|]). constructor.
Qed.

Lemma splice_time_bytes_range t :
  Forall (fun b => 0 <= b < 256) (splice_time_bytes t).
Proof.
  unfold splice_time_bytes.
  constructor; [destruct (bit_of_cases t 32) as [-> | ->]; simpl; lia|].
  repeat (constructor; [apply byte_of_range|]). constructor.
Qed.

Lemma break_duration_bytes_range (auto_return : bool) d :
  Forall (fun b => 0 <= b < 256) (break_duration_bytes auto_return d).
Proof.
  unfold break_duration_bytes.
  constructor;
    [destruct (bit_of_cases d 32) as [-> | ->], auto_return; simpl; lia|].
  repeat (constructor; [apply byte_of_range|]). constructor.
Qed.

Lemma insert_body_range event_id (cancel out_of_network auto_return : bool)
    program_id dur pts :
  Forall (fun b => 0 <= b < 256)
    (insert_body event_id cancel out_of_network auto_return program_id
       dur pts).
Proof.
  unfold insert_body. apply Forall_app. split; [apply be32_range|].
  destruct cancel; [repeat constructor; lia|].
  repeat (apply Forall_app; split).
  - constructor; [lia|]. constructor; [|constructor].
    unfold insert_flags.
    destruct out_of_network, (negb (dur =? UINT64_MAX)),
      (pts =? UINT64_MAX); simpl; lia.
  - destruct (pts =? UINT64_MAX);
      [constructor|apply splice_time_bytes_range].
  - destruct (dur =? UINT64_MAX);
      [constructor|apply break_duration_bytes_range].
  - repeat (constructor; [first [apply byte_of_range|lia]|]). constructor.
Qed.

Lemma time_signal_body_range pts_orig :
  Forall (fun b => 0 <= b < 256) (time_signal_body pts_orig).
Proof.
  unfold time_signal_body. destruct (pts_orig =? UINT64_MAX);
    [repeat constructor; lia|apply splice_time_bytes_range].
Qed.

Lemma exported_descs_range us :
  Forall (fun b => 0 <= b < 256) (exported_descs us).
Proof.
  unfold exported_descs. induction us as [|u us IH]; [constructor|].
  cbn [flat_map]. apply Forall_app. split; [|exact IH].
  unfold exported_desc, obind.
  destruct (udict_get scte35_desc u) as [d|]; [|constructor].
  destruct (length (desc_data d) <=? 255)%nat; [|constructor].
  apply Forall_forall. intros b Hb. apply in_map_iff in Hb.
  destruct Hb as (x & <- & _). unfold u8. apply Z.mod_pos_bound. lia.
Qed.

(** X12: whatever the attributes of the event are, every byte of a section
    the three synthesizers yield is a value from 0 to 255. *)
Theorem synthesized_bytes_in_range raw s :
  length raw = (PSI_MAX_SIZE + PSI_HEADER_SIZE)%nat ->
  build_null_section raw = Some s
  \/ (exists event_id cancel out_of_network auto_return program_id dur pts,
        insert_section raw event_id cancel out_of_network auto_return
          program_id dur pts = Some s)
  \/ (exists pts_orig us, time_signal_section raw pts_orig us = Some s) ->
  Forall (fun b => 0 <= b < 256) s.
Proof.
  intros Hraw [H|[H|H]].
  - rewrite build_null_section_layout in H by assumption.
    injection H as <-. apply section_bytes_range; [|constructor..].
    unfold SCTE35_NULL_COMMAND. lia.
  - destruct H as (e & c & o & a & pid & dur & pts & H).
    rewrite insert_section_layout in H by assumption.
    injection H as <-. apply section_bytes_range;
      [unfold SCTE35_INSERT_COMMAND; lia|apply insert_body_range
      |constructor].
  - destruct H as (pts_orig & us & H).
    rewrite time_signal_section_layout in H by assumption.
    destruct (_ <=? 1024)%nat; [|discriminate].
    injection H as <-. apply section_bytes_range;
      [unfold SCTE35_TIME_SIGNAL_COMMAND; lia|apply time_signal_body_range
      |apply exported_descs_range].
Qed.

Lemma synthesized_bytes_in_range_witness :
  length fresh_block = (PSI_MAX_SIZE + PSI_HEADER_SIZE)%nat
  /\ time_signal_section fresh_block 300000 [desc_uref]
     = Some [252; 48; 34; 0; 0; 0; 0; 0; 0; 0; 255; 240; 5; 6;
             254; 0; 4; 147; 224; 0; 12;
             2; 10; 67; 85; 69; 73; 0; 0; 0; 1; 127; 191;
             56; 221; 47; 16]
  /\ Forall (fun b => 0 <= b < 256)
       [252; 48; 34; 0; 0; 0; 0; 0; 0; 0; 255; 240; 5; 6;
        254; 0; 4; 147; 224; 0; 12;
        2; 10; 67; 85; 69; 73; 0; 0; 0; 1; 127; 191;
        56; 221; 47; 16].
Proof.
  assert (H : time_signal_section fresh_block 300000 [desc_uref]
              = Some [252; 48; 34; 0; 0; 0; 0; 0; 0; 0; 255; 240; 5; 6;
                      254; 0; 4; 147; 224; 0; 12;
                      2; 10; 67; 85; 69; 73; 0; 0; 0; 1; 127; 191;
                      56; 221; 47; 16])
    by (vm_compute; reflexivity).
  split; [reflexivity|]. split; [exact H|].
  exact (synthesized_bytes_in_range fresh_block _ eq_refl
           (or_intror (or_intror
              (ex_intro _ 300000 (ex_intro _ [desc_uref] H))))).
Defined.

End Bytes.

(** ** Events without a date, the list of input urefs, the interval *)

Section Misc.

(** X13: a splice_insert or time_signal event without pts_prog, no
    allocation failing and, for a time_signal, the exported descriptors
    of the urefs behind the first taking at most 999 bytes: the message
    the flush appends has no scheduled form, only an immediate form, of
    the event's command type and with the deadline pts_sys (0 when
    absent), and that form carries no pts_time. *)
Theorem event_without_pts_prog w u rest ct :
  urefs (pipe w) = u :: rest -> allocs_ok w ->
  uref_ts_scte35_get_command_type u = Some ct ->
  ct = SCTE35_INSERT_COMMAND \/ ct = SCTE35_TIME_SIGNAL_COMMAND ->
  (ct = SCTE35_TIME_SIGNAL_COMMAND ->
   (length (exported_descs rest) <= 999)%nat) ->
  pts_prog u = None ->
  exists s,
    scte35_sections (pipe (upipe_ts_scte35g_flush w))
    = scte35_sections (pipe w) ++ [mk_msg None (Some s) (get_or 0 (pts_sys u))]
    /\ scte35_get_command_type s = ct
    /\ (ct = SCTE35_INSERT_COMMAND -> insert_pts_time s = None)
    /\ (ct = SCTE35_TIME_SIGNAL_COMMAND -> time_signal_pts_time s = None).
Proof.
  intros Hu Hok Hct Hsup Hfit Hpts.
  destruct (flush_ok w u rest ct Hu Hct Hsup Hfit Hok) as (P & _).
  rewrite P. cbn [scte35_sections set_urefs set_scte35_cr_sys
                  set_scte35_sections].
  unfold flushed_messages. rewrite Hct.
  destruct Hsup as [->| ->]; cbn [Z.eqb SCTE35_INSERT_COMMAND
    SCTE35_TIME_SIGNAL_COMMAND Pos.eqb].
  - pose proof (insert_immediate_without_pts u) as Him.
    unfold insert_message in *. rewrite Hpts in *.
    cbn [get_or Z.eqb UINT64_MAX Pos.eqb immediate] in *.
    eexists. split; [reflexivity|].
    split; [|split; [intros _; apply Him; reflexivity|discriminate]].
    unfold insert_body.
    destruct (udict_flag scte35_cancel u); reflexivity.
  - unfold time_signal_message. rewrite Hpts.
    cbn [get_or Z.eqb UINT64_MAX Pos.eqb time_signal_pts_orig
         time_signal_body].
    eexists. split; [reflexivity|].
    split; [reflexivity|]. split; [discriminate|]. reflexivity.
Qed.

Lemma event_without_pts_prog_witness :
  let u := event_uref SCTE35_TIME_SIGNAL_COMMAND 1 None None in
  let w := with_pipe (set_urefs [u; desc_uref]) w_ready in
  urefs (pipe w) = [u; desc_uref]
  /\ allocs_ok w
  /\ uref_ts_scte35_get_command_type u = Some SCTE35_TIME_SIGNAL_COMMAND
  /\ (length (exported_descs [desc_uref]) <= 999)%nat
  /\ pts_prog u = None
  /\ exists s,
       scte35_sections (pipe (upipe_ts_scte35g_flush w))
       = scte35_sections (pipe w)
         ++ [mk_msg None (Some s) (get_or 0 (pts_sys u))]
       /\ scte35_get_command_type s = SCTE35_TIME_SIGNAL_COMMAND
       /\ (SCTE35_TIME_SIGNAL_COMMAND = SCTE35_INSERT_COMMAND ->
           insert_pts_time s = None)
       /\ (SCTE35_TIME_SIGNAL_COMMAND = SCTE35_TIME_SIGNAL_COMMAND ->
           time_signal_pts_time s = None).
Proof.
  intros u w.
  assert (H1 : urefs (pipe w) = [u; desc_uref]) by reflexivity.
  assert (H2 : allocs_ok w) by constructor.
  assert (H3 : uref_ts_scte35_get_command_type u
               = Some SCTE35_TIME_SIGNAL_COMMAND) by reflexivity.
  assert (H4 : (length (exported_descs [desc_uref]) <= 999)%nat)
    by (vm_compute; lia).
  assert (H5 : pts_prog u = None) by reflexivity.
  repeat (split; [assumption|]).
  exact (event_without_pts_prog w u [desc_uref] SCTE35_TIME_SIGNAL_COMMAND
           H1 H2 H3 (or_intror eq_refl) (fun _ => H4) H5).
Defined.

Lemma input_keeps_typed msg_view w u :
  urefs_typed w -> uref_udict u <> None ->
  urefs_typed (upipe_ts_scte35g_input msg_view w (Some u)).
Proof.
  intros Hw Hd.
  assert (F : forall w0, urefs_typed w0 ->
                         urefs_typed (upipe_ts_scte35g_flush w0)).
  { intros w0 H0. unfold urefs_typed.
    destruct (flush_urefs w0) as [-> | ->]; [constructor|exact H0]. }
  destruct (uref_ts_scte35_get_command_type u) as [ct|] eqn:Hct.
  - rewrite (input_typed _ _ _ _ Hct). cbv zeta.
    set (forced := block_start u
                   && negb match urefs (pipe w) with
                           | [] => true | _ => false end).
    set (w1 := if forced
               then upipe_ts_scte35g_flush
                      (upipe_log WARN "force last event flush" w)
               else w).
    assert (H1 : urefs_typed w1)
      by (unfold w1; destruct forced; [apply F|]; exact Hw).
    set (w2 := with_pipe (fun s => set_urefs (urefs s ++ [u]) s) w1).
    assert (H2 : urefs_typed w2).
    { unfold urefs_typed, w2. cbn [with_pipe pipe urefs set_urefs].
      apply Forall_app. split; [exact H1|].
      constructor; [congruence|constructor]. }
    destruct ((negb (if forced then true else _) || block_start u)
              && negb (block_end u)); [exact H2|apply F, H2].
  - destruct u as [[d|] st en pp du ps]; [|contradiction].
    unfold uref_ts_scte35_get_command_type, udict_get in Hct.
    simpl in Hct. cbn [upipe_ts_scte35g_input]. rewrite Hct. exact Hw.
Qed.

(** X14: every uref the list of input urefs holds carries a command type,
    whatever urefs with a dictionary are pushed and whatever the
    allocations do: a uref without one is dropped on arrival, so a flush
    never finds its first uref without a command type. *)
Theorem urefs_always_typed msg_view w us :
  urefs_typed w ->
  Forall (fun u => uref_udict u <> None) us ->
  let w' := push_all msg_view w us in
  urefs_typed w'
  /\ forall u rest, urefs (pipe w') = u :: rest ->
       exists ct, uref_ts_scte35_get_command_type u = Some ct.
Proof.
  intros Hw Hus w'.
  assert (H : urefs_typed w').
  { subst w'. revert w Hw. induction Hus as [|u us Hu _ IH]; intros w Hw;
      [exact Hw|].
    cbn [push_all fold_left]. apply IH, input_keeps_typed; assumption. }
  split; [exact H|]. intros u rest E. unfold urefs_typed in H.
  rewrite E in H. inversion H as [|? ? Hu _]; subst.
  destruct (uref_ts_scte35_get_command_type u) as [ct|];
    [exists ct; reflexivity|contradiction].
Qed.

Lemma urefs_always_typed_witness :
  let untyped :=
    mk_uref (Some (mk_udict None None false false false None None))
      true false None None None in
  let us := [untyped; start_uref SCTE35_TIME_SIGNAL_COMMAND None; mid_uref] in
  let w' := push_all same_uref w_start us in
  urefs_typed w_start
  /\ Forall (fun u => uref_udict u <> None) us
  /\ urefs_typed w'
  /\ forall u rest, urefs (pipe w') = u :: rest ->
       exists ct, uref_ts_scte35_get_command_type u = Some ct.
Proof.
  intros untyped us w'.
  assert (H1 : urefs_typed w_start) by constructor.
  assert (H2 : Forall (fun u => uref_udict u <> None) us)
    by (repeat constructor; discriminate).
  split; [exact H1|]. split; [exact H2|].
  exact (urefs_always_typed same_uref w_start us H1 H2).
Defined.

(** X15: setting the interval, no allocation failing: the interval reads back;
    a zero interval publishes nothing and keeps the output flow
    definition; any other publishes one whose octet rate is the whole
    number of times the interval fits in 183 x 27000000, with the PSI
    transport buffer rate. *)
Theorem set_interval_publishes w interval :
  allocs_ok w ->
  let r := upipe_ts_scte35g_set_scte35_interval w interval in
  fst r = UBASE_ERR_NONE
  /\ upipe_ts_scte35g_get_scte35_interval (snd r) = interval
  /\ outputs (trace (snd r)) = outputs (trace w)
  /\ (interval = 0 ->
      published (trace (snd r)) = published (trace w)
      /\ output_flow_def (pipe (snd r)) = output_flow_def (pipe w))
  /\ (0 < interval ->
      exists f,
        published (trace (snd r)) = published (trace w) ++ [f]
        /\ output_flow_def (pipe (snd r)) = Some f
        /\ psi_section_interval f = interval
        /\ tb_rate f = TB_RATE_PSI
        /\ octetrate f * interval <= 183 * UCLOCK_FREQ
           < (octetrate f + 1) * interval).
Proof.
  intros Hok r. subst r. unfold upipe_ts_scte35g_set_scte35_interval.
  cbn [fst snd]. unfold upipe_ts_scte35g_get_scte35_interval.
  set (w0 := with_pipe (set_scte35_interval interval) w).
  assert (Hok0 : allocs_ok w0) by exact Hok.
  destruct (build_flow_def_ok w0 Hok0) as (al & E & _). rewrite E.
  change (scte35_interval (pipe w0)) with interval.
  split; [reflexivity|].
  destruct (Z.eqb_spec interval 0) as [->|Hne].
  - split; [reflexivity|]. split; [reflexivity|].
    split; [intros _; split; reflexivity|]. intros Hpos. lia.
  - cbn [pipe trace]. rewrite outputs_app, published_app. simpl.
    rewrite app_nil_r.
    split; [reflexivity|]. split; [reflexivity|].
    split; [intros H0; contradiction|].
    intros Hpos. eexists.
    split; [reflexivity|]. split; [reflexivity|]. split; [reflexivity|].
    split; [reflexivity|]. cbn [octetrate]. unfold UCLOCK_FREQ.
    pose proof (Z.mul_div_le 4941000000 interval Hpos).
    pose proof (Z.mul_succ_div_gt 4941000000 interval Hpos).
    change (183 * 27000000) with 4941000000. lia.
Qed.

Lemma set_interval_publishes_witness :
  allocs_ok w_ready
  /\ upipe_ts_scte35g_get_scte35_interval
       (snd (upipe_ts_scte35g_set_scte35_interval w_ready 2700000))
     = 2700000
  /\ (0 < 2700000 ->
      exists f,
        published
          (trace (snd (upipe_ts_scte35g_set_scte35_interval w_ready 2700000)))
        = published (trace w_ready) ++ [f]
        /\ output_flow_def
             (pipe (snd (upipe_ts_scte35g_set_scte35_interval w_ready
                           2700000)))
           = Some f
        /\ psi_section_interval f = 2700000
        /\ tb_rate f = TB_RATE_PSI
        /\ octetrate f * 2700000 <= 183 * UCLOCK_FREQ
           < (octetrate f + 1) * 2700000).
Proof.
  assert (H : allocs_ok w_ready) by constructor.
  split; [exact H|].
  pose proof (set_interval_publishes w_ready 2700000 H) as (_ & G & _ & _ & P).
  split; [exact G|exact P].
Defined.

End Misc.

(** ** The system clock (uclock_std.c) *)

Section Uclock.

Lemma uclock_std_now_exact ts :
  0 <= tv_sec ts < 683212743470 -> 0 <= tv_nsec ts < 1000000000 ->
  uclock_std_now (Some ts)
  = (tv_sec ts * 1000000000 + tv_nsec ts) * 27 / 1000.
Proof.
  intros Hs Hn. unfold uclock_std_now, UCLOCK_FREQ, UINT64_MOD.
  rewrite (Z.mod_small (tv_sec ts * 27000000)) by lia.
  rewrite (Z.mod_small (tv_nsec ts * 27000000)) by lia.
  assert (E : tv_nsec ts * 27000000 / 1000000000 = tv_nsec ts * 27 / 1000).
  { replace (tv_nsec ts * 27000000) with (tv_nsec ts * 27 * 1000000) by lia.
    change 1000000000 with (1000 * 1000000).
    apply Z.div_mul_cancel_r; lia. }
  rewrite E.
  assert (B : 0 <= tv_nsec ts * 27 / 1000 < 27000000).
  { split; [apply Z.div_pos; lia|].
    apply Z.div_lt_upper_bound; lia. }
  rewrite Z.mod_small by lia.
  replace ((tv_sec ts * 1000000000 + tv_nsec ts) * 27)
    with (tv_sec ts * 27000000 * 1000 + tv_nsec ts * 27) by lia.
  rewrite Z.div_add_l by lia. reflexivity.
Qed.

(** X16: for a time of day with a nanosecond part below one second, and up to
    683212743469 seconds (where the 64 bits wrap), the clock returns the
    time in whole 27 MHz ticks, rounded down: its quotient by UCLOCK_FREQ
    is tv_sec, and the rest is the number of whole ticks in tv_nsec; when
    clock_gettime fails it returns 0. *)
Theorem uclock_std_now_ticks ts :
  0 <= tv_sec ts < 683212743470 -> 0 <= tv_nsec ts < 1000000000 ->
  uclock_std_now (Some ts) * 1000
  <= (tv_sec ts * 1000000000 + tv_nsec ts) * 27
  < (uclock_std_now (Some ts) + 1) * 1000
  /\ uclock_std_now (Some ts) / UCLOCK_FREQ = tv_sec ts
  /\ uclock_std_now (Some ts) mod UCLOCK_FREQ = tv_nsec ts * 27 / 1000
  /\ uclock_std_now None = 0.
Proof.
  intros Hs Hn. rewrite uclock_std_now_exact by assumption.
  set (t := (tv_sec ts * 1000000000 + tv_nsec ts) * 27).
  pose proof (Z.mul_div_le t 1000 eq_refl).
  pose proof (Z.mul_succ_div_gt t 1000 eq_refl).
  split; [lia|].
  assert (B : 0 <= tv_nsec ts * 27 / 1000 < 27000000).
  { split; [apply Z.div_pos; lia|].
    apply Z.div_lt_upper_bound; lia. }
  assert (E : t / 1000 = tv_sec ts * UCLOCK_FREQ + tv_nsec ts * 27 / 1000).
  { unfold t, UCLOCK_FREQ.
    replace ((tv_sec ts * 1000000000 + tv_nsec ts) * 27)
      with (tv_sec ts * 27000000 * 1000 + tv_nsec ts * 27) by lia.
    rewrite Z.div_add_l by lia. reflexivity. }
  rewrite E. unfold UCLOCK_FREQ in *.
  split; [|split; [|reflexivity]].
  - rewrite Z.div_add_l by lia. rewrite (Z.div_small _ _ B). lia.
  - rewrite Z.add_comm, Z.mod_add by lia. apply Z.mod_small, B.
Qed.

Lemma uclock_std_now_ticks_witness :
  let ts := mk_timespec 1700000000 999999999 in
  0 <= tv_sec ts < 683212743470
  /\ 0 <= tv_nsec ts < 1000000000
  /\ uclock_std_now (Some ts) / UCLOCK_FREQ = tv_sec ts
  /\ uclock_std_now (Some ts) mod UCLOCK_FREQ = tv_nsec ts * 27 / 1000.
Proof.
  intros ts.
  assert (H1 : 0 <= tv_sec ts < 683212743470) by (simpl; lia).
  assert (H2 : 0 <= tv_nsec ts < 1000000000) by (simpl; lia).
  split; [exact H1|]. split; [exact H2|].
  pose proof (uclock_std_now_ticks ts H1 H2) as (_ & A & B & _).
  split; [exact A|exact B].
Defined.

(** X17: in the range where the 64 bits do not wrap, the clock never
    goes back when the time of day goes
    on, and two times of day at least 38 ns apart give different
    dates. *)
Theorem uclock_std_now_monotone ts ts' :
  0 <= tv_sec ts < 683212743470 -> 0 <= tv_nsec ts < 1000000000 ->
  0 <= tv_sec ts' < 683212743470 -> 0 <= tv_nsec ts' < 1000000000 ->
  let ns := tv_sec ts * 1000000000 + tv_nsec ts in
  let ns' := tv_sec ts' * 1000000000 + tv_nsec ts' in
  (ns <= ns' -> uclock_std_now (Some ts) <= uclock_std_now (Some ts'))
  /\ (ns + 38 <= ns' -> uclock_std_now (Some ts) < uclock_std_now (Some ts')).
Proof.
  intros Hs Hn Hs' Hn' ns ns'.
  rewrite !uclock_std_now_exact by assumption. fold ns ns'.
  split; intros H.
  - apply Z.div_le_mono; lia.
  - pose proof (Z.mul_div_le (ns * 27) 1000 eq_refl).
    pose proof (Z.mul_succ_div_gt (ns' * 27) 1000 eq_refl).
    lia.
Qed.

Lemma uclock_std_now_monotone_witness :
  let ts := mk_timespec 1700000000 999999999 in
  let ts' := mk_timespec 1700000001 37 in
  0 <= tv_sec ts < 683212743470 /\ 0 <= tv_nsec ts < 1000000000
  /\ 0 <= tv_sec ts' < 683212743470 /\ 0 <= tv_nsec ts' < 1000000000
  /\ tv_sec ts * 1000000000 + tv_nsec ts + 38
     <= tv_sec ts' * 1000000000 + tv_nsec ts'
  /\ uclock_std_now (Some ts) < uclock_std_now (Some ts').
Proof.
  intros ts ts'.
  assert (H1 : 0 <= tv_sec ts < 683212743470) by (simpl; lia).
  assert (H2 : 0 <= tv_nsec ts < 1000000000) by (simpl; lia).
  assert (H3 : 0 <= tv_sec ts' < 683212743470) by (simpl; lia).
  assert (H4 : 0 <= tv_nsec ts' < 1000000000) by (simpl; lia).
  assert (H5 : tv_sec ts * 1000000000 + tv_nsec ts + 38
               <= tv_sec ts' * 1000000000 + tv_nsec ts') by (simpl; lia).
  repeat (split; [assumption|]).
  exact (proj2 (uclock_std_now_monotone ts ts' H1 H2 H3 H4) H5).
Defined.

End Uclock.

(** ** Synthesis when allocations fail *)

Section Atomic.

Lemma extends_refl w : extends w w.
Proof. exists []. symmetry. apply app_nil_r. Qed.

Lemma extends_trans w1 w2 w3 : extends w1 w2 -> extends w2 w3 -> extends w1 w3.
Proof.
  intros [t E] [t' E']. exists (t ++ t'). rewrite E', E, app_assoc.
  reflexivity.
Qed.

Lemma extends_thrown w1 w2 w3 : extends w1 w2 -> thrown w2 w3 -> thrown w1 w3.
Proof.
  intros [t E] [t' E']. exists (t ++ t'). rewrite E', E, <- !app_assoc.
  reflexivity.
Qed.

Lemma extends_draw w : extends w (snd (draw w)).
Proof.
  unfold draw. destruct (allocs w); exists []; symmetry; apply app_nil_r.
Qed.

Lemma thrown_fatal w : thrown w (upipe_throw_fatal w).
Proof. exists []. reflexivity. Qed.

Lemma extends_export_warnings us : forall w,
  extends w (export_warnings us w).
Proof.
  unfold export_warnings. induction us as [|u us IH]; intros w;
    [apply extends_refl|].
  cbn [fold_left]. destruct (exported_desc u); [apply IH|].
  eapply extends_trans; [|apply IH].
  exists [Log WARN "fail to export descriptor"]. reflexivity.
Qed.

(** A pass whose section fits the block: the section, or a fatal error
    thrown. *)
Lemma alloc_section_cases build s w :
  build fresh_block = Some s ->
  let r := alloc_section build w in
  silent w (snd r)
  /\ ((fst r = Some s /\ extends w (snd r))
      \/ (fst r = None /\ thrown w (snd r))).
Proof.
  intros Hb r. split; [apply silent_alloc_section|]. subst r.
  unfold alloc_section.
  pose proof (extends_draw w) as X1. destruct (draw w) as [ok1 w1].
  cbn [snd] in X1. destruct ok1; cbn [negb].
  - pose proof (extends_draw w1) as X2. destruct (draw w1) as [ok2 w2].
    cbn [snd] in X2. destruct ok2; cbn [negb].
    + rewrite Hb. left. split; [reflexivity|].
      exact (extends_trans _ _ _ X1 X2).
    + right. split; [reflexivity|].
      exact (extends_thrown _ _ _ (extends_trans _ _ _ X1 X2)
               (thrown_fatal w2)).
  - right. split; [reflexivity|].
    exact (extends_thrown _ _ _ X1 (thrown_fatal w1)).
Qed.

(** The loop over the two forms: the whole message, or a fatal error
    thrown and no message. *)
Lemma synth_loop_cases pass sec msg pts w :
  (forall p w0,
     silent w0 (snd (pass p w0))
     /\ ((fst (pass p w0) = Some (sec p) /\ extends w0 (snd (pass p w0)))
         \/ (fst (pass p w0) = None /\ thrown w0 (snd (pass p w0))))) ->
  let r := synth_loop pass msg pts w in
  silent w (snd r)
  /\ ((fst r
       = Some (if pts =? UINT64_MAX
               then scte35_message_set_immediate msg (Some (sec pts))
               else scte35_message_set_immediate
                      (scte35_message_set_ubuf msg (Some (sec pts)))
                      (Some (sec UINT64_MAX)))
       /\ extends w (snd r))
      \/ (fst r = None /\ thrown w (snd r))).
Proof.
  intros Hpass r. subst r. unfold synth_loop.
  destruct (Hpass pts w) as (S1 & C1).
  destruct (pass pts w) as [[s|] w1]; cbn [fst snd] in *.
  - destruct C1 as [[[= ->] X1]|[[=] _]].
    destruct (pts =? UINT64_MAX); cbn [fst snd]; [auto|].
    destruct (Hpass UINT64_MAX w1) as (S2 & C2).
    destruct (pass UINT64_MAX w1) as [[s'|] w2]; cbn [fst snd] in *.
    + destruct C2 as [[[= ->] X2]|[[=] _]].
      split; [exact (silent_trans _ _ _ S1 S2)|]. left.
      split; [reflexivity|exact (extends_trans _ _ _ X1 X2)].
    + destruct C2 as [[[=] _]|[_ T2]].
      split; [exact (silent_trans _ _ _ S1 S2)|]. right.
      split; [reflexivity|exact (extends_thrown _ _ _ X1 T2)].
  - destruct C1 as [[[=] _]|[_ T1]]. auto.
Qed.

Lemma add_message_cases notice r w msg :
  silent w (snd r) ->
  (fst r = Some msg /\ extends w (snd r))
  \/ (fst r = None /\ thrown w (snd r)) ->
  let w' := add_message notice r in
  (scte35_sections (pipe w') = scte35_sections (pipe w) ++ [msg]
   /\ scte35_cr_sys (pipe w') = 0)
  \/ (pipe w' = pipe w /\ thrown w w').
Proof.
  intros (P & _) C w'. subst w'. destruct r as [[m|] w1];
    cbn [fst snd add_message] in *.
  - destruct C as [[[= ->] _]|[[=] _]]. left.
    cbn [upipe_log emit with_pipe pipe scte35_sections scte35_cr_sys
         set_scte35_cr_sys set_scte35_sections]. rewrite P. auto.
  - destruct C as [[[=] _]|[_ T]]. right. auto.
Qed.

(** X18: a flush of a splice_insert event, or of a time_signal event
    whose exported descriptors take at most 999 bytes (so that the
    section stays within its block of 1024 bytes), whatever the
    allocations do: the list of input urefs is emptied, and either the
    whole message is appended and scte35_cr_sys reset to 0, or a fatal
    error is thrown, the pending sections and scte35_cr_sys are left as
    they were, and the event is lost; no message with only part of its
    forms is ever appended. *)
Theorem synthesis_all_or_nothing w u rest ct :
  urefs (pipe w) = u :: rest ->
  uref_ts_scte35_get_command_type u = Some ct ->
  ct = SCTE35_INSERT_COMMAND \/ ct = SCTE35_TIME_SIGNAL_COMMAND ->
  (ct = SCTE35_TIME_SIGNAL_COMMAND ->
   (length (exported_descs rest) <= 999)%nat) ->
  let w' := upipe_ts_scte35g_flush w in
  urefs (pipe w') = []
  /\ ((scte35_sections (pipe w')
       = scte35_sections (pipe w) ++ flushed_messages u rest
       /\ scte35_cr_sys (pipe w') = 0)
      \/ (scte35_sections (pipe w') = scte35_sections (pipe w)
          /\ scte35_cr_sys (pipe w') = scte35_cr_sys (pipe w)
          /\ thrown w w')).
Proof.
  intros Hu Hct Hsup Hfit w'. subst w'.
  unfold upipe_ts_scte35g_flush, flushed_messages. rewrite Hu, Hct.
  set (w0 := with_pipe (set_urefs rest) w).
  assert (D : forall w1 msg,
            (scte35_sections (pipe w1) = scte35_sections (pipe w0) ++ [msg]
             /\ scte35_cr_sys (pipe w1) = 0)
            \/ (pipe w1 = pipe w0 /\ thrown w0 w1) ->
            urefs (pipe (with_pipe (set_urefs []) w1)) = []
            /\ ((scte35_sections (pipe (with_pipe (set_urefs []) w1))
                 = scte35_sections (pipe w) ++ [msg]
                 /\ scte35_cr_sys (pipe (with_pipe (set_urefs []) w1)) = 0)
                \/ (scte35_sections (pipe (with_pipe (set_urefs []) w1))
                    = scte35_sections (pipe w)
                    /\ scte35_cr_sys (pipe (with_pipe (set_urefs []) w1))
                       = scte35_cr_sys (pipe w)
                    /\ thrown w (with_pipe (set_urefs []) w1)))).
  { intros w1 msg C. split; [reflexivity|].
    cbn [with_pipe pipe scte35_sections scte35_cr_sys set_urefs].
    destruct C as [[S C]|[P T]]; [left; auto|right].
    rewrite P. split; [reflexivity|]. split; [reflexivity|exact T]. }
  assert (G : forall notice pass sec,
            (forall p w1,
               silent w1 (snd (pass p w1))
               /\ ((fst (pass p w1) = Some (sec p)
                    /\ extends w1 (snd (pass p w1)))
                   \/ (fst (pass p w1) = None
                       /\ thrown w1 (snd (pass p w1))))) ->
            let msg := scte35_message_new (get_or 0 (pts_sys u)) in
            let pts := get_or UINT64_MAX (pts_prog u) in
            let w1 := (let (ok, w1) := draw w0 in
                       if negb ok then upipe_throw_fatal w1
                       else add_message notice (synth_loop pass msg pts w1)) in
            (scte35_sections (pipe w1)
             = scte35_sections (pipe w0)
               ++ [if pts =? UINT64_MAX
                   then scte35_message_set_immediate msg (Some (sec pts))
                   else scte35_message_set_immediate
                          (scte35_message_set_ubuf msg (Some (sec pts)))
                          (Some (sec UINT64_MAX))]
             /\ scte35_cr_sys (pipe w1) = 0)
            \/ (pipe w1 = pipe w0 /\ thrown w0 w1)).
  { intros notice pass sec Hpass msg pts w1. subst w1.
    pose proof (silent_draw w0) as (P0 & _).
    pose proof (extends_draw w0) as X0.
    destruct (draw w0) as [ok wd]. cbn [snd] in P0, X0.
    destruct ok; cbn [negb].
    - destruct (synth_loop_cases pass sec msg pts wd Hpass) as (S & C).
      destruct (add_message_cases notice (synth_loop pass msg pts wd) wd _
                  S C) as [[A B]|[A B]].
      + left. rewrite A, B, P0. auto.
      + right. split; [congruence|exact (extends_thrown _ _ _ X0 B)].
    - right. split; [exact P0|].
      exact (extends_thrown _ _ _ X0 (thrown_fatal wd)). }
  destruct Hsup as [->| ->]; cbn [Z.eqb SCTE35_INSERT_COMMAND
    SCTE35_NULL_COMMAND SCTE35_TIME_SIGNAL_COMMAND Pos.eqb].
  - unfold upipe_ts_scte35g_input_insert. rewrite Hu. cbv zeta. fold w0.
    set (pts := get_or UINT64_MAX (pts_prog u)).
    set (sec := fun p : Z =>
                  section_bytes SCTE35_INSERT_COMMAND
                    (insert_body (get_or 0 (udict_get scte35_event_id u))
                       (udict_flag scte35_cancel u)
                       (udict_flag scte35_out_of_network u)
                       (udict_flag scte35_auto_return u)
                       (get_or 0 (udict_get scte35_unique_program_id u))
                       (get_or UINT64_MAX (duration u)) p) []).
    assert (M : (if pts =? UINT64_MAX
                 then scte35_message_set_immediate
                        (scte35_message_new (get_or 0 (pts_sys u)))
                        (Some (sec pts))
                 else scte35_message_set_immediate
                        (scte35_message_set_ubuf
                           (scte35_message_new (get_or 0 (pts_sys u)))
                           (Some (sec pts))) (Some (sec UINT64_MAX)))
                = insert_message u).
    { unfold insert_message. fold pts. fold sec.
      destruct (Z.eqb_spec pts UINT64_MAX) as [->|]; reflexivity. }
    rewrite <- M. apply D.
    apply (G "now using splice_insert command for event"%string
             (fun pts_prog =>
                alloc_section (fun raw =>
                  insert_section raw (get_or 0 (udict_get scte35_event_id u))
                    (udict_flag scte35_cancel u)
                    (udict_flag scte35_out_of_network u)
                    (udict_flag scte35_auto_return u)
                    (get_or 0 (udict_get scte35_unique_program_id u))
                    (get_or UINT64_MAX (duration u)) pts_prog))
             (fun p =>
                section_bytes SCTE35_INSERT_COMMAND
                  (insert_body (get_or 0 (udict_get scte35_event_id u))
                     (udict_flag scte35_cancel u)
                     (udict_flag scte35_out_of_network u)
                     (udict_flag scte35_auto_return u)
                     (get_or 0 (udict_get scte35_unique_program_id u))
                     (get_or UINT64_MAX (duration u)) p) [])).
    intros p w1. apply alloc_section_cases.
    apply insert_section_layout, fresh_block_length.
  - unfold upipe_ts_scte35g_time_signal. rewrite Hu. cbv zeta. fold w0.
    set (pts := get_or UINT64_MAX (pts_prog u)).
    set (sec := section_bytes SCTE35_TIME_SIGNAL_COMMAND
                  (time_signal_body (time_signal_pts_orig pts))
                  (exported_descs rest)).
    set (build := fun raw : block =>
                    time_signal_section raw (time_signal_pts_orig pts) rest).
    assert (Hb : build fresh_block = Some sec).
    { unfold build.
      rewrite time_signal_section_layout by apply fresh_block_length.
      cbv zeta.
      pose proof (time_signal_body_length (time_signal_pts_orig pts)).
      specialize (Hfit eq_refl).
      destruct (Nat.leb_spec
                  (14 + length (time_signal_body (time_signal_pts_orig pts))
                   + 2 + length (exported_descs rest) + 4) 1024);
        [reflexivity|lia]. }
    pose proof (G "now using time signal command"%string
                  (fun (_ : Z) w1 =>
                     let (r, w2) := alloc_section build w1 in
                     (r, match r with
                         | Some _ => export_warnings rest w2
                         | None => w2
                         end))
                  (fun _ => sec)) as G'.
    cbv zeta in G'. fold pts in G'.
    unfold time_signal_message. fold pts. fold sec.
    assert (M : (if pts =? UINT64_MAX
                 then scte35_message_set_immediate
                        (scte35_message_new (get_or 0 (pts_sys u))) (Some sec)
                 else scte35_message_set_immediate
                        (scte35_message_set_ubuf
                           (scte35_message_new (get_or 0 (pts_sys u)))
                           (Some sec)) (Some sec))
                = mk_msg (if pts =? UINT64_MAX then None else Some sec)
                    (Some sec) (get_or 0 (pts_sys u)))
      by (destruct (pts =? UINT64_MAX); reflexivity).
    rewrite <- M. apply D, G'. clear G' M.
    intros _ w1.
    destruct (alloc_section_cases build sec w1 Hb) as (S & C).
    destruct (alloc_section build w1) as [[s|] w2]; cbn [fst snd] in *.
    + destruct C as [[[= ->] X]|[[=] _]].
      split; [exact (silent_trans _ _ _ S (silent_export_warnings rest w2))|].
      left. split; [reflexivity|].
      exact (extends_trans _ _ _ X (extends_export_warnings rest w2)).
    + destruct C as [[[=] _]|[_ T]]. auto.
Qed.

Lemma synthesis_all_or_nothing_witness :
  let u := event_uref SCTE35_INSERT_COMMAND 1 (Some 9000000) None in
  let w := mk_world (set_urefs [u] (pipe w_ready))
             [true; true; true; false] [] in
  let w' := upipe_ts_scte35g_flush w in
  urefs (pipe w) = [u]
  /\ uref_ts_scte35_get_command_type u = Some SCTE35_INSERT_COMMAND
  /\ urefs (pipe w') = []
  /\ ((scte35_sections (pipe w')
       = scte35_sections (pipe w) ++ flushed_messages u []
       /\ scte35_cr_sys (pipe w') = 0)
      \/ (scte35_sections (pipe w') = scte35_sections (pipe w)
          /\ scte35_cr_sys (pipe w') = scte35_cr_sys (pipe w)
          /\ thrown w w')).
Proof.
  intros u w w'.
  assert (H1 : urefs (pipe w) = [u]) by reflexivity.
  assert (H2 : uref_ts_scte35_get_command_type u
               = Some SCTE35_INSERT_COMMAND) by reflexivity.
  split; [exact H1|]. split; [exact H2|].
  exact (synthesis_all_or_nothing w u [] SCTE35_INSERT_COMMAND H1 H2
           (or_introl eq_refl) ltac:(discriminate)).
Defined.

End Atomic.

(** ** Configuring the pipe *)

Section Configuration.

(** X19: on a pipe without an input flow definition, no allocation
    failing, a matching flow definition and a non-zero interval may be
    set in either order: the pipe ends up the same, with the flow
    definition, the interval, the splice_null section and the output flow
    definition; set after the flow definition the interval publishes the
    output flow definition once, set before it the output flow definition
    is published twice. *)
Theorem configuration_order w fd interval :
  flow_def (pipe w) = None -> allocs_ok w ->
  uref_flow_match_def fd "void.scte35." = true -> interval <> 0 ->
  let wa := snd (upipe_ts_scte35g_set_scte35_interval
                   (snd (upipe_ts_scte35g_set_flow_def w (Some fd)))
                   interval) in
  let wb := snd (upipe_ts_scte35g_set_flow_def
                   (snd (upipe_ts_scte35g_set_scte35_interval w interval))
                   (Some fd)) in
  let f := mk_out_flow interval (183 * 27000000 / interval) 125000 in
  pipe wa
  = set_output_flow_def (Some f)
      (set_scte35_interval interval
         (set_scte35_null_section
            (Some (section_bytes SCTE35_NULL_COMMAND [] []))
            (set_flow_def (Some fd) (pipe w))))
  /\ pipe wb = pipe wa
  /\ published (trace wa)
     = published (trace w)
       ++ (if scte35_interval (pipe w) =? 0 then [] else
           [mk_out_flow (scte35_interval (pipe w))
              (183 * 27000000 / scte35_interval (pipe w)) 125000])
       ++ [f]
  /\ published (trace wb) = published (trace w) ++ [f; f].
Proof.
  intros Hfd Hok Hmatch Hint wa wb f.
  assert (Hiv : (interval =? 0) = false) by (apply Z.eqb_neq; exact Hint).
  (* flow definition first *)
  assert (A : exists al tr,
            wa = mk_world
                   (set_output_flow_def (Some f)
                      (set_scte35_interval interval
                         (set_scte35_null_section
                            (Some (section_bytes SCTE35_NULL_COMMAND [] []))
                            (set_flow_def (Some fd) (pipe w))))) al tr
            /\ published tr
               = published (trace w)
                 ++ (if scte35_interval (pipe w) =? 0 then [] else
                     [mk_out_flow (scte35_interval (pipe w))
                        (183 * 27000000 / scte35_interval (pipe w)) 125000])
                 ++ [f]).
  { subst wa. unfold upipe_ts_scte35g_set_flow_def,
      upipe_ts_scte35g_set_scte35_interval. rewrite Hmatch. cbn [negb].
    destruct (draw_ok w Hok) as (al0 & -> & H0). cbn [negb pipe snd].
    rewrite Hfd.
    set (w1 := with_pipe (set_flow_def (Some fd))
                 (mk_world (pipe w) al0 (trace w))).
    assert (Hok1 : allocs_ok w1) by exact H0.
    destruct (build_null_ok w1 ltac:(discriminate) Hok1) as (al1 & -> & H1).
    set (w2 := mk_world _ al1 (trace w1)).
    destruct (build_flow_def_ok w2 H1) as (al2 & -> & H2).
    change (scte35_interval (pipe w2)) with (scte35_interval (pipe w)).
    destruct (scte35_interval (pipe w) =? 0) eqn:E0.
    - set (w3 := with_pipe (set_scte35_interval interval) w2).
      assert (Hok3 : allocs_ok w3) by exact H1.
      destruct (build_flow_def_ok w3 Hok3) as (al3 & -> & _).
      change (scte35_interval (pipe w3)) with interval. rewrite Hiv.
      eexists. eexists. split; [reflexivity|].
      rewrite published_app. reflexivity.
    - cbv zeta.
      set (w2' := mk_world _ al2 (trace w2 ++ _)).
      set (w3 := with_pipe (set_scte35_interval interval) w2').
      assert (Hok3 : allocs_ok w3) by exact H2.
      destruct (build_flow_def_ok w3 Hok3) as (al3 & -> & _).
      change (scte35_interval (pipe w3)) with interval. rewrite Hiv.
      eexists. eexists. split; [reflexivity|].
      unfold w3, w2', w2, w1. cbn [trace with_pipe].
      rewrite !published_app. cbn [published app].
      rewrite <- app_assoc. reflexivity. }
  (* interval first *)
  assert (B : exists al tr,
            wb = mk_world
                   (set_output_flow_def (Some f)
                      (set_scte35_interval interval
                         (set_scte35_null_section
                            (Some (section_bytes SCTE35_NULL_COMMAND [] []))
                            (set_flow_def (Some fd) (pipe w))))) al tr
            /\ published tr = published (trace w) ++ [f; f]).
  { subst wb. unfold upipe_ts_scte35g_set_flow_def,
      upipe_ts_scte35g_set_scte35_interval. rewrite Hmatch. cbn [negb snd].
    set (w0 := with_pipe (set_scte35_interval interval) w).
    assert (Hok0 : allocs_ok w0) by exact Hok.
    destruct (build_flow_def_ok w0 Hok0) as (al0 & -> & H0).
    change (scte35_interval (pipe w0)) with interval. rewrite Hiv. cbv zeta.
    set (w1 := mk_world _ al0 (trace w0 ++ _)).
    destruct (draw_ok w1 H0) as (al1 & -> & H1). cbn [negb pipe].
    change (flow_def (pipe w1)) with (flow_def (pipe w)). rewrite Hfd.
    set (w2 := with_pipe (set_flow_def (Some fd))
                 (mk_world (pipe w1) al1 (trace w1))).
    assert (Hok2 : allocs_ok w2) by exact H1.
    destruct (build_null_ok w2 ltac:(discriminate) Hok2) as (al2 & -> & H2).
    set (w3 := mk_world _ al2 (trace w2)).
    destruct (build_flow_def_ok w3 H2) as (al3 & -> & _).
    change (scte35_interval (pipe w3)) with interval. rewrite Hiv. cbv zeta.
    eexists. eexists. split; [reflexivity|].
    unfold w3, w2, w1, w0. cbn [trace with_pipe].
    rewrite !published_app. cbn [published app].
    rewrite <- app_assoc. reflexivity. }
  destruct A as (ala & tra & -> & Pa), B as (alb & trb & -> & Pb).
  cbn [pipe trace]. auto.
Qed.

Lemma configuration_order_witness :
  let wa := snd (upipe_ts_scte35g_set_scte35_interval
                   (snd (upipe_ts_scte35g_set_flow_def w_start
                           (Some scte35_flow)))
                   1350000) in
  let wb := snd (upipe_ts_scte35g_set_flow_def
                   (snd (upipe_ts_scte35g_set_scte35_interval w_start
                           1350000))
                   (Some scte35_flow)) in
  flow_def (pipe w_start) = None
  /\ allocs_ok w_start
  /\ uref_flow_match_def scte35_flow "void.scte35." = true
  /\ 1350000 <> 0
  /\ pipe wb = pipe wa
  /\ published (trace wb)
     = published (trace w_start)
       ++ [mk_out_flow 1350000 (183 * 27000000 / 1350000) 125000;
           mk_out_flow 1350000 (183 * 27000000 / 1350000) 125000].
Proof.
  intros wa wb.
  assert (H1 : flow_def (pipe w_start) = None) by reflexivity.
  assert (H2 : allocs_ok w_start) by constructor.
  assert (H3 : uref_flow_match_def scte35_flow "void.scte35." = true)
    by reflexivity.
  assert (H4 : 1350000 <> 0) by discriminate.
  repeat (split; [assumption|]).
  pose proof (configuration_order w_start scte35_flow 1350000 H1 H2 H3 H4)
    as (_ & A & _ & B).
  split; [exact A|exact B].
Defined.

End Configuration.
